(** * 8255: a shallow embedding of the interpreter and its memory stack

    The development follows the three source files of the package:
    - [stack]     : src/8255/stack.py     (arena, allocator, variable layer)
    - [construct] : src/8255/construct.py (program construction)
    - [main]      : src/8255/__main__.py  (fetch/decode/execute loop)
    (src/8255.py is an earlier, single-file variant of the interpreter.)

    Python integers are unbounded and are modelled by [Z]; Python texts are
    modelled by [string], that is by sequences of code points below 256.
    Exceptions are values of the type [exn]; a method that mutates its
    object is a function of the state monad [M], which returns the state
    reached also when it raises (a caller that catches the exception goes
    on from that state).  The console is part of the state of the engine:
    the lines that [input] will read and the texts written so far.  The
    engine is parameterised by the unicode-escape codec of the host
    language, which it applies to text literals.  Resource limits of the
    interpreter (memory, the digit limit of the conversions between
    integers and texts) are not modelled.

    The file has three parts: the embedding of the code, the vocabulary of
    the specification with the example inputs, and the lemmas and
    theorems. *)

From Stdlib Require Import ZArith String Ascii List Lia Bool.
From stdpp Require Import base list gmap strings pretty.

Local Open Scope string_scope.
Local Open Scope list_scope.
Local Open Scope Z_scope.

(** ** Exceptions and the state-and-exception monad *)

Inductive exn : Type :=
  (* stack.py: StackError and its subclasses *)
  | StackError
  | NotAllocated (variable_name : string)
  | NullDataInOperation
  | ReservedName (variable_name : string)
  | MemoryOverflow
  (* built-in exceptions raised by the code or by the operations it uses *)
  | SyntaxError
  | ValueError
  | TypeError
  | OverflowError
  | ZeroDivisionError
  | AttributeError
  | KeyError
  | IndexError
  | EOFError
  | UnicodeEncodeError
  | UnicodeDecodeError
  | Exception.

(** [isinstance(e, StackError)] *)
Definition isinstance_StackError (e : exn) : bool :=
  match e with
  | StackError | NotAllocated _ | NullDataInOperation
  | ReservedName _ | MemoryOverflow => true
  | _ => false
  end.

Inductive res (S A : Type) : Type :=
  | Ok (a : A) (s : S)
  | Raise (e : exn) (s : S).
Arguments Ok {S A} a s.
Arguments Raise {S A} e s.

Definition M (S A : Type) : Type := S -> res S A.

Definition ret {S A} (a : A) : M S A := fun s => Ok a s.
Definition raise {S A} (e : exn) : M S A := fun s => Raise e s.
Definition bind {S A B} (m : M S A) (k : A -> M S B) : M S B :=
  fun s => match m s with
           | Ok a s' => k a s'
           | Raise e s' => Raise e s'
           end.
Definition gets {S A} (f : S -> A) : M S A := fun s => Ok (f s) s.
Definition modify {S} (f : S -> S) : M S unit := fun s => Ok tt (f s).
(** a pure computation that may raise *)
Definition lift {S A} (r : exn + A) : M S A :=
  fun s => match r with inl e => Raise e s | inr a => Ok a s end.

Notation "x <- m ;; k" := (bind m (fun x => k))
  (at level 100, m at next level, right associativity).
Notation "m ;;; k" := (bind m (fun _ => k))
  (at level 100, k at level 200, right associativity).

Definition state_of {S A} (r : res S A) : S :=
  match r with Ok _ s => s | Raise _ s => s end.

(** ** Python values and the list and text operations the code uses *)

Inductive pyvalue : Type :=
  | VInt (z : Z)
  | VStr (s : string).

Module Py.

Definition len {A} (l : list A) : Z := Z.of_nat (length l).

(** Index adjustment of a slice bound: a negative bound counts from the
    end, and both bounds are clamped to [0, len]. *)
Definition clamp (n i : Z) : Z :=
  if i <? 0 then Z.max (i + n) 0 else Z.min i n.

(** [l[a:b]] *)
Definition slice {A} (l : list A) (a b : Z) : list A :=
  let a' := clamp (len l) a in
  let b' := clamp (len l) b in
  take (Z.to_nat (b' - a')) (drop (Z.to_nat a') l).

(** [l[a:b] = new] *)
Definition slice_assign {A} (l : list A) (a b : Z) (new : list A) : list A :=
  let a' := clamp (len l) a in
  let b' := Z.max a' (clamp (len l) b) in
  take (Z.to_nat a') l ++ new ++ drop (Z.to_nat b') l.

(** [[x] * n] *)
Definition repeat_list {A} (x : A) (n : Z) : list A := replicate (Z.to_nat n) x.

Definition ord (c : ascii) : Z := Z.of_N (N_of_ascii c).
Definition chr (b : Z) : ascii := ascii_of_N (Z.to_N b).

Definition chars (s : string) : list ascii := list_ascii_of_string s.
Definition str_of_chars (l : list ascii) : string := string_of_list_ascii l.

(** [s.encode("ascii")], [None] for UnicodeEncodeError *)
Definition encode_ascii (s : string) : option (list Z) :=
  if forallb (fun c => ord c <? 128) (chars s)
  then Some (map ord (chars s)) else None.

(** [bs.decode("ascii")], [None] for UnicodeDecodeError *)
Definition decode_ascii (bs : list Z) : option string :=
  if forallb (fun b => (0 <=? b) && (b <? 128)) bs
  then Some (str_of_chars (map chr bs)) else None.

(** Big-endian base-256 digits of [v mod 256^n]. *)
Fixpoint be_bytes (n : nat) (v : Z) : list Z :=
  match n with
  | O => []
  | S k => be_bytes k (v / 256) ++ [v mod 256]
  end.

(** [v.to_bytes(size, signed=True)] (big-endian, two's complement):
    ValueError on a negative length, OverflowError when [v] does not fit.
    With a length of 0 there is no sign bit to check, and the host
    language accepts [-1] as well as [0]: both give the empty byte
    string. *)
Definition to_bytes_signed (v size : Z) : exn + list Z :=
  if size <? 0 then inl ValueError
  else if ((- 2 ^ (8 * size) <=? 2 * v) && (2 * v <? 2 ^ (8 * size)))
          || ((size =? 0) && (v =? -1))
       then inr (be_bytes (Z.to_nat size) v)
       else inl OverflowError.

Definition be_value (bs : list Z) : Z :=
  fold_left (fun acc b => acc * 256 + b) bs 0.

(** [int.from_bytes(bs, signed=True)] (big-endian, two's complement) *)
Definition from_bytes_signed (bs : list Z) : Z :=
  match bs with
  | [] => 0
  | b :: _ => if 128 <=? b then be_value bs - 2 ^ (8 * len bs) else be_value bs
  end.

(** [l[i]] with Python's negative indices; [None] for IndexError *)
Definition getitem {A} (l : list A) (i : Z) : option A :=
  if i <? 0
  then (if i + len l <? 0 then None else l !! Z.to_nat (i + len l))
  else l !! Z.to_nat i.

Definition in_range (lo hi : Z) (c : ascii) : bool :=
  (lo <=? ord c) && (ord c <=? hi).
Definition one_of (codes : list Z) (c : ascii) : bool :=
  existsb (Z.eqb (ord c)) codes.

(** [c.isspace()], which is also the class [\s] of [re] on texts *)
Definition isspace (c : ascii) : bool :=
  in_range 9 13 c || in_range 28 32 c || one_of [133; 160] c.

(** the class [\d] of [re] on texts: the decimal digits *)
Definition isdecimal (c : ascii) : bool := in_range 48 57 c.

(** one character of [s.isnumeric()]: the decimal digits, the
    superscripts 2, 3, 1 and the fractions 1/4, 1/2, 3/4 *)
Definition isnumeric_char (c : ascii) : bool :=
  isdecimal c || one_of [178; 179; 185; 188; 189; 190] c.

(** [s.isnumeric()] *)
Definition isnumeric (s : string) : bool :=
  match chars s with
  | [] => false
  | cs => forallb isnumeric_char cs
  end.

(** the class [\w] of [re] on texts: alphanumeric or underscore *)
Definition isword (c : ascii) : bool :=
  isnumeric_char c || in_range 65 90 c || in_range 97 122 c
  || one_of [95; 170; 181; 186] c
  || in_range 192 214 c || in_range 216 246 c || in_range 248 255 c.

(** Digits of a decimal literal, single underscores allowed between them. *)
Fixpoint digits_value (s : list ascii) (acc : Z) (after_digit : bool) : option Z :=
  match s with
  | [] => if after_digit then Some acc else None
  | c :: rest =>
      if isdecimal c then digits_value rest (acc * 10 + (ord c - 48)) true
      else if (ord c =? 95) && after_digit then digits_value rest acc false
      else None
  end.

(** white space skipped by [int(s)] around the literal *)
Definition int_space (c : ascii) : bool :=
  in_range 9 13 c || one_of [32; 133; 160] c.

Fixpoint lstrip (f : ascii -> bool) (s : list ascii) : list ascii :=
  match s with
  | c :: rest => if f c then lstrip f rest else s
  | [] => []
  end.
Definition rstrip (f : ascii -> bool) (s : list ascii) : list ascii :=
  rev (lstrip f (rev s)).

(** [int(s)] on a text, [None] for ValueError *)
Definition int_of_str (s : string) : option Z :=
  match rstrip int_space (lstrip int_space (chars s)) with
  | c :: rest =>
      if ord c =? 45 then z ← digits_value rest 0 false; Some (- z)
      else if ord c =? 43 then digits_value rest 0 false
      else digits_value (c :: rest) 0 false
  | [] => None
  end.

(** [str(z)] *)
Definition str_of_int (z : Z) : string := pretty z.

Definition is_quote (c : ascii) : bool := ord c =? 34.

(** [s.strip] of the double-quote character *)
Definition strip_quotes (s : string) : string :=
  str_of_chars (rstrip is_quote (lstrip is_quote (chars s))).

(** [s.replace(old, new)] for a non-empty [old]; [skip] counts the
    characters of a replaced occurrence that are still to be dropped. *)
Fixpoint replace_from (old new : string) (s : string) (skip : nat) : string :=
  match s with
  | EmptyString => EmptyString
  | String c rest =>
      match skip with
      | S k => replace_from old new rest k
      | O =>
          if String.prefix old s
          then (new ++ replace_from old new rest (Nat.pred (String.length old)))%string
          else String c (replace_from old new rest O)
      end
  end.
Definition replace (old new s : string) : string := replace_from old new s O.

Fixpoint span (f : ascii -> bool) (s : list ascii) : list ascii * list ascii :=
  match s with
  | c :: rest =>
      if f c then let (tok, r) := span f rest in (c :: tok, r) else ([], s)
  | [] => ([], [])
  end.

End Py.

(** ** stack.py *)

Inductive DataType : Type := INTEGER | STRING | NOTSET.

Module Allocation.
Record t : Type := mk { start : Z; end_ : Z; size : Z }.
End Allocation.
Abbreviation Allocation := Allocation.t.

(** A slot of [Stack.store]: [None] (free), the marker [ALLOCATED] (a
    [bytes] object, not an integer), or a byte value. *)
Inductive cell : Type :=
  | Free
  | ALLOCATED
  | Byte (b : Z).

Inductive binding : Type :=
  | Register (allocation : Allocation) (datatype : DataType)
  | ReservedRegister (value : pyvalue).

Module stack.

Record Stack : Type := mk {
  size : Z;
  vars : gmap string binding;
  store : list cell
}.

Definition set_store (f : list cell -> list cell) (self : Stack) : Stack :=
  mk (size self) (vars self) (f (store self)).
Definition set_vars (f : gmap string binding -> gmap string binding)
    (self : Stack) : Stack :=
  mk (size self) (f (vars self)) (store self).

(** [Stack.__init__] *)
Definition init (size : Z) : Stack :=
  mk size
     (<["slx" := ReservedRegister (VInt 0)]>
      (<["sly" := ReservedRegister (VInt 0)]>
       (<["slz" := ReservedRegister (VInt 0)]> ∅)))
     (Py.repeat_list Free size).

(** [Stack.serialize] *)
Definition serialize (value : pyvalue) (size : Z) : exn + list Z :=
  match value with
  | VInt v => Py.to_bytes_signed v size
  | VStr s =>
      match Py.encode_ascii s with
      | None => inl UnicodeEncodeError
      | Some string_value =>
          inr (string_value ++ Py.repeat_list 0 (size - Py.len string_value))
      end
  end.

(** The [for] loop of [Stack.allocate]: [items] is what is left of the
    store from index [i] on; the result is the [start_index] at which
    [count == size] was reached, or [None] when the loop runs out. *)
Fixpoint allocate_scan (size : Z) (items : list cell) (i count start_index : Z)
    : option Z :=
  match items with
  | [] => None
  | item :: rest =>
      match item with
      | Free =>
          let start_index := if count =? 0 then i else start_index in
          let count := count + 1 in
          if count =? size then Some start_index
          else allocate_scan size rest (i + 1) count start_index
      | _ => allocate_scan size rest (i + 1) 0 start_index
      end
  end.

(** [Stack.allocate] *)
Definition allocate (size : Z) : M Stack Allocation :=
  fun self =>
    match allocate_scan size (store self) 0 0 (-1) with
    | Some start_index =>
        Ok (Allocation.mk start_index (start_index + size - 1) size)
           (set_store (fun st => Py.slice_assign st start_index (start_index + size)
                                   (Py.repeat_list ALLOCATED size)) self)
    | None => Raise MemoryOverflow self
    end.

(** [Stack.write] *)
Definition write (allocation : Allocation) (value : pyvalue) : M Stack unit :=
  serialized_value <- lift (serialize value (Allocation.size allocation)) ;;
  fun self =>
    if Allocation.size allocation <? Py.len serialized_value
    then Raise MemoryOverflow self
    else if size self <? Allocation.end_ allocation - 1
    then Raise MemoryOverflow self
    else Ok tt (set_store (fun st => Py.slice_assign st (Allocation.start allocation)
                             (Allocation.end_ allocation + 1)
                             (map Byte serialized_value)) self).

(** [bytes(value)] on a list of store cells: an element that is not an
    integer is a TypeError, an integer outside [range(256)] a ValueError. *)
Fixpoint bytes_of_cells (value : list cell) : exn + list Z :=
  match value with
  | [] => inr []
  | Byte b :: rest =>
      if (0 <=? b) && (b <? 256)
      then match bytes_of_cells rest with
           | inr bs => inr (b :: bs)
           | inl e => inl e
           end
      else inl ValueError
  | _ :: _ => inl TypeError
  end.

(** Truth value of a cell: [0] is false; [ALLOCATED] is a non-empty
    [bytes] object and so is true. *)
Definition truthy (c : cell) : bool :=
  match c with
  | Free => false
  | ALLOCATED => true
  | Byte b => negb (b =? 0)
  end.

Definition is_None (c : cell) : bool :=
  match c with Free => true | _ => false end.

(** [Stack.get] *)
Definition get (allocation : Allocation) (cast : DataType) : M Stack pyvalue :=
  fun self =>
    let value := Py.slice (store self) (Allocation.start allocation)
                          (Allocation.end_ allocation + 1) in
    if existsb is_None value then Raise NullDataInOperation self
    else match cast with
         | INTEGER =>
             match bytes_of_cells value with
             | inr bs => Ok (VInt (Py.from_bytes_signed bs)) self
             | inl e => Raise e self
             end
         | STRING =>
             match bytes_of_cells (List.filter truthy value) with
             | inr bs =>
                 match Py.decode_ascii bs with
                 | Some s => Ok (VStr s) self
                 | None => Raise UnicodeDecodeError self
                 end
             | inl e => Raise e self
             end
         | NOTSET => Raise StackError self
         end.

(** [Stack.drop] *)
Definition drop (allocation : Allocation) : M Stack unit :=
  modify (set_store (fun st =>
    Py.slice_assign st (Allocation.start allocation) (Allocation.end_ allocation + 1)
      (Py.repeat_list Free (Allocation.size allocation)))).

(** [Stack.allocate_variable] *)
Definition allocate_variable (name : string) (size : Z) : M Stack unit :=
  fun self =>
    match vars self !! name with
    | Some _ => Raise ValueError self
    | None =>
        (allocation <- allocate size ;;
         modify (set_vars <[name := Register allocation NOTSET]>)) self
    end.

(** [DataType.INTEGER if isinstance(value, int) else DataType.STRING] *)
Definition datatype_of (value : pyvalue) : DataType :=
  match value with VInt _ => INTEGER | VStr _ => STRING end.

(** [Stack.write_variable] *)
Definition write_variable (name : string) (value : pyvalue) (reserved : bool)
    : M Stack unit :=
  fun self =>
    match vars self !! name with
    | None => Raise (NotAllocated name) self
    | Some (ReservedRegister _) =>
        if negb reserved then Raise (ReservedName name) self
        else Ok tt (set_vars <[name := ReservedRegister value]> self)
    | Some (Register allocation _) =>
        (modify (set_vars <[name := Register allocation (datatype_of value)]>) ;;;
         write allocation value) self
    end.

(** [Stack.get_variable] *)
Definition get_variable (name : string) : M Stack pyvalue :=
  fun self =>
    match vars self !! name with
    | None => Raise (NotAllocated name) self
    | Some (ReservedRegister value) => Ok value self
    | Some (Register allocation datatype) =>
        match datatype with
        | NOTSET => Raise NullDataInOperation self
        | _ => get allocation datatype self
        end
    end.

(** [Stack.drop_variable] *)
Definition drop_variable (name : string) : M Stack unit :=
  fun self =>
    match vars self !! name with
    | None => Raise (NotAllocated name) self
    | Some (ReservedRegister _) => Raise (ReservedName name) self
    | Some (Register allocation _) =>
        (drop allocation ;;; modify (set_vars (delete name))) self
    end.

End stack.
(** ** construct.py *)

Module construct.

(** [SIZE_SYSTEM_MAPPING] *)
Definition SIZE_SYSTEM_MAPPING : list (string * Z) :=
  [("BINARY", 1024); ("BIN", 1024); ("DECIMAL", 1000); ("DEC", 1000)].

Definition mapping_get (system : string) : option Z :=
  snd <$> find (fun kv => String.eqb (fst kv) system) SIZE_SYSTEM_MAPPING.

Record Program : Type := mk {
  name : option string;
  byte_size : Z;
  lines : list (list string);
  labels : gmap string Z
}.

(** The text up to the next double quote, and the text after it. *)
Fixpoint find_quote (s : list ascii) : option (list ascii * list ascii) :=
  match s with
  | [] => None
  | c :: rest =>
      if Py.is_quote c then Some ([], rest)
      else '(body, r) ← find_quote rest; Some (c :: body, r)
  end.

(** [re.findall(LINE_REGEX, line)]: at a double quote that is closed
    later, the quoted text is one token; anywhere else a token is a
    maximal run without white space.  A step consumes at least one
    character, so the length of the line is enough [fuel]. *)
Fixpoint findall_tokens (fuel : nat) (s : list ascii) : list string :=
  match fuel with
  | O => []
  | S fuel' =>
      match s with
      | [] => []
      | c :: rest =>
          if Py.isspace c then findall_tokens fuel' rest
          else
            let word :=
              let (tok, r) := Py.span (fun c => negb (Py.isspace c)) s in
              Py.str_of_chars tok :: findall_tokens fuel' r in
            if Py.is_quote c
            then match find_quote rest with
                 | Some (body, r) =>
                     Py.str_of_chars (c :: body ++ [c]) :: findall_tokens fuel' r
                 | None => word
                 end
            else word
      end
  end.

Definition LINE_REGEX_findall (line : string) : list string :=
  findall_tokens (String.length line) (Py.chars line).

(** [line[:line.index("//")] if "//" in line else line] *)
Fixpoint strip_comment (line : list string) : list string :=
  match line with
  | [] => []
  | tok :: rest => if String.eqb tok "//" then [] else tok :: strip_comment rest
  end.

(** [process_lines] *)
Definition process_lines (lines : list string) : list (list string) :=
  map (fun line => strip_comment (LINE_REGEX_findall line)) lines.

(** [re.match(r"(1|2|4|8|16|32|64|128)K", size)]: the first alternative
    that is followed by K at the start of [size]; the result is group 1. *)
Definition size_match (size : string) : option string :=
  find (fun alt => String.prefix (alt ++ "K")%string size)
       ["1"; "2"; "4"; "8"; "16"; "32"; "64"; "128"].

(** The local state of the loop of [construct_program]. *)
Record locals : Type := mk_locals {
  program : Program;
  in_code_block : bool;
  last_line : Z
}.

Definition set_program (f : Program -> Program) (st : locals) : locals :=
  mk_locals (f (program st)) (in_code_block st) (last_line st).

(** The first case that matches, as in a [match] statement. *)
Fixpoint first_case {A} (cases : list (option A)) (default : A) : A :=
  match cases with
  | [] => default
  | Some a :: _ => a
  | None :: rest => first_case rest default
  end.

(** [case ["START"] if not in_code_block] *)
Definition case_START (line : list string) (st : locals) : option (res locals unit) :=
  match line with
  | [kw] => if String.eqb kw "START" && negb (in_code_block st)
            then Some (Ok tt st) else None
  | _ => None
  end.

(** [case ["PROGRAM", program_name] if not in_code_block] *)
Definition case_PROGRAM (line : list string) (st : locals) : option (res locals unit) :=
  match line with
  | [kw; program_name] =>
      if String.eqb kw "PROGRAM" && negb (in_code_block st)
      then Some (Ok tt (set_program (fun p =>
             mk (Some (Py.strip_quotes program_name)) (byte_size p) (lines p) (labels p)) st))
      else None
  | _ => None
  end.

(** [case ["SIZE", size, system] if not in_code_block] *)
Definition case_SIZE (line : list string) (st : locals) : option (res locals unit) :=
  match line with
  | [kw; size; system] =>
      if String.eqb kw "SIZE" && negb (in_code_block st)
      then Some
        match size_match size with
        | None => Raise SyntaxError st
        | Some group1 =>
            match mapping_get system with
            | None => Raise SyntaxError st
            | Some factor =>
                match Py.int_of_str group1 with
                | None => Raise ValueError st
                | Some n => Ok tt (set_program (fun p =>
                    mk (name p) (n * factor) (lines p) (labels p)) st)
                end
            end
        end
      else None
  | _ => None
  end.

(** [case ["."]] *)
Definition case_dot (processed_lines : list (list string)) (index : Z)
    (line : list string) (st : locals) : option (res locals unit) :=
  match line with
  | [kw] =>
      if String.eqb kw "."
      then Some (if negb (in_code_block st) then Raise SyntaxError st
                 else if negb (index =? Py.len processed_lines - 1)
                 then Raise SyntaxError st
                 else Ok tt st)
      else None
  | _ => None
  end.

Definition tokens_eqb (a b : list string) : bool :=
  bool_decide (a = b).

(** [case [line_number, *code_line]] *)
Definition case_numbered (processed_lines : list (list string)) (index : Z)
    (line : list string) (st : locals) : option (res locals unit) :=
  match line with
  | line_number :: code_line =>
      Some
        (if negb (Py.isnumeric line_number) then Raise SyntaxError st
         else
           match Py.getitem processed_lines (index - 1) with
           | None => Raise IndexError st
           | Some previous =>
               if negb (tokens_eqb previous ["START"]) && negb (in_code_block st)
               then Raise SyntaxError st
               else
                 match Py.int_of_str line_number with
                 | None => Raise ValueError st
                 | Some n =>
                     if (n <=? last_line st) || negb (n mod 10 =? 0)
                     then Raise SyntaxError st
                     else
                       let p := program st in
                       let labels' :=
                         match code_line with
                         | [kw; label_name] =>
                             if String.eqb kw "lbl"
                             then <[label_name := Py.len (lines p)]> (labels p)
                             else labels p
                         | _ => labels p
                         end in
                       Ok tt (mk_locals
                                (mk (name p) (byte_size p) (lines p ++ [code_line]) labels')
                                true n)
                 end
           end)
  | [] => None
  end.

(** The body of the loop of [construct_program], for one line. *)
Definition construct_line (processed_lines : list (list string)) (index : Z)
    (line : list string) : M locals unit :=
  fun st =>
    first_case
      [ case_START line st;
        case_PROGRAM line st;
        case_SIZE line st;
        case_dot processed_lines index line st;
        case_numbered processed_lines index line st ]
      (Raise Exception st).

(** [for index, line in enumerate(processed_lines)], from [index] on *)
Fixpoint construct_loop (processed_lines : list (list string)) (index : Z)
    (todo : list (list string)) : M locals unit :=
  match todo with
  | [] => ret tt
  | line :: rest =>
      construct_line processed_lines index line ;;;
      construct_loop processed_lines (index + 1) rest
  end.

Definition initial : locals :=
  mk_locals (mk None 8192 [] ∅) false 0.

(** [construct_program] once [process_lines] has run *)
Definition construct_processed (processed_lines : list (list string))
    : exn + Program :=
  match construct_loop processed_lines 0 processed_lines initial with
  | Ok _ st => inr (program st)
  | Raise e _ => inl e
  end.

(** [construct_program] *)
Definition construct_program (lines : list string) : exn + Program :=
  construct_processed (process_lines lines).

End construct.

(** ** __main__.py *)

Module main.

(** The state of [process_file] once the program is constructed: the
    stack, the locals of the loop, and the console (the lines still to be
    read by [input] and what was written so far). *)
Record machine : Type := mk {
  stack : stack.Stack;
  current_line : Z;
  comparison_result : option string;
  stdin : list string;
  stdout : list string
}.

Definition set_stack (f : stack.Stack -> stack.Stack) (m : machine) : machine :=
  mk (f (stack m)) (current_line m) (comparison_result m) (stdin m) (stdout m).
Definition set_current_line (n : Z) (m : machine) : machine :=
  mk (stack m) n (comparison_result m) (stdin m) (stdout m).
Definition set_comparison_result (r : string) (m : machine) : machine :=
  mk (stack m) (current_line m) (Some r) (stdin m) (stdout m).

(** A method of the stack, run on the stack of the machine. *)
Definition on_stack {A} (c : M stack.Stack A) : M machine A :=
  fun m =>
    match c (stack m) with
    | Ok a s => Ok a (set_stack (fun _ => s) m)
    | Raise e s => Raise e (set_stack (fun _ => s) m)
    end.

(** [print(text)] *)
Definition print (text : string) : M machine unit :=
  modify (fun m => mk (stack m) (current_line m) (comparison_result m)
                      (stdin m) (stdout m ++ [text])).

(** [input(prompt)]: the prompt is written, then a line is read;
    EOFError when there is none. *)
Definition input (prompt : string) : M machine string :=
  fun m =>
    let m' := mk (stack m) (current_line m) (comparison_result m)
                 (stdin m) (stdout m ++ [prompt]) in
    match stdin m with
    | [] => Raise EOFError m'
    | line :: rest =>
        Ok line (mk (stack m') (current_line m') (comparison_result m') rest (stdout m'))
    end.

(** [str(value)] *)
Definition str (v : pyvalue) : string :=
  match v with VInt z => Py.str_of_int z | VStr s => s end.

(** [int(value)], [None] for ValueError *)
Definition int (v : pyvalue) : option Z :=
  match v with VInt z => Some z | VStr s => Py.int_of_str s end.

Definition opt_or {A} (e : exn) (o : option A) : exn + A :=
  match o with Some a => inr a | None => inl e end.

(** [re.match(variable_regex, variable)], group 1: an ampersand followed
    by a non-empty, maximal run of word characters *)
Definition variable_regex (variable : string) : option string :=
  match Py.chars variable with
  | c :: rest =>
      if Ascii.eqb c "&"
      then match Py.span Py.isword rest with
           | ([], _) => None
           | (w, _) => Some (Py.str_of_chars w)
           end
      else None
  | [] => None
  end.

(** [re.match(allocation_regex, variable)], group 1: a colon, an opening
    bracket, a non-empty run of digits and a closing bracket *)
Definition allocation_regex (variable : string) : option string :=
  match Py.chars variable with
  | c1 :: c2 :: rest =>
      if Ascii.eqb c1 ":" && Ascii.eqb c2 "["
      then match Py.span Py.isdecimal rest with
           | (d :: ds, c3 :: _) =>
               if Ascii.eqb c3 "]" then Some (Py.str_of_chars (d :: ds)) else None
           | _ => None
           end
      else None
  | _ => None
  end.

(** [re.findall(string_sub_regex, value)]: every dollar sign that is
    followed by a word character, with the maximal run of them; the
    search goes on after the match. *)
Fixpoint string_sub_findall (fuel : nat) (s : list ascii) : list string :=
  match fuel with
  | O => []
  | S fuel' =>
      match s with
      | [] => []
      | c :: rest =>
          if Ascii.eqb c "$"
          then match Py.span Py.isword rest with
               | ([], _) => string_sub_findall fuel' rest
               | (w, r) => Py.str_of_chars (c :: w) :: string_sub_findall fuel' r
               end
          else string_sub_findall fuel' rest
      end
  end.

(** [variable[1:]] *)
Definition tail (s : string) : string :=
  match s with EmptyString => EmptyString | String _ rest => rest end.

Fixpoint foldM {S A B} (f : B -> A -> M S B) (l : list A) (b : B) : M S B :=
  match l with
  | [] => ret b
  | a :: rest => b' <- f b a ;; foldM f rest b'
  end.

(** The result of an arithmetic operator: a value of the machine, a
    float (which the machine cannot store), or an exception. *)
Inductive arith_result : Type :=
  | AValue (v : pyvalue)
  | AFloat
  | ARaise (e : exn).

(** Conversion of [num / den] to a float overflows when the quotient
    rounds to 2^1024 or more. *)
Definition float_overflow (num den : Z) : bool :=
  (2 ^ 1024 - 2 ^ 970) * Z.abs den <=? Z.abs num.

(** [s * n] on a text *)
Definition str_repeat (s : string) (n : Z) : string :=
  Py.str_of_chars (concat (replicate (Z.to_nat n) (Py.chars s))).

(** [getattr(operator, operator_type if operator_type != "div" else
    "truediv")(a, b)] *)
Definition apply_operator (operator_type : string) (a b : pyvalue) : arith_result :=
  if String.eqb operator_type "add" then
    match a, b with
    | VInt x, VInt y => AValue (VInt (x + y))
    | VStr x, VStr y => AValue (VStr (x ++ y))
    | _, _ => ARaise TypeError
    end
  else if String.eqb operator_type "sub" then
    match a, b with
    | VInt x, VInt y => AValue (VInt (x - y))
    | _, _ => ARaise TypeError
    end
  else if String.eqb operator_type "mul" then
    match a, b with
    | VInt x, VInt y => AValue (VInt (x * y))
    | VStr x, VInt y => AValue (VStr (str_repeat x y))
    | VInt x, VStr y => AValue (VStr (str_repeat y x))
    | VStr _, VStr _ => ARaise TypeError
    end
  else if String.eqb operator_type "div" then
    match a, b with
    | VInt x, VInt y =>
        if y =? 0 then ARaise ZeroDivisionError
        else if float_overflow x y then ARaise OverflowError
        else AFloat
    | _, _ => ARaise TypeError
    end
  else (* pow *)
    match a, b with
    | VInt x, VInt y =>
        if 0 <=? y then AValue (VInt (x ^ y))
        else if float_overflow x 1 || float_overflow y 1 then ARaise OverflowError
        else if x =? 0 then ARaise ZeroDivisionError
        else AFloat
    | _, _ => ARaise TypeError
    end.

(** [Stack.write_variable(name, value)] when [value] is a float, which is
    outside the annotated type of the method: the checks on the name are
    the same; a float is not an [int], so the datatype becomes [STRING];
    then [serialize] fails on the float, which has no [encode]. *)
Definition write_variable_float (name : string) : M stack.Stack unit :=
  fun self =>
    match stack.vars self !! name with
    | None => Raise (NotAllocated name) self
    | Some (ReservedRegister _) => Raise (ReservedName name) self
    | Some (Register allocation _) =>
        Raise AttributeError
              (stack.set_vars <[name := Register allocation STRING]> self)
    end.

(** Comparisons of two values. *)
Definition eq_values (a b : pyvalue) : bool :=
  match a, b with
  | VInt x, VInt y => x =? y
  | VStr x, VStr y => String.eqb x y
  | _, _ => false
  end.
Definition ne_values (a b : pyvalue) : bool := negb (eq_values a b).
Definition same_type (a b : pyvalue) : bool :=
  match a, b with
  | VInt _, VInt _ | VStr _, VStr _ => true
  | _, _ => false
  end.
(** [a > b] and the like, for two values of the same type (on other
    values the comparison is a TypeError) *)
Definition compare_values (a b : pyvalue) : exn + comparison :=
  match a, b with
  | VInt x, VInt y => inr (x ?= y)
  | VStr x, VStr y => inr (String.compare x y)
  | _, _ => inl TypeError
  end.
Definition gt_values (a b : pyvalue) : exn + bool :=
  match compare_values a b with
  | inr Gt => inr true | inr _ => inr false | inl e => inl e end.
Definition lt_values (a b : pyvalue) : exn + bool :=
  match compare_values a b with
  | inr Lt => inr true | inr _ => inr false | inl e => inl e end.
Definition ge_values (a b : pyvalue) : exn + bool :=
  match compare_values a b with
  | inr Lt => inr false | inr _ => inr true | inl e => inl e end.
Definition le_values (a b : pyvalue) : exn + bool :=
  match compare_values a b with
  | inr Gt => inr false | inr _ => inr true | inl e => inl e end.

(** The branches of the [cmp] case that come after the equality check
    and the inequality check: the check of the types, then the ordering
    checks in their order. *)
Definition cmp_ordering (variable1 variable2 : pyvalue) : M machine unit :=
  if negb (same_type variable1 variable2)
  then raise ValueError
  else
    gt <- lift (gt_values variable1 variable2) ;;
    if gt : bool then modify (set_comparison_result "jgt") else
    lt <- lift (lt_values variable1 variable2) ;;
    if lt : bool then modify (set_comparison_result "jlt") else
    ge <- lift (ge_values variable1 variable2) ;;
    if ge : bool then modify (set_comparison_result "jge") else
    le <- lift (le_values variable1 variable2) ;;
    if le : bool then modify (set_comparison_result "jle") else
    ret tt.

(** How the body of the [try] ends when it does not raise: it runs to
    its end, or it leaves the iteration by [continue]. *)
Inductive control : Type := Fallthrough | Continue.

Section Engine.

(** [text.encode("latin-1", "backslashreplace").decode("unicode-escape")],
    the codec of the host language, [None] for UnicodeDecodeError. *)
Variable unicode_escape : string -> option string.

Variable program : construct.Program.

(** [process_value] *)
Definition process_value (value : string) : M machine pyvalue :=
  match Py.chars value with
  | [] => raise IndexError
  | c :: rest =>
      if Ascii.eqb c "&" then
        match rest with
        | [] => raise SyntaxError
        | _ => on_stack (stack.get_variable (tail value))
        end
      else if Py.isnumeric value then
        lift (opt_or ValueError (VInt <$> Py.int_of_str value))
      else if negb (Py.is_quote c
                    && match last (c :: rest) with
                       | Some c' => Py.is_quote c' | None => false end
                    && (1 <? Py.len (c :: rest)))
      then raise SyntaxError
      else
        let value := Py.strip_quotes value in
        value <- foldM (fun value variable =>
                   v <- on_stack (stack.get_variable (tail variable)) ;;
                   ret (Py.replace variable (str v) value))
                 (string_sub_findall (String.length value) (Py.chars value))
                 value ;;
        lift (opt_or UnicodeDecodeError (VStr <$> unicode_escape value))
  end.

(** [handle_variable] *)
Definition handle_variable (regex : string -> option string) (variable : string)
    : M machine string :=
  lift (opt_or SyntaxError (regex variable)).

(** [case ["out", message]] *)
Definition case_out (line : list string) : option (M machine control) :=
  match line with
  | [op; message] =>
      if String.eqb op "out"
      then Some (v <- process_value message ;; print (str v) ;;; ret Fallthrough)
      else None
  | _ => None
  end.

(** [case ["lbl", _]] *)
Definition case_lbl (line : list string) : option (M machine control) :=
  match line with
  | [op; _] => if String.eqb op "lbl" then Some (ret Fallthrough) else None
  | _ => None
  end.

(** [case ["cls"]] *)
Definition case_cls (line : list string) : option (M machine control) :=
  match line with
  | [op] =>
      if String.eqb op "cls"
      then Some (print (String (ascii_of_N 27) "[2J") ;;; ret Fallthrough)
      else None
  | _ => None
  end.

(** [case ["alc", variable, allocation]] *)
Definition case_alc (line : list string) : option (M machine control) :=
  match line with
  | [op; variable; allocation] =>
      if String.eqb op "alc"
      then Some (name <- handle_variable variable_regex variable ;;
                 digits <- handle_variable allocation_regex allocation ;;
                 size <- lift (opt_or ValueError (Py.int_of_str digits)) ;;
                 on_stack (stack.allocate_variable name size) ;;;
                 ret Fallthrough)
      else None
  | _ => None
  end.

(** [case ["inp", prompt, ">", variable]] *)
Definition case_inp (line : list string) : option (M machine control) :=
  match line with
  | [op; prompt; gt; variable] =>
      if String.eqb op "inp" && String.eqb gt ">"
      then Some (value <- process_value prompt ;;
                 match value with
                 | VStr prompt_text =>
                     name <- handle_variable variable_regex variable ;;
                     answer <- input prompt_text ;;
                     on_stack (stack.write_variable name (VStr answer) false) ;;;
                     ret Fallthrough
                 | VInt _ => raise ValueError
                 end)
      else None
  | _ => None
  end.

(** [case ["add" | "sub" | "mul" | "div" | "pow" as operator_type, num1,
    num2, ">", variable]] *)
Definition case_arith (line : list string) : option (M machine control) :=
  match line with
  | [operator_type; num1; num2; gt; variable] =>
      if existsb (String.eqb operator_type) ["add"; "sub"; "mul"; "div"; "pow"]
         && String.eqb gt ">"
      then Some (name <- handle_variable variable_regex variable ;;
                 a <- process_value num1 ;;
                 b <- process_value num2 ;;
                 match apply_operator operator_type a b with
                 | AValue v => on_stack (stack.write_variable name v false)
                 | AFloat => on_stack (write_variable_float name)
                 | ARaise e => raise e
                 end ;;;
                 ret Fallthrough)
      else None
  | _ => None
  end.

(** [case ["cst", variable, "STRING" | "INTEGER" as cast_type]] *)
Definition case_cst (line : list string) : option (M machine control) :=
  match line with
  | [op; variable; cast_type] =>
      if String.eqb op "cst"
         && existsb (String.eqb cast_type) ["STRING"; "INTEGER"]
      then Some (variable <- handle_variable variable_regex variable ;;
                 v <- on_stack (stack.get_variable variable) ;;
                 converted <-
                   (if String.eqb cast_type "INTEGER"
                    then lift (opt_or ValueError (VInt <$> int v))
                    else ret (VStr (str v))) ;;
                 on_stack (stack.write_variable variable converted false) ;;;
                 ret Fallthrough)
      else None
  | _ => None
  end.

(** [case ["cmp", variable1, variable2]] *)
Definition case_cmp (line : list string) : option (M machine control) :=
  match line with
  | [op; variable1; variable2] =>
      if String.eqb op "cmp"
      then Some (variable1 <- process_value variable1 ;;
                 variable2 <- process_value variable2 ;;
                 (if eq_values variable1 variable2
                  then modify (set_comparison_result "jeq")
                  else if ne_values variable1 variable2
                  then modify (set_comparison_result "jne")
                  else if negb (same_type variable1 variable2)
                  then raise ValueError
                  else
                    gt <- lift (gt_values variable1 variable2) ;;
                    if gt : bool then modify (set_comparison_result "jgt") else
                    lt <- lift (lt_values variable1 variable2) ;;
                    if lt : bool then modify (set_comparison_result "jlt") else
                    ge <- lift (ge_values variable1 variable2) ;;
                    if ge : bool then modify (set_comparison_result "jge") else
                    le <- lift (le_values variable1 variable2) ;;
                    if le : bool then modify (set_comparison_result "jle") else
                    ret tt) ;;;
                 ret Fallthrough)
      else None
  | _ => None
  end.

(** [case ["jeq" | "jnq" | "jgt" | "jlt" | "jge" | "jle" as jump_type,
    label]] *)
Definition case_jump (line : list string) : option (M machine control) :=
  match line with
  | [jump_type; label] =>
      if existsb (String.eqb jump_type) ["jeq"; "jnq"; "jgt"; "jlt"; "jge"; "jle"]
      then Some (result <- gets comparison_result ;;
                 if bool_decide (result = Some jump_type)
                 then target <- lift (opt_or KeyError (construct.labels program !! label)) ;;
                      modify (set_current_line target) ;;;
                      ret Continue
                 else ret Fallthrough)
      else None
  | _ => None
  end.

(** [case ["drp", variable]] *)
Definition case_drp (line : list string) : option (M machine control) :=
  match line with
  | [op; variable] =>
      if String.eqb op "drp"
      then Some (name <- handle_variable variable_regex variable ;;
                 on_stack (stack.drop_variable name) ;;;
                 ret Fallthrough)
      else None
  | _ => None
  end.

(** [case ["set", variable, value]] *)
Definition case_set (line : list string) : option (M machine control) :=
  match line with
  | [op; variable; value] =>
      if String.eqb op "set"
      then Some (name <- handle_variable variable_regex variable ;;
                 v <- process_value value ;;
                 on_stack (stack.write_variable name v false) ;;;
                 ret Fallthrough)
      else None
  | _ => None
  end.

(** The body of the [try]: [match program.lines[current_line]]. *)
Definition execute : M machine control :=
  fun m =>
    match Py.getitem (construct.lines program) (current_line m) with
    | None => Raise IndexError m
    | Some line =>
        construct.first_case
          [ case_out line; case_lbl line; case_cls line; case_alc line;
            case_inp line; case_arith line; case_cst line; case_cmp line;
            case_jump line; case_drp line; case_set line ]
          (raise SyntaxError) m
    end.

(** What one iteration of the [while] loop leads to. *)
Inductive outcome : Type :=
  | Finished                      (* the loop condition is false *)
  | Next (m : machine)            (* the loop goes on from [m] *)
  | Fatal (e : exn) (m : machine) (* [e] leaves [process_file] *).

(** The end of an iteration that did not [continue]:
    [stack.write_variable("slx", slx_code, reserved = True)] and
    [current_line += 1]. *)
Definition finish (slx_code : Z) (m : machine) : outcome :=
  match on_stack (stack.write_variable "slx" (VInt slx_code) true) m with
  | Ok _ m' => Next (set_current_line (current_line m' + 1) m')
  | Raise e m' => Fatal e m'
  end.

(** One iteration of the [while] loop. *)
Definition step (m : machine) : outcome :=
  if current_line m <=? Py.len (construct.lines program) - 1 then
    match execute m with
    | Ok Continue m' => Next m'
    | Ok Fallthrough m' => finish 0 m'
    | Raise e m' =>
        if isinstance_StackError e then Fatal e m' else finish 1 m'
    end
  else Finished.

(** The [while] loop, for at most [fuel] iterations; [None] when the
    loop is still running after them. *)
Fixpoint run (fuel : nat) (m : machine) : option (option exn * machine) :=
  match fuel with
  | O => None
  | S fuel' =>
      match step m with
      | Finished => Some (None, m)
      | Next m' => run fuel' m'
      | Fatal e m' => Some (Some e, m')
      end
  end.

(** The state in which the loop is entered. *)
Definition start (console : list string) : machine :=
  mk (stack.init (construct.byte_size program)) 0 None console [].

End Engine.

End main.


(** * Specification vocabulary *)

(** [free_run store i n]: the [n] cells of [store] from index [i] on exist
    and are all [Free]. *)
Definition free_run (store : list cell) (i n : Z) : Prop :=
  0 <= i /\ i + n <= Py.len store /\
  forall j, i <= j < i + n -> store !! Z.to_nat j = Some Free.

(** The cell of a store at an integer index. *)
Definition cell_at (store : list cell) (j : Z) : option cell :=
  if j <? 0 then None else store !! Z.to_nat j.

(** What [Stack.allocate] does for a request of [size] cells: it returns
    the first-fit allocation and marks exactly its cells, or it raises
    [MemoryOverflow], leaves the stack alone, and there is no free run. *)
Definition first_fit (self : stack.Stack) (size : Z)
    (r : res stack.Stack Allocation) : Prop :=
  match r with
  | Ok a self' =>
      free_run (stack.store self) (Allocation.start a) size
      /\ (forall k, k < Allocation.start a -> ~ free_run (stack.store self) k size)
      /\ (Allocation.start a = 0 \/
          cell_at (stack.store self) (Allocation.start a - 1) <> Some Free)
      /\ Allocation.end_ a = Allocation.start a + size - 1
      /\ Allocation.size a = size
      /\ stack.size self' = stack.size self
      /\ stack.vars self' = stack.vars self
      /\ Py.len (stack.store self') = Py.len (stack.store self)
      /\ forall j, 0 <= j ->
           cell_at (stack.store self') j =
           if (Allocation.start a <=? j) && (j <=? Allocation.end_ a)
           then Some ALLOCATED else cell_at (stack.store self) j
  | Raise e self' =>
      e = MemoryOverflow /\ self' = self
      /\ forall k, ~ free_run (stack.store self) k size
  end.

(** [fits_signed v n]: [v] fits in [n] bytes of two's complement, that is
    [- 2^(8n-1) <= v < 2^(8n-1)] (for [n = 0] only [0] fits). *)
Definition fits_signed (v n : Z) : Prop :=
  - 2 ^ (8 * n) <= 2 * v < 2 ^ (8 * n).

(** [ascii_text s]: every character of [s] is an ASCII character. *)
Definition ascii_text (s : string) : Prop :=
  Forall (fun c => Py.ord c < 128) (Py.chars s).

(** [nul_free s]: no character of [s] is the character of code 0. *)
Definition nul_free (s : string) : Prop :=
  Forall (fun c => Py.ord c <> 0) (Py.chars s).

(** The stack was made by [Stack.__init__]: its [size] is the length of
    its store. *)
Definition well_formed (self : stack.Stack) : Prop :=
  stack.size self = Py.len (stack.store self).

(** [a] is a range of the store of [self], with [end == start + size - 1]. *)
Definition valid_allocation (self : stack.Stack) (a : Allocation) : Prop :=
  0 <= Allocation.start a /\ 0 <= Allocation.size a
  /\ Allocation.end_ a = Allocation.start a + Allocation.size a - 1
  /\ Allocation.end_ a < Py.len (stack.store self).

(** [stack.write] followed by [stack.get]. *)
Definition write_then_get (a : Allocation) (v : pyvalue) (cast : DataType)
    : M stack.Stack pyvalue :=
  stack.write a v ;;; stack.get a cast.

(** ** Example inputs *)

(** A store with free runs of lengths 3 and 5, at offsets 1 and 5. *)
Definition two_runs : stack.Stack :=
  stack.mk 10 ∅ [Byte 1; Free; Free; Free; Byte 1; Free; Free; Free; Free; Free].

(** A store of two free cells. *)
Definition two_free : stack.Stack := stack.mk 2 ∅ [Free; Free].

(** The text of the three characters a, NUL, b. *)
Definition a_nul_b : string := String "a" (String (ascii_of_N 0) "b").

(** A stack of four cells and the allocation that covers them. *)
Definition four_cells : stack.Stack := stack.init 4.
Definition all_four : Allocation := Allocation.mk 0 3 4.
Definition two_of_four : Allocation := Allocation.mk 1 2 2.


(** ** Allocations that do not overlap *)

(** The ranges of [a] and [b] have no cell in common. *)
Definition disjoint (a b : Allocation) : Prop :=
  Allocation.end_ a < Allocation.start b \/ Allocation.end_ b < Allocation.start a.

(** [a] is a non-empty range [start .. end] with [end == start + size - 1]
    that lies within [0, N). *)
Definition in_arena (N : Z) (a : Allocation) : Prop :=
  1 <= Allocation.size a
  /\ 0 <= Allocation.start a
  /\ Allocation.end_ a = Allocation.start a + Allocation.size a - 1
  /\ Allocation.end_ a < N.

Definition pairwise_disjoint (l : list Allocation) : Prop :=
  forall (i j : nat) a b, i <> j -> l !! i = Some a -> l !! j = Some b -> disjoint a b.

(** Calls of [Stack.allocate] in a row, one for each size. *)
Fixpoint allocate_all (sizes : list Z) : M stack.Stack (list Allocation) :=
  match sizes with
  | [] => ret []
  | size :: rest =>
      a <- stack.allocate size ;;
      l <- allocate_all rest ;;
      ret (a :: l)
  end.

(** The calls that a client of the variable layer can make. *)
Inductive stack_op : Type :=
  | AllocateVariable (name : string) (size : Z)
  | DropVariable (name : string)
  | WriteVariable (name : string) (value : pyvalue) (reserved : bool)
  | GetVariable (name : string).

(** The stack after a call, whether the call returns or raises. *)
Definition apply_op (o : stack_op) (self : stack.Stack) : stack.Stack :=
  match o with
  | AllocateVariable name size => state_of (stack.allocate_variable name size self)
  | DropVariable name => state_of (stack.drop_variable name self)
  | WriteVariable name value reserved =>
      state_of (stack.write_variable name value reserved self)
  | GetVariable name => state_of (stack.get_variable name self)
  end.

Definition apply_ops (ops : list stack_op) (self : stack.Stack) : stack.Stack :=
  fold_left (fun s o => apply_op o s) ops self.

(** The live allocations of a stack are those of its variables. *)
Definition live (self : stack.Stack) (name : string) (a : Allocation) : Prop :=
  exists datatype, stack.vars self !! name = Some (Register a datatype).

(** The invariant of the allocator: every live allocation is a non-empty
    range of the store none of whose cells is free, and the allocations of
    two variables do not overlap. *)
Definition stack_inv (self : stack.Stack) : Prop :=
  (forall name a, live self name a ->
     in_arena (Py.len (stack.store self)) a
     /\ forall j, Allocation.start a <= j <= Allocation.end_ a ->
                  cell_at (stack.store self) j <> Some Free)
  /\ (forall n1 n2 a1 a2, n1 <> n2 -> live self n1 a1 -> live self n2 a2 ->
        disjoint a1 a2).

(** A stack of ten cells, and three requests. *)
Definition ten_cells : stack.Stack := stack.init 10.
Definition three_requests : list Z := [3; 2; 4].


(** The first [k] cells of a store of [N] cells are marked and the others
    are free, as after allocations on a new stack without a drop. *)
Definition packed (N k : Z) (store : list cell) : Prop :=
  Py.len store = N
  /\ (forall j, 0 <= j < k -> cell_at store j = Some ALLOCATED)
  /\ (forall j, k <= j < N -> cell_at store j = Some Free).

Definition sum_sizes (sizes : list Z) : Z := foldr Z.add 0 sizes.

(** Calls on a stack of ten cells: x and y are allocated, x is dropped,
    then z (which does not fit into the cells of x) and w (which does). *)
Definition ten_cells_ops : list stack_op :=
  [ AllocateVariable "x" 3; AllocateVariable "y" 2; WriteVariable "y" (VInt 7) false;
    DropVariable "x"; AllocateVariable "z" 4; AllocateVariable "w" 3 ].


(** ** Line numbers *)

(** The number of a numbered line: of a line whose first token is numeric. *)
Definition line_number (line : list string) : option Z :=
  match line with
  | tok :: _ => if Py.isnumeric tok then Py.int_of_str tok else None
  | [] => None
  end.

(** The numbers of the numbered lines of a source, in their order. *)
Definition line_numbers (processed_lines : list (list string)) : list Z :=
  omap line_number processed_lines.

(** Every number is greater than the one before it ([previous] before the
    first) and is a multiple of 10. *)
Fixpoint increasing_multiples_of_10 (previous : Z) (numbers : list Z) : Prop :=
  match numbers with
  | [] => True
  | n :: rest => previous < n /\ n mod 10 = 0 /\ increasing_multiples_of_10 n rest
  end.

Definition source_10_20_30 : list string := ["START"; "10 cls"; "20 cls"; "30 cls"].
Definition source_10_20_40 : list string := ["START"; "10 cls"; "20 cls"; "40 cls"].
Definition source_10_15 : list string := ["START"; "10 cls"; "15 cls"].
Definition source_20_10 : list string := ["START"; "20 cls"; "10 cls"].


(** ** The engine *)

(** The names of the reserved registers. *)
Definition reserved_names : list string := ["slx"; "sly"; "slz"].

(** The reserved names are bound to reserved registers. *)
Definition reserved_ok (self : stack.Stack) : Prop :=
  forall name, In name reserved_names ->
    exists v, stack.vars self !! name = Some (ReservedRegister v).

(** The only results that [cmp] ever stores. *)
Definition result_ok (r : option string) : Prop :=
  r = None \/ r = Some "jeq" \/ r = Some "jne".

(** What holds of the stack in every state of a run. *)
Definition stack_ok (self : stack.Stack) : Prop :=
  reserved_ok self /\ stack_inv self.

Definition machine_inv (m : main.machine) : Prop :=
  stack_ok (main.stack m) /\ result_ok (main.comparison_result m).

(** The error-flag register. *)
Definition flag (m : main.machine) : option binding :=
  stack.vars (main.stack m) !! "slx".

(** [preserves P c]: the computation [c] leads from a state in [P] to a
    state in [P], whether it returns or raises. *)
Definition preserves {S A} (P : S -> Prop) (c : M S A) : Prop :=
  forall s, P s -> P (state_of (c s)).

(** [returns x c]: when [c] returns, it returns [x]. *)
Definition returns {S A} (x : A) (c : M S A) : Prop :=
  forall s y s', c s = Ok y s' -> y = x.

(** The states of a run of [program], from any console input. *)
Inductive reachable (unicode_escape : string -> option string)
    (program : construct.Program) : main.machine -> Prop :=
  | reachable_start console :
      reachable unicode_escape program (main.start program console)
  | reachable_step m m' :
      reachable unicode_escape program m ->
      main.step unicode_escape program m = main.Next m' ->
      reachable unicode_escape program m'.

(** The state after [n] iterations of the loop, if it runs that long. *)
Fixpoint after (unicode_escape : string -> option string)
    (program : construct.Program) (n : nat) (m : main.machine)
    : option main.machine :=
  match n with
  | O => Some m
  | S k =>
      match main.step unicode_escape program m with
      | main.Next m' => after unicode_escape program k m'
      | _ => None
      end
  end.

(** An instance of the codec for the example programs: the codec leaves
    a text without a backslash as it is; the examples need no other text,
    and this instance rejects them. *)
Definition unicode_escape_plain (text : string) : option string :=
  if existsb (Ascii.eqb "\") (Py.chars text) then None else Some text.

(** The program constructed from a source (the empty program when the
    construction fails). *)
Definition constructed (source : list string) : construct.Program :=
  match construct.construct_program source with
  | inr program => program
  | inl _ => construct.mk None 8192 [] ∅
  end.

(** The double quote, and a quoted text. *)
Definition dquote : string := String (ascii_of_N 34) EmptyString.
Definition quoted (text : string) : string := (dquote ++ text ++ dquote)%string.

(** [cmp 5 3] followed by [jgt L]. *)
Definition source_cmp_jgt : list string :=
  ["SIZE 1K DEC"; "START"; "10 cmp 5 3"; "20 jgt L"; "30 out 1"; "40 lbl L"; "50 out 2"].

(** [cmp 5 3] followed by [jlt L]. *)
Definition source_cmp_jlt : list string :=
  ["SIZE 1K DEC"; "START"; "10 cmp 5 3"; "20 jlt L"; "30 out 1"; "40 lbl L"; "50 out 2"].

(** A comparison of a text with an integer, then the error flag is printed. *)
Definition source_cmp_mixed : list string :=
  ["SIZE 1K DEC"; "START"; ("10 cmp " ++ quoted "a" ++ " 1")%string; "20 out &slx"].

(** An integer too large for a one-byte variable, then the error flag is
    printed. *)
Definition source_int_overflow : list string :=
  ["SIZE 1K DEC"; "START"; "10 alc &x :[1]"; "20 set &x 200"; "30 out &slx"].

(** A text too large for a one-byte variable. *)
Definition source_text_overflow : list string :=
  ["SIZE 1K DEC"; "START"; "10 alc &x :[1]";
   ("20 set &x " ++ quoted "abc")%string; "30 out &slx"].

(** An instruction that fails, followed by a jump that is taken. *)
Definition source_flag_jump : list string :=
  ["SIZE 1K DEC"; "START"; "10 cmp 1 1"; "20 bad"; "30 jeq L"; "40 lbl L"; "50 out &slx"].

(** [cmp 1 2] followed by [jnq L], where L is the first line. *)
Definition source_cmp_jnq : list string :=
  ["SIZE 1K DEC"; "START"; "10 lbl L"; "20 cmp 1 2"; "30 jnq L"; "40 out 1"].


(** What the engine does to the error flag in an iteration that leads
    from [m] to [m']: after an instruction that ran to its end it wrote 0,
    after one that raised an exception other than a [StackError] it wrote
    1, both through [finish], that is through the privileged path; after a
    jump that was taken it wrote nothing. *)
Definition flag_protocol (unicode_escape : string -> option string)
    (program : construct.Program) (m m' : main.machine) : Prop :=
  match main.execute unicode_escape program m with
  | Ok main.Fallthrough m1 =>
      main.finish 0 m1 = main.Next m'
      /\ flag m' = Some (ReservedRegister (VInt 0))
      /\ main.current_line m' = main.current_line m1 + 1
  | Raise e m1 =>
      isinstance_StackError e = false
      /\ main.finish 1 m1 = main.Next m'
      /\ flag m' = Some (ReservedRegister (VInt 1))
      /\ main.current_line m' = main.current_line m1 + 1
  | Ok main.Continue m1 =>
      m' = m1 /\ main.stack m' = main.stack m /\ flag m' = flag m
      /\ exists jump_type label,
           Py.getitem (construct.lines program) (main.current_line m)
           = Some [jump_type; label]
           /\ construct.labels program !! label = Some (main.current_line m')
  end.


(** ** Vocabulary of the further properties *)

(** What a computation returns or raises, whatever the state it leaves. *)
Definition result_of {S A} (r : res S A) : exn + A :=
  match r with Ok a _ => inr a | Raise e _ => inl e end.

(** The variable that a call of the variable layer names. *)
Definition op_name (o : stack_op) : string :=
  match o with
  | AllocateVariable name _ | DropVariable name
  | WriteVariable name _ _ | GetVariable name => name
  end.

(** The cells of an allocation. *)
Definition cells_of (self : stack.Stack) (a : Allocation) : list cell :=
  Py.slice (stack.store self) (Allocation.start a) (Allocation.end_ a + 1).

(** Calls on a stack of ten cells that leave two variables. *)
Definition two_variables : stack.Stack :=
  apply_ops [AllocateVariable "x" 2; AllocateVariable "y" 4;
             WriteVariable "y" (VStr "hi") false] ten_cells.


(** The character of code 34. *)
Definition dquote_char : ascii := ascii_of_N 34.

(** A token of a source line: a non-empty text that either has no white
    space or is a quoted text, a double quote at both ends and none
    between them. *)
Definition token_ok (tok : string) : Prop :=
  Py.chars tok <> []
  /\ (Forall (fun c => Py.isspace c = false) (Py.chars tok)
      \/ exists body, Py.chars tok = dquote_char :: body ++ [dquote_char]
                      /\ Forall (fun c => Py.is_quote c = false) body).

(** The lines that [construct_program] accepts before the code block. *)
Definition is_directive (line : list string) : Prop :=
  line = ["START"]
  \/ (exists program_name, line = ["PROGRAM"; program_name])
  \/ (exists size system, line = ["SIZE"; size; system]).

(** A line with a line number. *)
Definition is_numbered (line : list string) : Prop := is_Some (line_number line).

(** [code_line] of [case [line_number, *code_line]] *)
Definition code_of (line : list string) : list string := drop 1 line.

(** The label table of a program: a label is bound to the index of the
    last [lbl] line that names it, and is unbound when there is none. *)
Definition labels_ok (p : construct.Program) : Prop :=
  forall label,
    match construct.labels p !! label with
    | Some i =>
        0 <= i < Py.len (construct.lines p)
        /\ Py.getitem (construct.lines p) i = Some ["lbl"; label]
        /\ forall j, i < j -> Py.getitem (construct.lines p) j <> Some ["lbl"; label]
    | None =>
        forall j : nat, construct.lines p !! j <> Some ["lbl"; label]
    end.

(** The step of the label table for a new code line. *)
Definition labels_after (p : construct.Program) (code_line : list string)
    : gmap string Z :=
  match code_line with
  | [kw; label_name] =>
      if String.eqb kw "lbl"
      then <[label_name := Py.len (construct.lines p)]> (construct.labels p)
      else construct.labels p
  | _ => construct.labels p
  end.

(** The sizes that a [SIZE] directive can set. *)
Definition size_choices : list Z :=
  n ← [1; 2; 4; 8; 16; 32; 64; 128]; f ← [1024; 1000]; [n * f].

(** A source with directives, a comment, a quoted text and a label that
    is defined twice. *)
Definition source_full : list string :=
  [ ("PROGRAM " ++ quoted "two words")%string; "SIZE 2K BIN"; "START";
    "10 lbl L // first"; ("20 out " ++ quoted "a b")%string;
    "30 lbl L"; "40 jeq L"; "." ].

(** A source with a line that is only a comment. *)
Definition source_comment_line : list string :=
  ["START"; "// only a comment"; "10 cls"].


(** ** Vocabulary of the further properties of the engine *)

(** The values of the reserved registers in a run: [sly] and [slz] hold
    0, the error flag holds 0 or 1. *)
Definition registers_ok (self : stack.Stack) : Prop :=
  stack.vars self !! "sly" = Some (ReservedRegister (VInt 0))
  /\ stack.vars self !! "slz" = Some (ReservedRegister (VInt 0))
  /\ (stack.vars self !! "slx" = Some (ReservedRegister (VInt 0))
      \/ stack.vars self !! "slx" = Some (ReservedRegister (VInt 1))).

(** The current line is an index of the program, or its length. *)
Definition line_ok (program : construct.Program) (m : main.machine) : Prop :=
  0 <= main.current_line m <= Py.len (construct.lines program).

(** A [jeq] instruction. *)
Definition is_jeq (line : list string) : bool :=
  match line with
  | [op; _] => String.eqb op "jeq"
  | _ => false
  end.

(** A jump to a label that no line defines, then the error flag is
    printed. *)
Definition source_missing_label : list string :=
  ["START"; "10 cmp 1 1"; "20 jeq M"; "30 out &slx"].

(** A division into a variable of two cells, then the error flag and the
    variable are printed. *)
Definition source_div : list string :=
  ["START"; "10 alc &x :[2]"; "20 set &x 7"; "30 div 6 3 > &x"; "40 out &slx"].

(** A variable is printed that was never allocated. *)
Definition source_unallocated : list string :=
  ["START"; "10 out 1"; "20 out &x"; "30 out 2"].

(** A program that reads a line and prints it. *)
Definition source_echo : list string :=
  ["START"; "10 alc &x :[8]"; ("20 inp " ++ quoted "name" ++ " > &x")%string;
   "30 out &x"].


(** A stack of [N] cells, in its [size] and in its store, that satisfies
    the invariants of a run. *)
Definition sized (N : Z) (self : stack.Stack) : Prop :=
  stack_ok self /\ stack.size self = N /\ Py.len (stack.store self) = N.


(** [tokenizes text toks]: the text is the tokens in their order, with
    white space (possibly none) before each of them and after the last. *)
Inductive tokenizes : list ascii -> list string -> Prop :=
  | tokenizes_nil ws :
      Forall (fun c => Py.isspace c = true) ws -> tokenizes ws []
  | tokenizes_cons ws tok text toks :
      Forall (fun c => Py.isspace c = true) ws ->
      tokenizes text toks ->
      tokenizes (ws ++ Py.chars tok ++ text) (tok :: toks).

(** What [process_lines] makes of a line: the tokens of the line up to
    its first comment token, or all of them when it has none. *)
Definition processed_from (line : string) (processed : list string) : Prop :=
  exists toks rest,
    construct.LINE_REGEX_findall line = toks
    /\ tokenizes (Py.chars line) toks
    /\ Forall token_ok toks
    /\ toks = processed ++ rest
    /\ Forall (fun tok => tok <> "//") processed
    /\ (rest = [] \/ head rest = Some "//").


(** What the loop does with the outcome of the body of the [try]: the
    [except] and the [else], then the write of the error flag and the
    step to the next line. *)
Definition try_outcome (r : res main.machine main.control) : main.outcome :=
  match r with
  | Ok main.Continue m' => main.Next m'
  | Ok main.Fallthrough m' => main.finish 0 m'
  | Raise e m' =>
      if isinstance_StackError e then main.Fatal e m' else main.finish 1 m'
  end.


(** * Slices *)

Section Slices.
Context {A : Type}.
Implicit Types l new : list A.

Lemma clamp_in_range n i : 0 <= i <= n -> Py.clamp n i = i.
Proof.
  intros H. unfold Py.clamp.
  destruct (Z.ltb_spec i 0); lia.
Qed.

Lemma slice_in_range l a b :
  0 <= a -> a <= b -> b <= Py.len l ->
  Py.slice l a b = take (Z.to_nat (b - a)) (drop (Z.to_nat a) l).
Proof.
  intros Ha Hab Hb. unfold Py.slice.
  rewrite !clamp_in_range by lia. reflexivity.
Qed.

Lemma slice_assign_in_range l a b new :
  0 <= a -> a <= b -> b <= Py.len l ->
  Py.slice_assign l a b new = take (Z.to_nat a) l ++ new ++ drop (Z.to_nat b) l.
Proof.
  intros Ha Hab Hb. unfold Py.slice_assign.
  rewrite !clamp_in_range by lia.
  rewrite Z.max_r by lia. reflexivity.
Qed.

Lemma slice_assign_length l a b new :
  0 <= a -> a <= b -> b <= Py.len l -> Py.len new = b - a ->
  Py.len (Py.slice_assign l a b new) = Py.len l.
Proof.
  intros Ha Hab Hb Hn. rewrite slice_assign_in_range by lia.
  unfold Py.len in *. rewrite !length_app, length_take, length_drop. lia.
Qed.

Lemma slice_assign_lookup l a b new (j : nat) :
  0 <= a -> a <= b -> b <= Py.len l -> Py.len new = b - a ->
  Py.slice_assign l a b new !! j =
  if (a <=? Z.of_nat j) && (Z.of_nat j <? b)
  then new !! (j - Z.to_nat a)%nat else l !! j.
Proof.
  intros Ha Hab Hb Hn. rewrite slice_assign_in_range by lia.
  unfold Py.len in *.
  destruct (Z.leb_spec a (Z.of_nat j)); simpl.
  - rewrite lookup_app_r by (rewrite length_take; lia).
    rewrite length_take, Nat.min_l by lia.
    destruct (Z.ltb_spec (Z.of_nat j) b).
    + rewrite lookup_app_l by lia. reflexivity.
    + rewrite lookup_app_r by lia. rewrite lookup_drop. f_equal. lia.
  - rewrite lookup_app_l by (rewrite length_take; lia).
    apply lookup_take_lt. lia.
Qed.

Lemma slice_of_slice_assign l a b new :
  0 <= a -> a <= b -> b <= Py.len l -> Py.len new = b - a ->
  Py.slice (Py.slice_assign l a b new) a b = new.
Proof.
  intros Ha Hab Hb Hn.
  rewrite slice_in_range by (rewrite ?slice_assign_length; lia).
  rewrite slice_assign_in_range by lia.
  unfold Py.len in *.
  rewrite drop_app_length' by (rewrite length_take; lia).
  rewrite take_app_length' by lia. reflexivity.
Qed.

End Slices.

Lemma cell_at_nat (store : list cell) (j : nat) :
  cell_at store (Z.of_nat j) = store !! j.
Proof.
  unfold cell_at. destruct (Z.ltb_spec (Z.of_nat j) 0); [lia|].
  now rewrite Nat2Z.id.
Qed.

Lemma cell_at_nonneg (store : list cell) (j : Z) :
  0 <= j -> cell_at store j = store !! Z.to_nat j.
Proof.
  intros H. unfold cell_at. destruct (Z.ltb_spec j 0); [lia | reflexivity].
Qed.

(** * The allocator *)

(** The invariant of the loop of [Stack.allocate]: [pre] is the part of
    the store already scanned; its last [count] cells are free, and no free
    run of [size] cells starts before them. *)
Lemma allocate_scan_spec size items :
  1 <= size ->
  forall pre i count start_index,
    i = Py.len pre ->
    0 <= count < size -> count <= i ->
    (0 < count -> start_index = i - count) ->
    (forall j, i - count <= j < i -> pre !! Z.to_nat j = Some Free) ->
    (forall k, k < i - count -> ~ free_run (pre ++ items) k size) ->
    match stack.allocate_scan size items i count start_index with
    | Some s =>
        free_run (pre ++ items) s size
        /\ forall k, k < s -> ~ free_run (pre ++ items) k size
    | None => forall k, ~ free_run (pre ++ items) k size
    end.
Proof.
  intros Hsize. induction items as [|item rest IH];
    intros pre i count start_index Hi Hcount Hci Hstart Hfree Hnone; simpl.
  - intros k (Hk0 & Hk1 & Hk2).
    destruct (Z.lt_ge_cases k (i - count)) as [Hlt|Hge].
    + apply (Hnone k Hlt). repeat split; auto.
    + unfold Py.len in *. rewrite length_app in Hk1. simpl in Hk1. lia.
  - assert (Hassoc : pre ++ item :: rest = (pre ++ [item]) ++ rest)
      by now rewrite <- app_assoc.
    assert (Hlen : Py.len (pre ++ [item]) = i + 1)
      by (unfold Py.len in *; rewrite length_app; simpl; lia).
    assert (Hat : (pre ++ item :: rest) !! Z.to_nat i = Some item).
    { rewrite lookup_app_r by (unfold Py.len in *; lia).
      replace (Z.to_nat i - length pre)%nat with 0%nat
        by (unfold Py.len in *; lia). reflexivity. }
    destruct item.
    + (* a free cell *)
      set (start' := if count =? 0 then i else start_index).
      assert (Hstart' : start' = i - count).
      { unfold start'. destruct (Z.eqb_spec count 0); [lia | apply Hstart; lia]. }
      destruct (Z.eqb_spec (count + 1) size) as [Heq|Hne].
      * rewrite Hstart'. split; [|exact Hnone].
        split; [lia|]. split.
        { unfold Py.len in *. rewrite length_app. simpl. lia. }
        intros j Hj. destruct (Z.eq_dec j i) as [->|Hji]; [exact Hat|].
        rewrite lookup_app_l by (unfold Py.len in *; lia).
        apply Hfree. lia.
      * rewrite Hassoc.
        apply IH; try lia.
        { intros j Hj. destruct (Z.eq_dec j i) as [->|Hji].
          - rewrite lookup_app_r by (unfold Py.len in *; lia).
            replace (Z.to_nat i - length pre)%nat with 0%nat
              by (unfold Py.len in *; lia). reflexivity.
          - rewrite lookup_app_l by (unfold Py.len in *; lia).
            apply Hfree. lia. }
        { intros k Hk. rewrite <- Hassoc. apply Hnone. lia. }
    + (* the marker ALLOCATED *)
      rewrite Hassoc. apply IH; try lia.
      intros k Hk. rewrite <- Hassoc. intros (Hk0 & Hk1 & Hk2).
      destruct (Z.lt_ge_cases k (i - count)) as [Hlt|Hge].
      * apply (Hnone k Hlt). repeat split; auto.
      * specialize (Hk2 i ltac:(lia)). congruence.
    + (* a byte *)
      rewrite Hassoc. apply IH; try lia.
      intros k Hk. rewrite <- Hassoc. intros (Hk0 & Hk1 & Hk2).
      destruct (Z.lt_ge_cases k (i - count)) as [Hlt|Hge].
      * apply (Hnone k Hlt). repeat split; auto.
      * specialize (Hk2 i ltac:(lia)). congruence.
Qed.

Lemma repeat_list_len {A} (x : A) (n : Z) :
  0 <= n -> Py.len (Py.repeat_list x n) = n.
Proof.
  intros H. unfold Py.len, Py.repeat_list. rewrite length_replicate. lia.
Qed.

(** Marking the cells of a range inside the store. *)
Lemma mark_range_cell_at (store new : list cell) (a n j : Z) :
  0 <= a -> 0 <= n -> a + n <= Py.len store -> Py.len new = n -> 0 <= j ->
  cell_at (Py.slice_assign store a (a + n) new) j =
  if (a <=? j) && (j <=? a + n - 1)
  then new !! Z.to_nat (j - a) else cell_at store j.
Proof.
  intros Ha Hn Hlen Hnew Hj.
  rewrite !cell_at_nonneg by lia.
  rewrite slice_assign_lookup by lia.
  rewrite Z2Nat.id by lia.
  destruct (Z.leb_spec a j), (Z.ltb_spec j (a + n)), (Z.leb_spec j (a + n - 1));
    simpl; try lia; try reflexivity.
  f_equal. lia.
Qed.

(** The loop invariant, from the first cell to the end of the store. *)
Lemma allocate_spec (self : stack.Stack) (size : Z) :
  1 <= size -> first_fit self size (stack.allocate size self).
Proof.
  intros Hsize. unfold stack.allocate.
  pose proof (allocate_scan_spec size (stack.store self) Hsize [] 0 0 (-1)) as H.
  simpl in H.
  specialize (H eq_refl ltac:(lia) ltac:(lia) ltac:(intros; lia)
                ltac:(intros; lia) ltac:(intros k Hk [Hk0 _]; lia)).
  destruct (stack.allocate_scan size (stack.store self) 0 0 (-1)) as [s|]; simpl.
  - destruct H as [Hrun Hleast]. pose proof Hrun as (Hs0 & Hs1 & Hs2).
    split; [exact Hrun|]. split; [exact Hleast|]. split.
    { destruct (Z.eq_dec s 0) as [|Hs]; [now left | right].
      intros Hprev. apply (Hleast (s - 1)); [lia|].
      split; [lia|]. split; [lia|].
      intros j Hj. destruct (Z.eq_dec j (s - 1)) as [->|].
      - rewrite cell_at_nonneg in Hprev by lia. exact Hprev.
      - apply Hs2. lia. }
    repeat split; try reflexivity.
    + apply slice_assign_length; try lia. rewrite repeat_list_len; lia.
    + intros j Hj.
      rewrite mark_range_cell_at by (rewrite ?repeat_list_len; lia).
      destruct ((s <=? j) && (j <=? s + size - 1)) eqn:E; [|reflexivity].
      apply lookup_replicate_2. lia.
  - repeat split; auto.
Qed.

(** C1 as amended: for a request of at least one cell, [Stack.allocate]
    returns the earliest-starting run of [size] free cells (no such run
    starts further left, and the run begins a maximal run of free cells),
    marks exactly these cells [ALLOCATED] and leaves everything else as it
    was; it raises [MemoryOverflow], changing nothing, exactly when the
    store has no run of [size] free cells. *)
Theorem allocate_first_fit (self : stack.Stack) (size : Z) :
  1 <= size -> first_fit self size (stack.allocate size self).
Proof. exact (allocate_spec self size). Qed.

Lemma allocate_first_fit_witness :
  1 <= 3 /\ first_fit two_runs 3 (stack.allocate 3 two_runs).
Proof. split; [lia | apply (allocate_first_fit two_runs 3); lia]. Defined.

(** With free runs of lengths 3 and 5, a request of 3 cells is served from
    the first run. *)
Example allocate_first_of_two_runs :
  stack.allocate 3 two_runs =
  Ok (Allocation.mk 1 3 3)
     (stack.mk 10 ∅ [Byte 1; ALLOCATED; ALLOCATED; ALLOCATED; Byte 1;
                     Free; Free; Free; Free; Free]).
Proof. reflexivity. Qed.

(** C1 fails for a request of no cells: the store has free runs of length
    0 and of length 2, both long enough, and yet [Stack.allocate] raises
    [MemoryOverflow]. *)
Lemma allocate_zero_cells_overflows :
  free_run (stack.store two_free) 0 0
  /\ free_run (stack.store two_free) 0 2
  /\ stack.allocate 0 two_free = Raise MemoryOverflow two_free.
Proof.
  split; [|split]; [| |reflexivity].
  - split; [lia|]. split; [unfold Py.len; simpl; lia|]. intros j Hj. lia.
  - split; [lia|]. split; [unfold Py.len; simpl; lia|]. intros j Hj.
    assert (j = 0 \/ j = 1) as [-> | ->] by lia; reflexivity.
Qed.

(** * Serialization *)

Lemma be_bytes_length n v : length (Py.be_bytes n v) = n.
Proof.
  revert v. induction n as [|n IH]; intros v; simpl; [reflexivity|].
  rewrite length_app, IH. simpl. lia.
Qed.

Lemma be_bytes_range n v :
  Forall (fun b => 0 <= b < 256) (Py.be_bytes n v).
Proof.
  revert v. induction n as [|n IH]; intros v; simpl; [constructor|].
  apply Forall_app. split; [apply IH|].
  constructor; [|constructor]. apply Z.mod_pos_bound. lia.
Qed.

Lemma be_value_snoc bs b : Py.be_value (bs ++ [b]) = Py.be_value bs * 256 + b.
Proof. unfold Py.be_value. rewrite fold_left_app. reflexivity. Qed.

Lemma be_value_be_bytes n v :
  Py.be_value (Py.be_bytes n v) = v mod 256 ^ Z.of_nat n.
Proof.
  revert v. induction n as [|n IH]; intros v.
  - simpl. now rewrite Z.mod_1_r.
  - cbn [Py.be_bytes]. rewrite be_value_snoc, IH.
    rewrite Nat2Z.inj_succ, Z.pow_succ_r by lia.
    rewrite Z.rem_mul_r by (try apply Z.pow_nonzero; lia). lia.
Qed.

(** The most significant byte. *)
Lemma be_bytes_head n v :
  head (Py.be_bytes (S n) v) = Some ((v / 256 ^ Z.of_nat n) mod 256).
Proof.
  revert v. induction n as [|n IH]; intros v.
  - simpl. now rewrite Z.div_1_r.
  - change (Py.be_bytes (S (S n)) v)
      with (Py.be_bytes (S n) (v / 256) ++ [v mod 256]).
    destruct (Py.be_bytes (S n) (v / 256)) as [|b bs] eqn:E.
    + pose proof (be_bytes_length (S n) (v / 256)) as Hl. rewrite E in Hl.
      discriminate.
    + simpl. specialize (IH (v / 256)). rewrite E in IH. simpl in IH.
      rewrite IH. f_equal.
      rewrite Nat2Z.inj_succ, Z.pow_succ_r by lia.
      rewrite Z.div_div by (try apply Z.pow_pos_nonneg; lia). reflexivity.
Qed.

Lemma from_bytes_be_bytes (n : nat) (v : Z) :
  fits_signed v (Z.of_nat n) ->
  Py.from_bytes_signed (Py.be_bytes n v) = v.
Proof.
  unfold fits_signed. intros Hfit.
  destruct n as [|n].
  - simpl in *. lia.
  - pose proof (be_bytes_head n v) as Hhead.
    pose proof (be_value_be_bytes (S n) v) as Hval.
    pose proof (be_bytes_length (S n) v) as Hlen.
    destruct (Py.be_bytes (S n) v) as [|b bs] eqn:E; [discriminate|].
    simpl in Hhead. injection Hhead as Hb.
    unfold Py.from_bytes_signed. rewrite Hval.
    unfold Py.len. rewrite Hlen.
    set (P := 256 ^ Z.of_nat n) in *.
    assert (HP : 0 < P) by (apply Z.pow_pos_nonneg; lia).
    assert (HT : 2 ^ (8 * Z.of_nat (S n)) = 256 * P).
    { rewrite Nat2Z.inj_succ. unfold P.
      replace (8 * Z.succ (Z.of_nat n)) with (8 + 8 * Z.of_nat n) by lia.
      rewrite Z.pow_add_r by lia.
      rewrite Z.pow_mul_r by lia. reflexivity. }
    assert (HT' : 256 ^ Z.of_nat (S n) = 256 * P).
    { rewrite Nat2Z.inj_succ, Z.pow_succ_r by lia. reflexivity. }
    rewrite HT in *. rewrite HT'.
    assert (Hq : -128 <= v / P < 128).
    { split.
      - apply Z.div_le_lower_bound; lia.
      - apply Z.div_lt_upper_bound; lia. }
    destruct (Z.leb_spec 128 b) as [Hb128|Hb128].
    + (* a negative value *)
      assert (v / P < 0).
      { destruct (Z.lt_ge_cases (v / P) 0); [lia|].
        rewrite Z.mod_small in Hb by lia. lia. }
      assert (v < 0).
      { destruct (Z.lt_ge_cases v 0); [lia|].
        pose proof (Z.div_pos v P ltac:(lia) HP). lia. }
      rewrite <- (Z.mod_unique v (256 * P) (-1) (v + 256 * P)); lia.
    + assert (0 <= v / P).
      { destruct (Z.lt_ge_cases (v / P) 0); [|lia].
        assert ((v / P) mod 256 = v / P + 256).
        { symmetry. apply (Z.mod_unique (v / P) 256 (-1)); lia. }
        lia. }
      assert (0 <= v).
      { destruct (Z.lt_ge_cases v 0); [|lia].
        assert (v / P < 0) by (apply Z.div_lt_upper_bound; lia). lia. }
      apply Z.mod_small. lia.
Qed.

Lemma to_bytes_signed_fits v n :
  0 <= n -> fits_signed v n ->
  Py.to_bytes_signed v n = inr (Py.be_bytes (Z.to_nat n) v).
Proof.
  unfold fits_signed, Py.to_bytes_signed. intros Hn [Hlo Hhi].
  destruct (Z.ltb_spec n 0); [lia|].
  destruct (Z.leb_spec (- 2 ^ (8 * n)) (2 * v)); [|lia].
  destruct (Z.ltb_spec (2 * v) (2 ^ (8 * n))); [|lia].
  reflexivity.
Qed.

Lemma to_bytes_signed_overflow v n :
  1 <= n -> ~ fits_signed v n -> Py.to_bytes_signed v n = inl OverflowError.
Proof.
  unfold fits_signed, Py.to_bytes_signed. intros Hn Hnot.
  destruct (Z.ltb_spec n 0); [lia|].
  destruct (Z.eqb_spec n 0); [lia|].
  destruct (Z.leb_spec (- 2 ^ (8 * n)) (2 * v));
    destruct (Z.ltb_spec (2 * v) (2 ^ (8 * n))); simpl; try reflexivity.
  lia.
Qed.

Lemma bytes_of_cells_bytes bs :
  Forall (fun b => 0 <= b < 256) bs ->
  stack.bytes_of_cells (map Byte bs) = inr bs.
Proof.
  induction 1 as [|b bs Hb _ IH]; simpl; [reflexivity|].
  destruct (Z.leb_spec 0 b); [|lia].
  destruct (Z.ltb_spec b 256); [|lia].
  simpl. now rewrite IH.
Qed.

Lemma no_None_in_bytes bs : existsb stack.is_None (map Byte bs) = false.
Proof. induction bs; simpl; auto. Qed.

Lemma chr_ord c : Py.chr (Py.ord c) = c.
Proof.
  unfold Py.chr, Py.ord. rewrite N2Z.id. apply ascii_N_embedding.
Qed.

Lemma ord_range c : 0 <= Py.ord c < 256.
Proof.
  unfold Py.ord. pose proof (N_ascii_bounded c). lia.
Qed.

Lemma encode_ascii_text s :
  ascii_text s -> Py.encode_ascii s = Some (map Py.ord (Py.chars s)).
Proof.
  unfold ascii_text, Py.encode_ascii. intros H.
  replace (forallb (fun c => Py.ord c <? 128) (Py.chars s)) with true;
    [reflexivity|].
  symmetry. apply forallb_forall. intros c Hc.
  rewrite Forall_forall in H. apply Z.ltb_lt. apply H.
  now apply list_elem_of_In.
Qed.

Lemma decode_ascii_encoded s :
  ascii_text s -> Py.decode_ascii (map Py.ord (Py.chars s)) = Some s.
Proof.
  unfold ascii_text, Py.decode_ascii. intros H.
  replace (forallb _ (map Py.ord (Py.chars s))) with true.
  - f_equal. unfold Py.str_of_chars, Py.chars.
    rewrite map_map. rewrite (map_ext _ id) by (intros; apply chr_ord).
    rewrite map_id. apply string_of_list_ascii_of_string.
  - symmetry. apply forallb_forall. intros b Hb.
    apply in_map_iff in Hb as (c & <- & Hc).
    rewrite Forall_forall in H. specialize (H c ltac:(now apply list_elem_of_In)).
    pose proof (ord_range c).
    apply andb_true_iff. split; [apply Z.leb_le | apply Z.ltb_lt]; lia.
Qed.

(** A text read drops the zero bytes: of the bytes of a text without NUL
    followed by zero padding, what is left is the text. *)
Lemma filter_truthy_padded cs n :
  Forall (fun c => Py.ord c <> 0) cs ->
  List.filter stack.truthy (map Byte (map Py.ord cs ++ Py.repeat_list 0 n))
  = map Byte (map Py.ord cs).
Proof.
  intros H. rewrite map_app, List.filter_app.
  replace (List.filter _ (map Byte (Py.repeat_list 0 n))) with (@nil cell).
  - rewrite app_nil_r. induction H as [|c cs Hc _ IH]; [reflexivity|].
    simpl. destruct (Z.eqb_spec (Py.ord c) 0); [contradiction|]. simpl.
    now rewrite IH.
  - unfold Py.repeat_list. induction (Z.to_nat n) as [|k IH]; [reflexivity|].
    simpl. exact IH.
Qed.

(** A write whose serialized value has the size of the allocation puts the
    bytes into the cells of the allocation. *)
Lemma write_serialized self a v bs :
  well_formed self -> valid_allocation self a ->
  stack.serialize v (Allocation.size a) = inr bs ->
  Py.len bs = Allocation.size a ->
  exists self',
    stack.write a v self = Ok tt self'
    /\ Py.slice (stack.store self') (Allocation.start a) (Allocation.end_ a + 1)
       = map Byte bs.
Proof.
  intros Hwf (Hs & Hn & He & Hb) Hser Hlen.
  unfold stack.write, bind, lift. rewrite Hser.
  destruct (Z.ltb_spec (Allocation.size a) (Py.len bs)); [lia|].
  unfold well_formed in Hwf.
  destruct (Z.ltb_spec (stack.size self) (Allocation.end_ a - 1)); [lia|].
  eexists. split; [reflexivity|]. simpl.
  apply slice_of_slice_assign; try lia.
  unfold Py.len in *. rewrite length_map. lia.
Qed.

(** Write, then read as [INTEGER]. *)
Lemma write_get_integer (self : stack.Stack) (a : Allocation) (v : Z) :
  well_formed self -> valid_allocation self a ->
  fits_signed v (Allocation.size a) ->
  exists self', write_then_get a (VInt v) INTEGER self = Ok (VInt v) self'.
Proof.
  intros Hwf Hvalid Hfit. pose proof Hvalid as (Hs & Hn & He & Hb).
  destruct (write_serialized self a (VInt v) (Py.be_bytes (Z.to_nat (Allocation.size a)) v))
    as (self' & Hw & Hslice); auto.
  { simpl. now apply to_bytes_signed_fits. }
  { unfold Py.len. rewrite be_bytes_length. lia. }
  exists self'. unfold write_then_get, bind. rewrite Hw.
  unfold stack.get. rewrite Hslice, no_None_in_bytes.
  rewrite bytes_of_cells_bytes by apply be_bytes_range.
  rewrite from_bytes_be_bytes; [reflexivity|].
  now rewrite Z2Nat.id by lia.
Qed.

(** Write, then read as [STRING]. *)
Lemma write_get_text (self : stack.Stack) (a : Allocation) (s : string) :
  well_formed self -> valid_allocation self a ->
  ascii_text s -> nul_free s ->
  Py.len (Py.chars s) <= Allocation.size a ->
  exists self',
    write_then_get a (VStr s) STRING self = Ok (VStr s) self'
    /\ Py.slice (stack.store self') (Allocation.start a)
                (Allocation.end_ a + 1)
       = map Byte (map Py.ord (Py.chars s)
                   ++ Py.repeat_list 0 (Allocation.size a
                                        - Py.len (Py.chars s)))
    /\ List.filter stack.truthy
         (Py.slice (stack.store self') (Allocation.start a)
                   (Allocation.end_ a + 1))
       = map Byte (map Py.ord (Py.chars s)).
Proof.
  intros Hwf Hvalid Hascii Hnul Hlen. pose proof Hvalid as (Hs & Hn & He & Hb).
  set (enc := map Py.ord (Py.chars s)).
  assert (Henc : Py.len enc = Py.len (Py.chars s))
    by (unfold enc, Py.len; now rewrite length_map).
  destruct (write_serialized self a (VStr s)
              (enc ++ Py.repeat_list 0 (Allocation.size a - Py.len enc)))
    as (self' & Hw & Hslice); auto.
  { simpl. now rewrite encode_ascii_text. }
  { unfold Py.len in *. rewrite length_app.
    unfold Py.repeat_list. rewrite length_replicate. lia. }
  exists self'. rewrite Henc in Hslice.
  assert (Hfilter : List.filter stack.truthy
                      (Py.slice (stack.store self') (Allocation.start a)
                                (Allocation.end_ a + 1)) = map Byte enc)
    by (rewrite Hslice; now apply filter_truthy_padded).
  split; [|split; assumption].
  unfold write_then_get, bind. rewrite Hw.
  unfold stack.get. rewrite Hfilter. rewrite Hslice, no_None_in_bytes.
  rewrite bytes_of_cells_bytes.
  + unfold enc. now rewrite decode_ascii_encoded.
  + unfold enc. apply Forall_forall. intros b Hin.
    apply list_elem_of_In, in_map_iff in Hin as (c & <- & _). apply ord_range.
Qed.

(** C2 as amended: in a valid allocation of [n] bytes, an integer that
    fits in [n] bytes of two's complement is read back by an [INTEGER]
    read of what was written, and an ASCII text of at most [n] characters
    none of which is NUL is read back by a [STRING] read; the cells then
    hold the bytes of the text followed by zero padding, and the zero bytes
    that the read drops are exactly this padding. *)
Theorem write_get_roundtrip (self : stack.Stack) (a : Allocation) :
  well_formed self -> valid_allocation self a ->
  (forall v, fits_signed v (Allocation.size a) ->
     exists self', write_then_get a (VInt v) INTEGER self = Ok (VInt v) self')
  /\ (forall s, ascii_text s -> nul_free s ->
        Py.len (Py.chars s) <= Allocation.size a ->
        exists self',
          write_then_get a (VStr s) STRING self = Ok (VStr s) self'
          /\ Py.slice (stack.store self') (Allocation.start a)
                      (Allocation.end_ a + 1)
             = map Byte (map Py.ord (Py.chars s)
                         ++ Py.repeat_list 0 (Allocation.size a
                                              - Py.len (Py.chars s)))
          /\ List.filter stack.truthy
               (Py.slice (stack.store self') (Allocation.start a)
                         (Allocation.end_ a + 1))
             = map Byte (map Py.ord (Py.chars s))).
Proof.
  intros Hwf Hvalid. split.
  - intros v Hfit. now apply write_get_integer.
  - intros s Hascii Hnul Hlen. now apply write_get_text.
Qed.

Lemma four_cells_well_formed : well_formed four_cells.
Proof. reflexivity. Qed.

Lemma write_get_roundtrip_witness :
  (exists self',
      write_then_get two_of_four (VInt (-5)) INTEGER four_cells
      = Ok (VInt (-5)) self')
  /\ (exists self',
         write_then_get all_four (VStr "hi") STRING four_cells
         = Ok (VStr "hi") self'
         /\ Py.slice (stack.store self') 0 (3 + 1)
            = [Byte 104; Byte 105; Byte 0; Byte 0]
         /\ List.filter stack.truthy (Py.slice (stack.store self') 0 (3 + 1))
            = [Byte 104; Byte 105]).
Proof.
  split.
  - apply (proj1 (write_get_roundtrip four_cells two_of_four
                    four_cells_well_formed
                    ltac:(unfold valid_allocation, Py.len; simpl; lia))).
    unfold fits_signed. simpl. lia.
  - apply (proj2 (write_get_roundtrip four_cells all_four
                    four_cells_well_formed
                    ltac:(unfold valid_allocation, Py.len; simpl; lia)) "hi").
    + repeat constructor.
    + repeat constructor; discriminate.
    + unfold Py.len. simpl. lia.
Defined.

(** C2 fails for a text that contains the character NUL: the text a, NUL,
    b is an ASCII text of three characters; written into a four-byte
    allocation it is stored as 97, 0, 98, 0, and the [STRING] read drops
    both zero bytes, not only the padding, and yields the text ab. *)
Lemma nul_text_not_read_back :
  ascii_text a_nul_b
  /\ Py.len (Py.chars a_nul_b) <= Allocation.size all_four
  /\ (exists self',
         stack.write all_four (VStr a_nul_b) four_cells = Ok tt self'
         /\ Py.slice (stack.store self') 0 4 = [Byte 97; Byte 0; Byte 98; Byte 0]
         /\ stack.get all_four STRING self' = Ok (VStr "ab") self')
  /\ VStr "ab" <> VStr a_nul_b.
Proof.
  split; [repeat constructor|].
  split; [unfold Py.len; simpl; lia|].
  split; [|discriminate].
  eexists. split; [reflexivity|]. split; reflexivity.
Qed.

(** * No two live allocations overlap *)

Lemma allocate_scan_nonpositive size items :
  size <= 0 ->
  forall i count start_index,
    0 <= count -> stack.allocate_scan size items i count start_index = None.
Proof.
  intros Hsize. induction items as [|item rest IH]; intros i count s Hc; simpl;
    [reflexivity|].
  destruct item; try (apply IH; lia).
  destruct (Z.eqb_spec (count + 1) size); [lia|]. apply IH. lia.
Qed.

(** A request for no cells, or for a negative number of cells, raises. *)
Lemma allocate_nonpositive self size :
  size <= 0 -> stack.allocate size self = Raise MemoryOverflow self.
Proof.
  intros H. unfold stack.allocate.
  now rewrite allocate_scan_nonpositive by lia.
Qed.

Lemma allocate_raise self size e self' :
  stack.allocate size self = Raise e self' -> self' = self.
Proof.
  unfold stack.allocate. destruct (stack.allocate_scan _ _ _ _ _); congruence.
Qed.

(** What a successful allocation tells. *)
Lemma allocate_ok self size a self' :
  stack.allocate size self = Ok a self' ->
  1 <= size /\ first_fit self size (Ok a self').
Proof.
  intros H. destruct (Z.le_gt_cases 1 size) as [Hs|Hs].
  - split; [exact Hs|]. rewrite <- H. now apply allocate_spec.
  - rewrite allocate_nonpositive in H by lia. discriminate.
Qed.

(** The allocation that [Stack.allocate] returns is a range of the store,
    and the stack stays well formed. *)
Lemma allocate_valid self size a self' :
  stack.allocate size self = Ok a self' ->
  valid_allocation self' a /\ (well_formed self -> well_formed self').
Proof.
  intros H. apply allocate_ok in H
    as (Hsize & (Hs0 & Hs1 & _) & _ & _ & Hend & Hsz & Hsize' & _ & Hlen & _).
  unfold valid_allocation, well_formed. split; [|intros Hwf]; lia.
Qed.

(** Two non-empty ranges without a common cell are disjoint. *)
Lemma disjoint_of_no_common_cell a b :
  Allocation.start a <= Allocation.end_ a ->
  Allocation.start b <= Allocation.end_ b ->
  (forall j, Allocation.start a <= j <= Allocation.end_ a ->
             Allocation.start b <= j <= Allocation.end_ b -> False) ->
  disjoint a b.
Proof.
  intros Ha Hb H. unfold disjoint.
  destruct (Z.lt_ge_cases (Allocation.end_ a) (Allocation.start b)); [now left|].
  destruct (Z.lt_ge_cases (Allocation.end_ b) (Allocation.start a)); [now right|].
  exfalso. apply (H (Z.max (Allocation.start a) (Allocation.start b))); lia.
Qed.

Lemma disjoint_sym a b : disjoint a b -> disjoint b a.
Proof. unfold disjoint. tauto. Qed.

Lemma allocate_all_spec sizes :
  forall self allocs self',
    allocate_all sizes self = Ok allocs self' ->
    Py.len (stack.store self') = Py.len (stack.store self)
    /\ (forall j, 0 <= j -> cell_at (stack.store self) j <> Some Free ->
                  cell_at (stack.store self') j = cell_at (stack.store self) j)
    /\ Forall2 (fun a size => Allocation.size a = size) allocs sizes
    /\ Forall (fun a =>
                 in_arena (Py.len (stack.store self)) a
                 /\ forall j, Allocation.start a <= j <= Allocation.end_ a ->
                      cell_at (stack.store self) j = Some Free
                      /\ cell_at (stack.store self') j = Some ALLOCATED) allocs
    /\ pairwise_disjoint allocs.
Proof.
  induction sizes as [|size rest IH]; intros self allocs self' H; simpl in H.
  - injection H as <- <-. repeat split; auto.
    intros i j a b _ Hi. rewrite lookup_nil in Hi. discriminate.
  - unfold bind in H.
    destruct (stack.allocate size self) as [a s1|] eqn:Ha; [|discriminate].
    destruct (allocate_all rest s1) as [l s2|] eqn:Hl; [|discriminate].
    injection H as <- <-.
    apply allocate_ok in Ha as (Hsize & Hrun & _ & _ & Hend & Hsz & _ & _ & Hlen1 & Hcells1).
    destruct Hrun as (Hs0 & Hs1 & Hfree).
    apply IH in Hl as (Hlen2 & Hkeep2 & Hsizes & Hall & Hpair).
    assert (Ha_marked : forall j, Allocation.start a <= j <= Allocation.end_ a ->
                          cell_at (stack.store s1) j = Some ALLOCATED).
    { intros j Hj. rewrite Hcells1 by lia.
      destruct (Z.leb_spec (Allocation.start a) j), (Z.leb_spec j (Allocation.end_ a));
        simpl; try lia; reflexivity. }
    assert (Hout : forall j, 0 <= j -> cell_at (stack.store s1) j = Some Free ->
                     cell_at (stack.store self) j = Some Free
                     /\ ~ Allocation.start a <= j <= Allocation.end_ a).
    { intros j Hj0 Hj. rewrite Hcells1 in Hj by lia.
      destruct (Z.leb_spec (Allocation.start a) j), (Z.leb_spec j (Allocation.end_ a));
        simpl in Hj; try discriminate; split; auto; lia. }
    split; [lia|]. split; [|split; [|split]].
    + intros j Hj Hnf. rewrite Hkeep2; auto.
      * rewrite Hcells1 by lia.
        destruct ((Allocation.start a <=? j) && (j <=? Allocation.end_ a)) eqn:E;
          [|reflexivity].
        apply andb_true_iff in E as [E1 E2]. apply Z.leb_le in E1, E2.
        exfalso. apply Hnf. rewrite cell_at_nonneg by lia. apply Hfree. lia.
      * rewrite Hcells1 by lia.
        destruct ((Allocation.start a <=? j) && (j <=? Allocation.end_ a));
          [discriminate | exact Hnf].
    + constructor; assumption.
    + constructor.
      * split; [unfold in_arena; lia|]. intros j Hj. split.
        -- rewrite cell_at_nonneg by lia. apply Hfree. lia.
        -- rewrite Hkeep2; [now apply Ha_marked | lia |].
           rewrite Ha_marked by lia. discriminate.
      * eapply Forall_impl; [exact Hall|]. simpl.
        intros b (Hb & Hbcells). split; [unfold in_arena in *; lia|].
        intros j Hj. destruct (Hbcells j Hj) as [Hb1 Hb2]. split; [|exact Hb2].
        apply Hout; [unfold in_arena in *; lia | exact Hb1].
    + assert (Hab : Forall (disjoint a) l).
      { eapply Forall_impl; [exact Hall|]. simpl. intros b (Hb & Hbcells).
        apply disjoint_of_no_common_cell; [lia | unfold in_arena in *; lia |].
        intros j Hja Hjb. destruct (Hbcells j Hjb) as [Hb1 _].
        rewrite Ha_marked in Hb1 by lia. discriminate. }
      rewrite Forall_lookup in Hab.
      intros i j x y Hij Hi Hj.
      destruct i as [|i], j as [|j]; simpl in Hi, Hj; try lia.
      * injection Hi as <-. eapply Hab; eauto.
      * injection Hj as <-. apply disjoint_sym. eapply Hab; eauto.
      * eapply Hpair; [|eauto|eauto]. lia.
Qed.

Lemma live_init N name a : ~ live (stack.init N) name a.
Proof.
  intros [d H]. unfold stack.init in H. simpl in H.
  repeat (apply lookup_insert_Some in H as [[_ H]|[_ H]]; [discriminate|]).
  rewrite lookup_empty in H. discriminate.
Qed.

Lemma stack_inv_init N : stack_inv (stack.init N).
Proof.
  split.
  - intros name a H. destruct (live_init _ _ _ H).
  - intros n1 n2 a1 a2 _ H. destruct (live_init _ _ _ H).
Qed.

(** The invariant survives a change that leaves the live allocations and
    the length of the store as they are and frees no cell. *)
Lemma stack_inv_mono self self' :
  (forall n b, live self' n b -> live self n b) ->
  Py.len (stack.store self') = Py.len (stack.store self) ->
  (forall j, 0 <= j -> cell_at (stack.store self) j <> Some Free ->
             cell_at (stack.store self') j <> Some Free) ->
  stack_inv self -> stack_inv self'.
Proof.
  intros Hlive Hlen Hcells [I1 I2]. split.
  - intros name a H. destruct (I1 name a (Hlive _ _ H)) as [Ha Hc].
    rewrite Hlen. split; [exact Ha|].
    intros j Hj. apply Hcells; [unfold in_arena in Ha; lia | now apply Hc].
  - intros n1 n2 a1 a2 Hne H1 H2.
    exact (I2 n1 n2 a1 a2 Hne (Hlive _ _ H1) (Hlive _ _ H2)).
Qed.

Lemma bytes_not_free bs (k : nat) : map Byte bs !! k <> Some Free.
Proof.
  intros H. apply list_elem_of_lookup_2, list_elem_of_In, in_map_iff in H
    as (b & Hb & _). discriminate.
Qed.

Lemma serialize_length v size bs :
  0 <= size -> stack.serialize v size = inr bs -> size <= Py.len bs.
Proof.
  intros Hsize. destruct v as [z|s]; simpl.
  - unfold Py.to_bytes_signed.
    destruct (size <? 0); [discriminate|].
    destruct (_ || _); [|discriminate].
    intros [= <-]. unfold Py.len. rewrite be_bytes_length. lia.
  - destruct (Py.encode_ascii s) as [enc|]; [|discriminate].
    intros [= <-]. unfold Py.len, Py.repeat_list.
    rewrite length_app, length_replicate. lia.
Qed.

(** [Stack.write] keeps the length of the store and frees no cell. *)
Lemma write_keeps self a v :
  in_arena (Py.len (stack.store self)) a ->
  let self' := state_of (stack.write a v self) in
  stack.vars self' = stack.vars self
  /\ Py.len (stack.store self') = Py.len (stack.store self)
  /\ forall j, 0 <= j -> cell_at (stack.store self) j <> Some Free ->
               cell_at (stack.store self') j <> Some Free.
Proof.
  intros (Hsz & Hs & He & Hb). unfold stack.write, bind, lift.
  destruct (stack.serialize v (Allocation.size a)) as [e|bs] eqn:Hser; simpl;
    [now repeat split|].
  destruct (Z.ltb_spec (Allocation.size a) (Py.len bs)); simpl; [now repeat split|].
  destruct (stack.size self <? Allocation.end_ a - 1); simpl; [now repeat split|].
  pose proof (serialize_length v (Allocation.size a) bs ltac:(lia) Hser) as Hge.
  assert (Hlen : Py.len (map Byte bs) = Allocation.size a)
    by (unfold Py.len in *; rewrite length_map; lia).
  replace (Allocation.end_ a + 1) with (Allocation.start a + Allocation.size a) by lia.
  split; [reflexivity|]. split.
  - apply slice_assign_length; lia.
  - intros j Hj Hnf. rewrite mark_range_cell_at by lia.
    destruct (_ && _); [apply bytes_not_free | exact Hnf].
Qed.

Lemma live_insert_register self name a d n b :
  live (stack.set_vars <[name := Register a d]> self) n b <->
  (n = name /\ b = a) \/ (n <> name /\ live self n b).
Proof.
  unfold live, stack.set_vars. simpl. split.
  - intros [d' H]. apply lookup_insert_Some in H as [[<- [= <- <-]]|[Hne H]];
      [left | right]; eauto.
  - intros [[-> ->]|[Hne [d' H]]].
    + exists d. apply lookup_insert_eq.
    + exists d'. rewrite lookup_insert_ne; auto.
Qed.

Lemma live_insert_reserved self name v n b :
  live (stack.set_vars <[name := ReservedRegister v]> self) n b <->
  n <> name /\ live self n b.
Proof.
  unfold live, stack.set_vars. simpl. split.
  - intros [d' H]. apply lookup_insert_Some in H as [[_ [=]]|[Hne H]]. eauto.
  - intros [Hne [d' H]]. exists d'. rewrite lookup_insert_ne; auto.
Qed.

Lemma write_variable_inv self name v reserved :
  stack_inv self -> stack_inv (state_of (stack.write_variable name v reserved self)).
Proof.
  intros Hinv. unfold stack.write_variable.
  destruct (stack.vars self !! name) as [[a d|old]|] eqn:Hname; [| |exact Hinv].
  - unfold bind, modify.
    set (s1 := stack.set_vars <[name := Register a (stack.datatype_of v)]> self).
    assert (Hs1 : stack_inv s1).
    { apply (stack_inv_mono self); auto.
      intros n b Hl. apply live_insert_register in Hl as [[-> ->]|[_ Hl]]; auto.
      now exists d. }
    assert (Ha : in_arena (Py.len (stack.store s1)) a).
    { apply (proj1 Hs1 name). apply live_insert_register. now left. }
    destruct (write_keeps s1 a v Ha) as (Hv & Hl & Hc).
    apply (stack_inv_mono s1); auto.
    unfold live. intros n b. now rewrite Hv.
  - destruct (negb reserved); simpl; [exact Hinv|].
    apply (stack_inv_mono self); auto.
    intros n b Hl. now apply live_insert_reserved in Hl as [_ Hl].
Qed.

Lemma allocate_variable_inv self name size :
  stack_inv self -> stack_inv (state_of (stack.allocate_variable name size self)).
Proof.
  intros Hinv. unfold stack.allocate_variable.
  destruct (stack.vars self !! name) eqn:Hname; [exact Hinv|].
  unfold bind, modify.
  destruct (stack.allocate size self) as [a s1|e s1] eqn:Ha; simpl.
  2:{ now rewrite (allocate_raise _ _ _ _ Ha). }
  apply allocate_ok in Ha
    as (Hsize & Hrun & _ & _ & Hend & Hsz & _ & Hvars & Hlen & Hcells).
  destruct Hrun as (Hs0 & Hs1 & Hfree). destruct Hinv as [I1 I2].
  assert (Hold : forall n b, live s1 n b <-> live self n b).
  { intros n b. unfold live. now rewrite Hvars. }
  assert (Hnew : forall n b, live self n b -> n <> name).
  { intros n b [d Hl] ->. congruence. }
  assert (Harena : in_arena (Py.len (stack.store s1)) a)
    by (unfold in_arena; lia).
  assert (Hdisj : forall n b, live self n b -> disjoint a b).
  { intros n b Hl. destruct (I1 n b Hl) as [Hb Hbc].
    apply disjoint_of_no_common_cell; [lia | unfold in_arena in Hb; lia |].
    intros j Hja Hjb. apply (Hbc j Hjb).
    rewrite cell_at_nonneg by lia. apply Hfree. lia. }
  split.
  - intros n b Hl. simpl. apply live_insert_register in Hl as [[-> ->]|[Hne Hl]].
    + split; [exact Harena|]. intros j Hj. rewrite Hcells by lia.
      destruct (Z.leb_spec (Allocation.start a) j), (Z.leb_spec j (Allocation.end_ a));
        simpl; try lia; discriminate.
    + apply Hold in Hl. destruct (I1 n b Hl) as [Hb Hbc].
      rewrite Hlen. split; [exact Hb|]. intros j Hj.
      rewrite Hcells by (unfold in_arena in Hb; lia).
      destruct (_ && _); [discriminate | now apply Hbc].
  - intros n1 n2 a1 a2 Hne H1 H2.
    apply live_insert_register in H1 as [[-> ->]|[Hn1 H1]];
      apply live_insert_register in H2 as [[-> ->]|[Hn2 H2]].
    + contradiction.
    + apply Hold in H2. exact (Hdisj n2 a2 H2).
    + apply Hold in H1. apply disjoint_sym. exact (Hdisj n1 a1 H1).
    + apply Hold in H1, H2. exact (I2 n1 n2 a1 a2 Hne H1 H2).
Qed.

Lemma drop_variable_inv self name :
  stack_inv self -> stack_inv (state_of (stack.drop_variable name self)).
Proof.
  intros Hinv. unfold stack.drop_variable.
  destruct (stack.vars self !! name) as [[a d|old]|] eqn:Hname;
    [|exact Hinv|exact Hinv].
  unfold bind, stack.drop, modify. simpl.
  destruct Hinv as [I1 I2].
  assert (Hla : live self name a) by now exists d.
  destruct (I1 name a Hla) as [(Hsz & Hs & He & Hb) _].
  replace (Allocation.end_ a + 1) with (Allocation.start a + Allocation.size a) by lia.
  assert (Hlive : forall n b,
             live (stack.set_vars (delete name)
                     (stack.set_store (fun st => Py.slice_assign st (Allocation.start a)
                        (Allocation.start a + Allocation.size a)
                        (Py.repeat_list Free (Allocation.size a))) self)) n b ->
             n <> name /\ live self n b).
  { intros n b [d' H]. simpl in H.
    apply lookup_delete_Some in H as [Hne H]. split; [auto | now exists d']. }
  split.
  - intros n b Hl. apply Hlive in Hl as [Hne Hl]. simpl.
    destruct (I1 n b Hl) as [Hbarena Hbc].
    rewrite slice_assign_length by (rewrite ?repeat_list_len; lia).
    split; [exact Hbarena|]. intros j Hj.
    rewrite mark_range_cell_at
      by (rewrite ?repeat_list_len; unfold in_arena in Hbarena; lia).
    assert (Hd : disjoint b a) by exact (I2 n name b a Hne Hl Hla).
    unfold disjoint in Hd.
    destruct (Z.leb_spec (Allocation.start a) j),
             (Z.leb_spec j (Allocation.start a + Allocation.size a - 1));
      simpl; try (now apply Hbc); lia.
  - intros n1 n2 a1 a2 Hne H1 H2.
    apply Hlive in H1 as [_ H1]. apply Hlive in H2 as [_ H2].
    exact (I2 n1 n2 a1 a2 Hne H1 H2).
Qed.

Lemma get_state self a cast : state_of (stack.get a cast self) = self.
Proof.
  unfold stack.get. destruct (existsb _ _); [reflexivity|].
  destruct cast; simpl; auto.
  - destruct (stack.bytes_of_cells _); reflexivity.
  - destruct (stack.bytes_of_cells _); [reflexivity|].
    destruct (Py.decode_ascii _); reflexivity.
Qed.

Lemma get_variable_state self name :
  state_of (stack.get_variable name self) = self.
Proof.
  unfold stack.get_variable.
  destruct (stack.vars self !! name) as [[a d|v]|]; try reflexivity.
  destruct d; try reflexivity; apply get_state.
Qed.

Lemma apply_op_inv o self : stack_inv self -> stack_inv (apply_op o self).
Proof.
  intros H. destruct o; simpl.
  - now apply allocate_variable_inv.
  - now apply drop_variable_inv.
  - now apply write_variable_inv.
  - now rewrite get_variable_state.
Qed.

Lemma apply_ops_inv ops self : stack_inv self -> stack_inv (apply_ops ops self).
Proof.
  revert self. induction ops as [|o ops IH]; intros self H; simpl; [exact H|].
  apply IH. now apply apply_op_inv.
Qed.

(** On a packed store a request that fits is served right after the
    marked cells. *)
Lemma allocate_packed N k self size :
  packed N k (stack.store self) -> 0 <= k -> 1 <= size -> k + size <= N ->
  exists self',
    stack.allocate size self = Ok (Allocation.mk k (k + size - 1) size) self'
    /\ packed N (k + size) (stack.store self').
Proof.
  intros (Hlen & Hmarked & Hfree) Hk Hsize Hfit.
  assert (Hrun : free_run (stack.store self) k size).
  { split; [lia|]. split; [lia|]. intros j Hj.
    rewrite <- cell_at_nonneg by lia. apply Hfree. lia. }
  pose proof (allocate_spec self size Hsize) as H.
  destruct (stack.allocate size self) as [a self'|e self'].
  - destruct H as ((Hs0 & Hs1 & Hcells) & Hleast & _ & Hend & Hsz & _ & _ & Hlen' & Hnew).
    assert (Hstart : Allocation.start a = k).
    { destruct (Z.lt_trichotomy (Allocation.start a) k) as [Hlt|[Heq|Hgt]];
        [|exact Heq|].
      - specialize (Hcells (Allocation.start a) ltac:(lia)).
        rewrite <- cell_at_nonneg in Hcells by lia.
        rewrite Hmarked in Hcells by lia. discriminate.
      - destruct (Hleast k Hgt Hrun). }
    exists self'. split.
    + destruct a as [s e n]. simpl in *. subst. reflexivity.
    + split; [lia|]. split; intros j Hj; rewrite Hnew by lia.
      * destruct (Z.leb_spec (Allocation.start a) j), (Z.leb_spec j (Allocation.end_ a));
          simpl; try reflexivity; apply Hmarked; lia.
      * destruct (Z.leb_spec (Allocation.start a) j), (Z.leb_spec j (Allocation.end_ a));
          simpl; try lia; apply Hfree; lia.
  - destruct H as (_ & _ & Hnone). destruct (Hnone k Hrun).
Qed.

(** On a new stack of [N] cells, requests of at least one cell each whose
    sizes sum to at most [N] are all served. *)
Lemma allocate_all_packed sizes :
  forall N k self,
    packed N k (stack.store self) -> 0 <= k ->
    Forall (fun size => 1 <= size) sizes -> k + sum_sizes sizes <= N ->
    exists allocs self', allocate_all sizes self = Ok allocs self'.
Proof.
  induction sizes as [|size rest IH]; intros N k self Hp Hk Hpos Hsum; simpl.
  - eexists _, _. reflexivity.
  - apply Forall_cons in Hpos as [Hsize Hpos]. simpl in Hsum.
    assert (0 <= sum_sizes rest).
    { clear -Hpos. induction Hpos; simpl; lia. }
    destruct (allocate_packed N k self size Hp Hk Hsize ltac:(lia))
      as (s1 & Ha & Hp1).
    destruct (IH N (k + size) s1 Hp1 ltac:(lia) Hpos ltac:(lia))
      as (l & s2 & Hl).
    exists (Allocation.mk k (k + size - 1) size :: l), s2.
    unfold bind. now rewrite Ha, Hl.
Qed.

Lemma allocate_all_succeeds N sizes :
  Forall (fun size => 1 <= size) sizes -> sum_sizes sizes <= N ->
  exists allocs self', allocate_all sizes (stack.init N) = Ok allocs self'.
Proof.
  intros Hpos Hsum.
  assert (0 <= sum_sizes sizes) by (clear -Hpos; induction Hpos; simpl; lia).
  apply (allocate_all_packed sizes N 0); try lia; [|assumption].
  split; [simpl; rewrite repeat_list_len; lia|].
  split; [intros j Hj; lia|].
  intros j Hj. rewrite cell_at_nonneg by lia. simpl.
  apply lookup_replicate_2. lia.
Qed.

Lemma apply_op_len o self :
  stack_inv self ->
  Py.len (stack.store (apply_op o self)) = Py.len (stack.store self).
Proof.
  intros [I1 I2]. destruct o as [name size|name|name v reserved|name]; simpl.
  - unfold stack.allocate_variable.
    destruct (stack.vars self !! name); [reflexivity|]. unfold bind, modify.
    destruct (stack.allocate size self) as [a s1|e s1] eqn:Ha; simpl.
    + now apply allocate_ok in Ha as (_ & _ & _ & _ & _ & _ & _ & _ & Hlen & _).
    + now rewrite (allocate_raise _ _ _ _ Ha).
  - unfold stack.drop_variable.
    destruct (stack.vars self !! name) as [[a d|old]|] eqn:Hname; try reflexivity.
    unfold bind, stack.drop, modify. simpl.
    destruct (I1 name a ltac:(now exists d)) as [(Hsz & Hs & He & Hb) _].
    apply slice_assign_length; rewrite ?repeat_list_len; lia.
  - unfold stack.write_variable.
    destruct (stack.vars self !! name) as [[a d|old]|] eqn:Hname; try reflexivity.
    + unfold bind, modify.
      set (s1 := stack.set_vars <[name := Register a (stack.datatype_of v)]> self).
      assert (Ha : in_arena (Py.len (stack.store s1)) a)
        by (apply (I1 name a); now exists d).
      now destruct (write_keeps s1 a v Ha) as (_ & Hl & _).
    + destruct (negb reserved); reflexivity.
  - now rewrite get_variable_state.
Qed.

Lemma apply_ops_len ops self :
  stack_inv self ->
  Py.len (stack.store (apply_ops ops self)) = Py.len (stack.store self).
Proof.
  revert self. induction ops as [|o ops IH]; intros self H; simpl; [reflexivity|].
  rewrite IH by now apply apply_op_inv. now apply apply_op_len.
Qed.

(** C4: the allocations returned by successful calls of [Stack.allocate]
    in a row, from any stack with a store of [N] cells, have the requested
    sizes, satisfy [end == start + size - 1], lie within [0, N) and are
    pairwise disjoint (their sizes then sum to at most [N]; the theorem
    does not need to assume it); and after any sequence of calls of the
    variable layer on a new stack of [N] cells (allocations, drops, writes
    and reads, returning or raising), every live allocation has this shape
    and lies within [0, N), and the allocations of two variables do not
    overlap. *)
Theorem allocations_never_overlap :
  (forall self sizes allocs self',
      allocate_all sizes self = Ok allocs self' ->
      Forall2 (fun a size => Allocation.size a = size) allocs sizes
      /\ Forall (in_arena (Py.len (stack.store self))) allocs
      /\ pairwise_disjoint allocs)
  /\ (forall N ops, 0 <= N ->
        let self := apply_ops ops (stack.init N) in
        (forall name a, live self name a -> in_arena N a)
        /\ (forall n1 n2 a1 a2, n1 <> n2 ->
              live self n1 a1 -> live self n2 a2 -> disjoint a1 a2)).
Proof.
  split.
  - intros self sizes allocs self' H.
    apply allocate_all_spec in H as (_ & _ & Hsizes & Hall & Hpair).
    repeat split; auto.
    eapply Forall_impl; [exact Hall|]. now intros a [Ha _].
  - intros N ops HN self.
    pose proof (apply_ops_inv ops _ (stack_inv_init N)) as [I1 I2].
    pose proof (apply_ops_len ops _ (stack_inv_init N)) as Hlen.
    simpl in Hlen. rewrite repeat_list_len in Hlen by lia.
    fold self in I1, I2, Hlen. split; [|exact I2].
    intros name a Hl. rewrite <- Hlen. exact (proj1 (I1 name a Hl)).
Qed.

Lemma allocations_never_overlap_witness :
  (exists self',
      allocate_all three_requests ten_cells
      = Ok [Allocation.mk 0 2 3; Allocation.mk 3 4 2; Allocation.mk 5 8 4] self'
      /\ Forall (in_arena 10)
                [Allocation.mk 0 2 3; Allocation.mk 3 4 2; Allocation.mk 5 8 4]
      /\ pairwise_disjoint
           [Allocation.mk 0 2 3; Allocation.mk 3 4 2; Allocation.mk 5 8 4])
  /\ live (apply_ops ten_cells_ops ten_cells) "y" (Allocation.mk 3 4 2)
  /\ live (apply_ops ten_cells_ops ten_cells) "z" (Allocation.mk 5 8 4)
  /\ live (apply_ops ten_cells_ops ten_cells) "w" (Allocation.mk 0 2 3)
  /\ in_arena 10 (Allocation.mk 0 2 3)
  /\ disjoint (Allocation.mk 3 4 2) (Allocation.mk 0 2 3)
  /\ disjoint (Allocation.mk 5 8 4) (Allocation.mk 0 2 3).
Proof.
  assert (Hy : live (apply_ops ten_cells_ops ten_cells) "y" (Allocation.mk 3 4 2))
    by (exists INTEGER; reflexivity).
  assert (Hz : live (apply_ops ten_cells_ops ten_cells) "z" (Allocation.mk 5 8 4))
    by (exists NOTSET; reflexivity).
  assert (Hw : live (apply_ops ten_cells_ops ten_cells) "w" (Allocation.mk 0 2 3))
    by (exists NOTSET; reflexivity).
  destruct allocations_never_overlap as [Hrow Hops].
  split; [|split; [exact Hy | split; [exact Hz | split; [exact Hw|split; [|split]]]]].
  - eexists. split; [reflexivity|].
    destruct (Hrow ten_cells three_requests _ _ eq_refl) as (_ & Harena & Hpair).
    split; [exact Harena | exact Hpair].
  - exact (proj1 (Hops 10 ten_cells_ops ltac:(lia)) "w" _ Hw).
  - refine (proj2 (Hops 10 ten_cells_ops ltac:(lia)) "y" "w" _ _ _ Hy Hw).
    discriminate.
  - refine (proj2 (Hops 10 ten_cells_ops ltac:(lia)) "z" "w" _ _ _ Hz Hw).
    discriminate.
Defined.

(** * Program construction *)

Lemma not_numeric_keyword kw rest :
  existsb (String.eqb kw) ["START"; "PROGRAM"; "SIZE"; "."] = true ->
  line_number (kw :: rest) = None.
Proof.
  intros H. cbn [existsb] in H.
  rewrite !orb_true_iff, !String.eqb_eq in H.
  destruct H as [->|[->|[->|[->|H]]]]; try reflexivity. discriminate.
Qed.

Lemma case_START_ok line st r :
  construct.case_START line st = Some r ->
  line_number line = None /\ r = Ok tt st.
Proof.
  unfold construct.case_START. destruct line as [|kw [|]]; try discriminate.
  destruct (String.eqb kw "START") eqn:E; [|discriminate].
  destruct (negb _); [|discriminate]. intros [= <-].
  split; [|reflexivity]. apply not_numeric_keyword. simpl. now rewrite E.
Qed.

Lemma case_PROGRAM_ok line st st1 :
  construct.case_PROGRAM line st = Some (Ok tt st1) ->
  line_number line = None /\ construct.last_line st1 = construct.last_line st.
Proof.
  unfold construct.case_PROGRAM. destruct line as [|kw [|name [|]]]; try discriminate.
  destruct (String.eqb kw "PROGRAM") eqn:E; [|discriminate].
  destruct (negb _); [|discriminate]. intros [= <-].
  split; [|reflexivity]. apply not_numeric_keyword. simpl. rewrite E.
  now rewrite !orb_true_r.
Qed.

Lemma case_SIZE_ok line st st1 :
  construct.case_SIZE line st = Some (Ok tt st1) ->
  line_number line = None /\ construct.last_line st1 = construct.last_line st.
Proof.
  unfold construct.case_SIZE.
  destruct line as [|kw [|size [|system [|]]]]; try discriminate.
  destruct (String.eqb kw "SIZE") eqn:E; [|discriminate].
  destruct (negb _); [|discriminate].
  destruct (construct.size_match size); [|discriminate].
  destruct (construct.mapping_get system); [|discriminate].
  destruct (Py.int_of_str _); [|discriminate]. intros [= <-].
  split; [|reflexivity]. apply not_numeric_keyword. simpl. rewrite E.
  now rewrite !orb_true_r.
Qed.

Lemma case_dot_ok pl index line st st1 :
  construct.case_dot pl index line st = Some (Ok tt st1) ->
  line_number line = None /\ construct.last_line st1 = construct.last_line st.
Proof.
  unfold construct.case_dot. destruct line as [|kw [|]]; try discriminate.
  destruct (String.eqb kw ".") eqn:E; [|discriminate].
  destruct (negb _); [discriminate|].
  destruct (negb _); [discriminate|]. intros [= <-].
  split; [|reflexivity]. apply not_numeric_keyword. simpl. rewrite E.
  now rewrite !orb_true_r.
Qed.

(** The check of a numbered line. *)
Lemma case_numbered_ok pl index line st st1 :
  construct.case_numbered pl index line st = Some (Ok tt st1) ->
  exists n, line_number line = Some n
            /\ construct.last_line st < n /\ n mod 10 = 0
            /\ construct.last_line st1 = n.
Proof.
  unfold construct.case_numbered, line_number.
  destruct line as [|tok code_line]; [discriminate|].
  destruct (Py.isnumeric tok); simpl; [|discriminate].
  destruct (Py.getitem pl (index - 1)); [|discriminate].
  destruct (_ && _); [discriminate|].
  destruct (Py.int_of_str tok) as [n|]; [|discriminate].
  destruct (Z.leb_spec n (construct.last_line st)); simpl; [discriminate|].
  destruct (Z.eqb_spec (n mod 10) 0); simpl; [|discriminate].
  intros [= <-]. exists n. auto.
Qed.

Lemma construct_line_ok pl index line st st1 :
  construct.construct_line pl index line st = Ok tt st1 ->
  (line_number line = None /\ construct.last_line st1 = construct.last_line st)
  \/ (exists n, line_number line = Some n
                /\ construct.last_line st < n /\ n mod 10 = 0
                /\ construct.last_line st1 = n).
Proof.
  unfold construct.construct_line. simpl.
  destruct (construct.case_START line st) eqn:E1.
  { intros ->. apply case_START_ok in E1 as [H [= <-]]. now left. }
  destruct (construct.case_PROGRAM line st) eqn:E2.
  { intros ->. left. now apply case_PROGRAM_ok in E2. }
  destruct (construct.case_SIZE line st) eqn:E3.
  { intros ->. left. now apply case_SIZE_ok in E3. }
  destruct (construct.case_dot pl index line st) eqn:E4.
  { intros ->. left. now apply case_dot_ok in E4. }
  destruct (construct.case_numbered pl index line st) eqn:E5.
  { intros ->. right. now apply case_numbered_ok in E5. }
  discriminate.
Qed.

Lemma construct_loop_ok pl todo :
  forall index st st',
    construct.construct_loop pl index todo st = Ok tt st' ->
    increasing_multiples_of_10 (construct.last_line st) (line_numbers todo).
Proof.
  induction todo as [|line rest IH]; intros index st st' H; simpl; [exact I|].
  simpl in H. unfold bind in H.
  destruct (construct.construct_line pl index line st) as [[] st1|] eqn:E;
    [|discriminate].
  apply IH in H.
  apply construct_line_ok in E as [[Hn Hl]|(n & Hn & Hlt & Hmod & Hl)].
  - unfold line_numbers in *. simpl. rewrite Hn. now rewrite Hl in H.
  - unfold line_numbers in *. simpl. rewrite Hn. simpl. rewrite Hl in H. auto.
Qed.

(** C5 as amended: a program is constructed only if the number of every
    numbered line is greater than the number of the numbered line before
    it (than 0 for the first) and is a multiple of 10; the numbers need not
    be consecutive multiples. *)
Theorem construct_checks_line_numbers (lines : list string) (prog : construct.Program) :
  construct.construct_program lines = inr prog ->
  increasing_multiples_of_10 0 (line_numbers (construct.process_lines lines)).
Proof.
  unfold construct.construct_program, construct.construct_processed.
  destruct (construct.construct_loop _ 0 _ construct.initial) as [[] st|] eqn:E;
    [|discriminate].
  intros _. exact (construct_loop_ok _ _ _ _ _ E).
Qed.

Lemma construct_checks_line_numbers_witness :
  line_numbers (construct.process_lines source_10_20_40) = [10; 20; 40]
  /\ increasing_multiples_of_10 0
       (line_numbers (construct.process_lines source_10_20_40)).
Proof.
  split; [reflexivity|].
  exact (construct_checks_line_numbers source_10_20_40
           (construct.mk None 8192 [["cls"]; ["cls"]; ["cls"]] ∅) eq_refl).
Defined.

(** C5 fails for the numbers 10, 20, 40: the program is constructed. *)
Lemma construct_10_20_40_succeeds :
  line_numbers (construct.process_lines source_10_20_40) = [10; 20; 40]
  /\ construct.construct_program source_10_20_40
     = inr (construct.mk None 8192 [["cls"]; ["cls"]; ["cls"]] ∅).
Proof. split; reflexivity. Qed.

Example construct_10_20_30_succeeds :
  construct.construct_program source_10_20_30
  = inr (construct.mk None 8192 [["cls"]; ["cls"]; ["cls"]] ∅).
Proof. reflexivity. Qed.

Example construct_10_15_fails :
  construct.construct_program source_10_15 = inl SyntaxError.
Proof. reflexivity. Qed.

Example construct_20_10_fails :
  construct.construct_program source_20_10 = inl SyntaxError.
Proof. reflexivity. Qed.

(** * The engine *)

Section Preserves.
Context {S : Type} (P : S -> Prop).

Lemma preserves_ret {A} (a : A) : preserves P (ret a).
Proof. intros s H. exact H. Qed.

Lemma preserves_raise {A} e : preserves P (@raise S A e).
Proof. intros s H. exact H. Qed.

Lemma preserves_lift {A} (r : exn + A) : preserves P (lift r).
Proof. intros s H. unfold lift. now destruct r. Qed.

Lemma preserves_gets {A} (f : S -> A) : preserves P (gets f).
Proof. intros s H. exact H. Qed.

Lemma preserves_bind {A B} (c : M S A) (k : A -> M S B) :
  preserves P c -> (forall a, preserves P (k a)) -> preserves P (bind c k).
Proof.
  intros Hc Hk s H. unfold bind. specialize (Hc s H).
  destruct (c s) as [a s'|e s']; simpl in *; [now apply Hk | exact Hc].
Qed.

Lemma preserves_foldM {A B} (f : B -> A -> M S B) (l : list A) :
  (forall b a, preserves P (f b a)) -> forall b, preserves P (main.foldM f l b).
Proof.
  intros Hf. induction l as [|a l IH]; intros b; simpl.
  - apply preserves_ret.
  - apply preserves_bind; [apply Hf | exact IH].
Qed.

End Preserves.

Section Returns.
Context {S A : Type} (x : A).

Lemma returns_ret : returns (S := S) x (ret x).
Proof. intros s y s' [= <- _]. reflexivity. Qed.

Lemma returns_raise e : returns x (@raise S A e).
Proof. intros s y s' [=]. Qed.

Lemma returns_bind {B} (c : M S B) (k : B -> M S A) :
  (forall b, returns x (k b)) -> returns x (bind c k).
Proof.
  intros Hk s y s'. unfold bind. destruct (c s) as [b s1|]; [|discriminate].
  apply Hk.
Qed.

End Returns.

(** ** The reserved registers stay reserved *)

Lemma write_vars a v self :
  stack.vars (state_of (stack.write a v self)) = stack.vars self.
Proof.
  unfold stack.write, bind, lift.
  destruct (stack.serialize _ _); simpl; [reflexivity|].
  destruct (_ <? _); [reflexivity|]. destruct (_ <? _); reflexivity.
Qed.

Lemma allocate_vars size self :
  stack.vars (state_of (stack.allocate size self)) = stack.vars self.
Proof.
  unfold stack.allocate. destruct (stack.allocate_scan _ _ _ _ _); reflexivity.
Qed.

Lemma reserved_ok_insert_register self name a d a' d' :
  stack.vars self !! name = Some (Register a d) ->
  reserved_ok self ->
  reserved_ok (stack.set_vars <[name := Register a' d']> self).
Proof.
  intros Hname H n Hn. destruct (H n Hn) as [v Hv]. exists v. simpl.
  rewrite lookup_insert_ne; [exact Hv | congruence].
Qed.

Lemma reserved_ok_init N : reserved_ok (stack.init N).
Proof.
  intros n Hn. exists (VInt 0). simpl in Hn.
  destruct Hn as [<-|[<-|[<-|[]]]]; reflexivity.
Qed.

Lemma allocate_variable_reserved name size :
  preserves reserved_ok (stack.allocate_variable name size).
Proof.
  intros self H. unfold stack.allocate_variable.
  destruct (stack.vars self !! name) eqn:Hname; [exact H|].
  unfold bind, modify. pose proof (allocate_vars size self) as Hv.
  destruct (stack.allocate size self) as [a s1|e s1];
    cbn [state_of] in *.
  - intros n Hn. destruct (H n Hn) as [v Hn']. exists v.
    cbn [stack.vars stack.set_vars].
    rewrite lookup_insert_ne by congruence. now rewrite Hv.
  - intros n Hn. rewrite Hv. exact (H n Hn).
Qed.

Lemma write_variable_reserved name v reserved :
  preserves reserved_ok (stack.write_variable name v reserved).
Proof.
  intros self H. unfold stack.write_variable.
  destruct (stack.vars self !! name) as [[a d|old]|] eqn:Hname; [| |exact H].
  - unfold bind, modify.
    intros n Hn. rewrite write_vars.
    exact (reserved_ok_insert_register _ _ _ _ _ _ Hname H n Hn).
  - destruct (negb reserved); simpl; [exact H|].
    intros n Hn. simpl. destruct (decide (n = name)) as [->|Hne].
    + exists v. apply lookup_insert_eq.
    + rewrite lookup_insert_ne by congruence. exact (H n Hn).
Qed.

Lemma write_variable_float_reserved name :
  preserves reserved_ok (main.write_variable_float name).
Proof.
  intros self H. unfold main.write_variable_float.
  destruct (stack.vars self !! name) as [[a d|old]|] eqn:Hname; try exact H.
  simpl. exact (reserved_ok_insert_register _ _ _ _ _ _ Hname H).
Qed.

Lemma drop_variable_reserved name :
  preserves reserved_ok (stack.drop_variable name).
Proof.
  intros self H. unfold stack.drop_variable.
  destruct (stack.vars self !! name) as [[a d|old]|] eqn:Hname; try exact H.
  unfold bind, stack.drop, modify. cbn [state_of].
  intros n Hn. destruct (H n Hn) as [v Hv]. exists v.
  cbn [stack.vars stack.set_vars stack.set_store].
  rewrite lookup_delete_ne by congruence. exact Hv.
Qed.

Lemma get_variable_reserved name :
  preserves reserved_ok (stack.get_variable name).
Proof. intros self H. now rewrite get_variable_state. Qed.

Lemma write_variable_float_inv name :
  preserves stack_inv (main.write_variable_float name).
Proof.
  intros self H. unfold main.write_variable_float.
  destruct (stack.vars self !! name) as [[a d|old]|] eqn:Hname; try exact H.
  cbn [state_of]. apply (stack_inv_mono self); auto.
  intros n b Hl. apply live_insert_register in Hl as [[-> ->]|[_ Hl]]; auto.
  now exists d.
Qed.

Lemma allocate_variable_ok name size :
  preserves stack_ok (stack.allocate_variable name size).
Proof.
  intros self [Hr Hi]. split;
    [now apply allocate_variable_reserved | now apply allocate_variable_inv].
Qed.

Lemma write_variable_ok name v reserved :
  preserves stack_ok (stack.write_variable name v reserved).
Proof.
  intros self [Hr Hi]. split;
    [now apply write_variable_reserved | now apply write_variable_inv].
Qed.

Lemma write_variable_float_ok name :
  preserves stack_ok (main.write_variable_float name).
Proof.
  intros self [Hr Hi]. split;
    [now apply write_variable_float_reserved | now apply write_variable_float_inv].
Qed.

Lemma drop_variable_ok name : preserves stack_ok (stack.drop_variable name).
Proof.
  intros self [Hr Hi]. split;
    [now apply drop_variable_reserved | now apply drop_variable_inv].
Qed.

Lemma get_variable_ok name : preserves stack_ok (stack.get_variable name).
Proof. intros self H. now rewrite get_variable_state. Qed.

Lemma stack_ok_init N : stack_ok (stack.init N).
Proof. split; [apply reserved_ok_init | apply stack_inv_init]. Qed.

(** ** The invariant of the machine *)

Lemma on_stack_inv {A} (c : M stack.Stack A) :
  preserves stack_ok c -> preserves machine_inv (main.on_stack c).
Proof.
  intros Hc m [Hr Hres]. unfold main.on_stack. specialize (Hc _ Hr).
  destruct (c (main.stack m)); split; assumption.
Qed.

Lemma print_inv text : preserves machine_inv (main.print text).
Proof. intros m H. exact H. Qed.

Lemma input_inv prompt : preserves machine_inv (main.input prompt).
Proof. intros m H. unfold main.input. destruct (main.stdin m); exact H. Qed.

Lemma set_current_line_inv n : preserves machine_inv (modify (main.set_current_line n)).
Proof. intros m H. exact H. Qed.

Lemma set_result_inv r :
  result_ok (Some r) -> preserves machine_inv (modify (main.set_comparison_result r)).
Proof. intros Hr m [H _]. split; assumption. Qed.

Create HintDb engine.
#[local] Hint Resolve allocate_variable_ok write_variable_ok
  write_variable_float_ok drop_variable_ok get_variable_ok : engine.

Ltac step_preserves :=
  first
    [ apply preserves_ret | apply preserves_raise | apply preserves_lift
    | apply preserves_gets | apply print_inv | apply input_inv
    | apply set_current_line_inv
    | apply on_stack_inv; solve [auto with engine]
    | apply preserves_foldM; intros
    | apply preserves_bind; [|intros]
    | match goal with
      | |- preserves _ (match ?x with _ => _ end) => destruct x
      end ].

Ltac open_case :=
  repeat match goal with
         | |- context [match ?l with [] => _ | _ :: _ => _ end] => destruct l
         end;
  try discriminate;
  match goal with
  | |- (if ?b then Some _ else None) = Some _ -> _ =>
      destruct b eqn:?; [|discriminate]; intros [= <-]
  end.

Section EngineProofs.
Variable unicode_escape : string -> option string.
Variable program : construct.Program.

Local Abbreviation process_value := (main.process_value unicode_escape).
Local Abbreviation execute := (main.execute unicode_escape program).
Local Abbreviation step := (main.step unicode_escape program).

Lemma process_value_inv value : preserves machine_inv (process_value value).
Proof. unfold main.process_value. repeat step_preserves. Qed.

Lemma handle_variable_inv regex variable :
  preserves machine_inv (main.handle_variable regex variable).
Proof. unfold main.handle_variable. apply preserves_lift. Qed.

Ltac case_preserves :=
  repeat first [ apply process_value_inv | apply handle_variable_inv
               | step_preserves ].

Lemma case_out_inv line c :
  main.case_out unicode_escape line = Some c -> preserves machine_inv c.
Proof. unfold main.case_out. open_case. case_preserves. Qed.

Lemma case_lbl_inv line c :
  main.case_lbl line = Some c -> preserves machine_inv c.
Proof. unfold main.case_lbl. open_case. case_preserves. Qed.

Lemma case_cls_inv line c :
  main.case_cls line = Some c -> preserves machine_inv c.
Proof. unfold main.case_cls. open_case. case_preserves. Qed.

Lemma case_alc_inv line c :
  main.case_alc line = Some c -> preserves machine_inv c.
Proof. unfold main.case_alc. open_case. case_preserves. Qed.

Lemma case_inp_inv line c :
  main.case_inp unicode_escape line = Some c -> preserves machine_inv c.
Proof. unfold main.case_inp. open_case. case_preserves. Qed.

Lemma case_arith_inv line c :
  main.case_arith unicode_escape line = Some c -> preserves machine_inv c.
Proof. unfold main.case_arith. open_case. case_preserves. Qed.

Lemma case_cst_inv line c :
  main.case_cst line = Some c -> preserves machine_inv c.
Proof. unfold main.case_cst. open_case. case_preserves. Qed.

Lemma case_jump_inv line c :
  main.case_jump program line = Some c -> preserves machine_inv c.
Proof. unfold main.case_jump. open_case. case_preserves. Qed.

Lemma case_drp_inv line c :
  main.case_drp line = Some c -> preserves machine_inv c.
Proof. unfold main.case_drp. open_case. case_preserves. Qed.

Lemma case_set_inv line c :
  main.case_set unicode_escape line = Some c -> preserves machine_inv c.
Proof. unfold main.case_set. open_case. case_preserves. Qed.

(** [cmp] stores the result of the equality check or of the inequality
    check; one of the two always holds, so the checks after them, the
    check of the types included, are never reached. *)
Lemma case_cmp_inv line c :
  main.case_cmp unicode_escape line = Some c -> preserves machine_inv c.
Proof.
  unfold main.case_cmp. open_case.
  apply preserves_bind; [apply process_value_inv | intros variable1].
  apply preserves_bind; [apply process_value_inv | intros variable2].
  apply preserves_bind; [|intros; apply preserves_ret].
  unfold main.ne_values.
  destruct (main.eq_values variable1 variable2); simpl.
  - apply set_result_inv. right. now left.
  - apply set_result_inv. right. now right.
Qed.

Lemma execute_inv : preserves machine_inv execute.
Proof.
  intros m H. unfold main.execute.
  destruct (Py.getitem _ _) as [line|]; [|exact H].
  cbn [construct.first_case].
  destruct (main.case_out _ line) eqn:E1; [exact (case_out_inv _ _ E1 m H)|].
  destruct (main.case_lbl line) eqn:E2; [exact (case_lbl_inv _ _ E2 m H)|].
  destruct (main.case_cls line) eqn:E3; [exact (case_cls_inv _ _ E3 m H)|].
  destruct (main.case_alc line) eqn:E4; [exact (case_alc_inv _ _ E4 m H)|].
  destruct (main.case_inp _ line) eqn:E5; [exact (case_inp_inv _ _ E5 m H)|].
  destruct (main.case_arith _ line) eqn:E6; [exact (case_arith_inv _ _ E6 m H)|].
  destruct (main.case_cst line) eqn:E7; [exact (case_cst_inv _ _ E7 m H)|].
  destruct (main.case_cmp _ line) eqn:E8; [exact (case_cmp_inv _ _ E8 m H)|].
  destruct (main.case_jump _ line) eqn:E9; [exact (case_jump_inv _ _ E9 m H)|].
  destruct (main.case_drp line) eqn:E10; [exact (case_drp_inv _ _ E10 m H)|].
  destruct (main.case_set _ line) eqn:E11; [exact (case_set_inv _ _ E11 m H)|].
  exact H.
Qed.

(** The privileged write of the error flag at the end of an iteration. *)
Lemma finish_next slx_code m :
  machine_inv m ->
  exists m',
    main.finish slx_code m = main.Next m'
    /\ machine_inv m'
    /\ flag m' = Some (ReservedRegister (VInt slx_code))
    /\ main.current_line m' = main.current_line m + 1
    /\ main.comparison_result m' = main.comparison_result m
    /\ main.stdout m' = main.stdout m.
Proof.
  intros [Hok Hres].
  destruct (proj1 Hok "slx" ltac:(simpl; auto)) as [v Hv].
  unfold main.finish, main.on_stack, stack.write_variable. rewrite Hv.
  cbn [negb]. eexists. split; [reflexivity|].
  split; [|split; [|repeat split]].
  - split; [|exact Hres]. cbn [main.stack main.set_current_line main.set_stack].
    apply (write_variable_ok "slx" (VInt slx_code) true) in Hok.
    unfold stack.write_variable in Hok. rewrite Hv in Hok. exact Hok.
  - unfold flag. cbn [main.stack main.set_current_line main.set_stack
                      stack.vars stack.set_vars].
    apply lookup_insert_eq.
Qed.

Lemma step_inv m m' : machine_inv m -> step m = main.Next m' -> machine_inv m'.
Proof.
  intros H. unfold main.step.
  destruct (_ <=? _); [|discriminate].
  pose proof (execute_inv m H) as He.
  destruct (execute m) as [[] m1|e m1]; cbn [state_of] in He.
  - destruct (finish_next 0 m1 He) as (m2 & -> & Hm2 & _). now intros [= <-].
  - now intros [= <-].
  - destruct (isinstance_StackError e); [discriminate|].
    destruct (finish_next 1 m1 He) as (m2 & -> & Hm2 & _). now intros [= <-].
Qed.

Lemma start_inv console : machine_inv (main.start program console).
Proof. split; [apply stack_ok_init | now left]. Qed.

Lemma reachable_inv m : reachable unicode_escape program m -> machine_inv m.
Proof.
  induction 1 as [console|m m' _ IH Hstep].
  - apply start_inv.
  - exact (step_inv m m' IH Hstep).
Qed.

(** ** Which instructions leave the iteration by [continue] *)

Ltac case_returns :=
  repeat first
    [ apply returns_ret | apply returns_raise
    | apply returns_bind; intros
    | match goal with
      | |- returns _ (match ?x with _ => _ end) => destruct x
      end ].

Lemma case_out_returns line c :
  main.case_out unicode_escape line = Some c -> returns main.Fallthrough c.
Proof. unfold main.case_out. open_case. case_returns. Qed.

Lemma case_lbl_returns line c :
  main.case_lbl line = Some c -> returns main.Fallthrough c.
Proof. unfold main.case_lbl. open_case. case_returns. Qed.

Lemma case_cls_returns line c :
  main.case_cls line = Some c -> returns main.Fallthrough c.
Proof. unfold main.case_cls. open_case. case_returns. Qed.

Lemma case_alc_returns line c :
  main.case_alc line = Some c -> returns main.Fallthrough c.
Proof. unfold main.case_alc. open_case. case_returns. Qed.

Lemma case_inp_returns line c :
  main.case_inp unicode_escape line = Some c -> returns main.Fallthrough c.
Proof. unfold main.case_inp. open_case. case_returns. Qed.

Lemma case_arith_returns line c :
  main.case_arith unicode_escape line = Some c -> returns main.Fallthrough c.
Proof. unfold main.case_arith. open_case. case_returns. Qed.

Lemma case_cst_returns line c :
  main.case_cst line = Some c -> returns main.Fallthrough c.
Proof. unfold main.case_cst. open_case. case_returns. Qed.

Lemma case_cmp_returns line c :
  main.case_cmp unicode_escape line = Some c -> returns main.Fallthrough c.
Proof. unfold main.case_cmp. open_case. case_returns. Qed.

Lemma case_drp_returns line c :
  main.case_drp line = Some c -> returns main.Fallthrough c.
Proof. unfold main.case_drp. open_case. case_returns. Qed.

Lemma case_set_returns line c :
  main.case_set unicode_escape line = Some c -> returns main.Fallthrough c.
Proof. unfold main.case_set. open_case. case_returns. Qed.

(** A jump that is taken changes the line and nothing else. *)
Lemma case_jump_continue line c m m1 :
  main.case_jump program line = Some c -> c m = Ok main.Continue m1 ->
  exists jump_type label target,
    line = [jump_type; label]
    /\ existsb (String.eqb jump_type) ["jeq"; "jnq"; "jgt"; "jlt"; "jge"; "jle"] = true
    /\ main.comparison_result m = Some jump_type
    /\ construct.labels program !! label = Some target
    /\ m1 = main.set_current_line target m.
Proof.
  unfold main.case_jump.
  destruct line as [|jump_type [|label [|]]]; try discriminate.
  destruct (existsb _ _) eqn:Hjump; [|discriminate]. intros [= <-].
  unfold bind, gets.
  destruct (bool_decide_reflect (main.comparison_result m = Some jump_type))
    as [Hres|_]; [|discriminate].
  unfold lift, main.opt_or.
  destruct (construct.labels program !! label) as [target|] eqn:Hl;
    [|discriminate].
  cbn. intros [= <-]. exists jump_type, label, target. auto.
Qed.

Lemma execute_continue m m1 :
  execute m = Ok main.Continue m1 ->
  exists jump_type label target,
    Py.getitem (construct.lines program) (main.current_line m)
    = Some [jump_type; label]
    /\ existsb (String.eqb jump_type) ["jeq"; "jnq"; "jgt"; "jlt"; "jge"; "jle"] = true
    /\ main.comparison_result m = Some jump_type
    /\ construct.labels program !! label = Some target
    /\ m1 = main.set_current_line target m.
Proof.
  unfold main.execute.
  destruct (Py.getitem _ _) as [line|]; [|discriminate].
  cbn [construct.first_case]. intros H.
  destruct (main.case_out _ line) eqn:E1;
    [now apply (case_out_returns _ _ E1) in H|].
  destruct (main.case_lbl line) eqn:E2;
    [now apply (case_lbl_returns _ _ E2) in H|].
  destruct (main.case_cls line) eqn:E3;
    [now apply (case_cls_returns _ _ E3) in H|].
  destruct (main.case_alc line) eqn:E4;
    [now apply (case_alc_returns _ _ E4) in H|].
  destruct (main.case_inp _ line) eqn:E5;
    [now apply (case_inp_returns _ _ E5) in H|].
  destruct (main.case_arith _ line) eqn:E6;
    [now apply (case_arith_returns _ _ E6) in H|].
  destruct (main.case_cst line) eqn:E7;
    [now apply (case_cst_returns _ _ E7) in H|].
  destruct (main.case_cmp _ line) eqn:E8;
    [now apply (case_cmp_returns _ _ E8) in H|].
  destruct (main.case_jump _ line) eqn:E9.
  { destruct (case_jump_continue _ _ _ _ E9 H)
      as (jump_type & label & target & -> & Hjump & Hres & Hl & ->).
    exists jump_type, label, target. auto. }
  destruct (main.case_drp line) eqn:E10;
    [now apply (case_drp_returns _ _ E10) in H|].
  destruct (main.case_set _ line) eqn:E11;
    [now apply (case_set_returns _ _ E11) in H|].
  discriminate.
Qed.

Lemma getitem_bound {A} (l : list A) i x :
  Py.getitem l i = Some x -> i <= Py.len l - 1.
Proof.
  unfold Py.getitem, Py.len. destruct (Z.ltb_spec i 0) as [Hi|Hi]; [lia|].
  intros Hx. apply lookup_lt_Some in Hx. lia.
Qed.

Lemma after_reachable n :
  forall m m', reachable unicode_escape program m ->
               after unicode_escape program n m = Some m' ->
               reachable unicode_escape program m'.
Proof.
  induction n as [|n IH]; intros m m' Hm; simpl.
  - now intros [= <-].
  - destruct (step m) as [|m1|] eqn:E; try discriminate.
    apply IH. now apply (reachable_step _ _ m).
Qed.

End EngineProofs.

(** ** The error flag, the reserved registers and the jumps *)

Section EngineTheorems.
Variable unicode_escape : string -> option string.
Variable program : construct.Program.

Local Abbreviation execute := (main.execute unicode_escape program).
Local Abbreviation step := (main.step unicode_escape program).

(** C8 as amended: when an iteration of the loop does not end the run,
    then either the instruction ran to its end (a no-op included) and the
    engine wrote 0 into the error-flag register, or it raised an exception
    that is not a [StackError] and the engine wrote 1, in both cases
    through the privileged path and before going to the next line; or the
    instruction was a conditional jump that was taken, and then the engine
    wrote nothing: the error-flag register, like the whole stack, is as it
    was before the jump. *)
Theorem error_flag_protocol (m m' : main.machine) :
  reachable unicode_escape program m ->
  step m = main.Next m' ->
  flag_protocol unicode_escape program m m'.
Proof.
  intros Hreach Hstep. apply reachable_inv in Hreach. unfold flag_protocol.
  pose proof (execute_inv unicode_escape program m Hreach) as Hinv.
  unfold main.step in Hstep. destruct (_ <=? _); [|discriminate].
  destruct (execute m) as [[] m1|e m1] eqn:E; cbn [state_of] in Hinv.
  - destruct (finish_next 0 m1 Hinv) as (m2 & Hf & _ & Hflag & Hline & _).
    rewrite Hf in Hstep. injection Hstep as <-. auto.
  - injection Hstep as <-.
    destruct (execute_continue _ _ _ _ E)
      as (jump_type & label & target & Hline & _ & _ & Hl & ->).
    repeat split. exists jump_type, label. auto.
  - destruct (isinstance_StackError e); [discriminate|].
    destruct (finish_next 1 m1 Hinv) as (m2 & Hf & _ & Hflag & Hline & _).
    rewrite Hf in Hstep. injection Hstep as <-. auto.
Qed.

(** C9 as amended: none of the three reserved registers is user-writable.
    In every state of a run, a write to [slx], [sly] or [slz] through the
    ordinary path raises [ReservedName] whatever the value, and the name
    can neither be allocated (it is bound already) nor dropped; only the
    privileged path of the engine writes a reserved register. *)
Theorem reserved_registers_not_user_writable (m : main.machine) (name : string) :
  reachable unicode_escape program m ->
  In name reserved_names ->
  (forall v, stack.write_variable name v false (main.stack m)
             = Raise (ReservedName name) (main.stack m))
  /\ (forall size, stack.allocate_variable name size (main.stack m)
                   = Raise ValueError (main.stack m))
  /\ stack.drop_variable name (main.stack m)
     = Raise (ReservedName name) (main.stack m).
Proof.
  intros Hreach Hname. apply reachable_inv in Hreach as [[Hr _] _].
  destruct (Hr name Hname) as [old Hold].
  unfold stack.write_variable, stack.allocate_variable, stack.drop_variable.
  rewrite Hold. auto.
Qed.

(** C10: in every state of a run in which the current instruction is
    [jnq label], the instruction does not jump: it runs to its end without
    a change of the state, the engine writes 0 into the error flag and goes
    to the next line. *)
Theorem jnq_never_jumps (m : main.machine) (label : string) :
  reachable unicode_escape program m ->
  Py.getitem (construct.lines program) (main.current_line m) = Some ["jnq"; label] ->
  execute m = Ok main.Fallthrough m
  /\ exists m', step m = main.Next m'
                /\ main.current_line m' = main.current_line m + 1
                /\ flag m' = Some (ReservedRegister (VInt 0)).
Proof.
  intros Hreach Hline. apply reachable_inv in Hreach.
  assert (He : execute m = Ok main.Fallthrough m).
  { unfold main.execute. rewrite Hline. cbn.
    unfold bind, gets.
    destruct (bool_decide_reflect (main.comparison_result m = Some "jnq"))
      as [Hres|_]; [|reflexivity].
    destruct Hreach as [_ [Hr|[Hr|Hr]]]; congruence. }
  split; [exact He|].
  unfold main.step. apply getitem_bound in Hline.
  destruct (Z.leb_spec (main.current_line m) (Py.len (construct.lines program) - 1));
    [|lia].
  rewrite He.
  destruct (finish_next 0 m Hreach) as (m' & Hf & _ & Hflag & Hl & _).
  exists m'. auto.
Qed.

(** In every state of a run the stack satisfies the invariant of the
    allocator: the allocations of the variables are non-empty ranges of the
    store without a free cell, and no two of them overlap. *)
Lemma run_allocations_never_overlap (m : main.machine) :
  reachable unicode_escape program m -> stack_inv (main.stack m).
Proof. intros H. now apply reachable_inv in H as [[_ Hi] _]. Qed.

(** In every state of a run the stored result of the last comparison is
    that of the equality check or of the inequality check, if any. *)
Lemma cmp_stores_jeq_or_jne (m : main.machine) :
  reachable unicode_escape program m -> result_ok (main.comparison_result m).
Proof. intros H. now apply reachable_inv in H as [_ Hres]. Qed.

(** The only jump that is ever taken in a run is [jeq]. *)
Lemma only_jeq_jumps (m m1 : main.machine) :
  reachable unicode_escape program m ->
  execute m = Ok main.Continue m1 ->
  exists label,
    Py.getitem (construct.lines program) (main.current_line m) = Some ["jeq"; label].
Proof.
  intros Hreach He. apply cmp_stores_jeq_or_jne in Hreach.
  destruct (execute_continue _ _ _ _ He)
    as (jump_type & label & target & Hline & Hjump & Hres & _).
  exists label. rewrite Hline.
  destruct Hreach as [Hr|[Hr|Hr]]; rewrite Hr in Hres; try discriminate;
    injection Hres as <-; [reflexivity | discriminate].
Qed.

End EngineTheorems.

(** ** The example programs *)

Example constructed_cmp_jgt :
  construct.construct_program source_cmp_jgt
  = inr (construct.mk None 1000
           [["cmp"; "5"; "3"]; ["jgt"; "L"]; ["out"; "1"]; ["lbl"; "L"]; ["out"; "2"]]
           {["L" := 3]}).
Proof. reflexivity. Qed.

(** C3 on [cmp 5 3]: the inequality check comes before the ordering
    checks and holds for 5 and 3, so the stored result is that of the
    inequality check, [jne], and the [jgt L] that follows does not jump:
    the run goes on with line 30 and prints 1 before it reaches the label
    L.  (As claimed, a [jlt L] in its place does not jump either.) *)
Theorem cmp_5_3_then_jgt_falls_through :
  (exists m1 m2,
      after unicode_escape_plain (constructed source_cmp_jgt) 1
            (main.start (constructed source_cmp_jgt) []) = Some m1
      /\ main.comparison_result m1 = Some "jne"
      /\ Py.getitem (construct.lines (constructed source_cmp_jgt)) (main.current_line m1)
         = Some ["jgt"; "L"]
      /\ construct.labels (constructed source_cmp_jgt) !! "L" = Some 3
      /\ main.step unicode_escape_plain (constructed source_cmp_jgt) m1 = main.Next m2
      /\ main.current_line m2 = 2)
  /\ (exists m,
         main.run unicode_escape_plain (constructed source_cmp_jgt) 10
                  (main.start (constructed source_cmp_jgt) []) = Some (None, m)
         /\ main.stdout m = ["1"; "2"])
  /\ (exists m,
         main.run unicode_escape_plain (constructed source_cmp_jlt) 10
                  (main.start (constructed source_cmp_jlt) []) = Some (None, m)
         /\ main.stdout m = ["1"; "2"]).
Proof.
  split; [|split].
  - eexists. eexists. split; [vm_compute; reflexivity|].
    split; [reflexivity|]. split; [reflexivity|]. split; [reflexivity|].
    split; [vm_compute; reflexivity | reflexivity].
  - eexists. split; [vm_compute; reflexivity | reflexivity].
  - eexists. split; [vm_compute; reflexivity | reflexivity].
Qed.

(** Whatever the two operands of [cmp] are, the equality check or the
    inequality check holds. *)
Lemma cmp_checks_are_exhaustive (a b : pyvalue) :
  main.eq_values a b = true \/ main.ne_values a b = true.
Proof. unfold main.ne_values. destruct (main.eq_values a b); auto. Qed.

(** A comparison of a text with an integer does not reach the ordering
    branches: the inequality check holds for them, and the instruction
    runs to its end: the stored result is [jne], the engine writes 0 into
    the error flag, and the next line prints this 0. *)
Lemma cmp_of_text_and_integer_is_no_error :
  construct.lines (constructed source_cmp_mixed)
  = [["cmp"; quoted "a"; "1"]; ["out"; "&slx"]]
  /\ (exists m1,
         after unicode_escape_plain (constructed source_cmp_mixed) 1
               (main.start (constructed source_cmp_mixed) []) = Some m1
         /\ main.comparison_result m1 = Some "jne"
         /\ flag m1 = Some (ReservedRegister (VInt 0))
         /\ main.current_line m1 = 1)
  /\ (exists m,
         main.run unicode_escape_plain (constructed source_cmp_mixed) 10
                  (main.start (constructed source_cmp_mixed) []) = Some (None, m)
         /\ main.stdout m = ["0"]).
Proof.
  split; [reflexivity|]. split.
  - eexists. split; [vm_compute; reflexivity|]. repeat split.
  - eexists. split; [vm_compute; reflexivity | reflexivity].
Qed.

(** An integer that does not fit raises the built-in [OverflowError],
    which is not a [StackError]; a text that does not fit raises
    [MemoryOverflow], which is one. *)
Lemma write_integer_overflow self a v :
  1 <= Allocation.size a -> ~ fits_signed v (Allocation.size a) ->
  stack.write a (VInt v) self = Raise OverflowError self
  /\ isinstance_StackError OverflowError = false.
Proof.
  intros Hsize Hfit. split; [|reflexivity].
  unfold stack.write, bind, lift. simpl.
  now rewrite to_bytes_signed_overflow.
Qed.

Lemma write_text_overflow self a s :
  ascii_text s -> Allocation.size a < Py.len (Py.chars s) ->
  stack.write a (VStr s) self = Raise MemoryOverflow self
  /\ isinstance_StackError MemoryOverflow = true.
Proof.
  intros Hascii Hlen. split; [|reflexivity].
  unfold stack.write, bind, lift. simpl. rewrite encode_ascii_text by assumption.
  set (bs := map Py.ord (Py.chars s) ++ _).
  assert (Allocation.size a < Py.len bs).
  { unfold bs, Py.len in *. rewrite length_app, length_map. lia. }
  destruct (Z.ltb_spec (Allocation.size a) (Py.len bs)); [reflexivity | lia].
Qed.

(** C6 on an integer: 200 does not fit in the one byte of [x]; the write
    raises [OverflowError], the engine catches it, writes 1 into the error
    flag and goes on with the next line, which prints this 1; the run ends
    normally.  The same program with a text of three characters in place
    of 200 is ended by [MemoryOverflow] at that line. *)
Theorem integer_overflow_is_recovered :
  construct.lines (constructed source_int_overflow)
  = [["alc"; "&x"; ":[1]"]; ["set"; "&x"; "200"]; ["out"; "&slx"]]
  /\ (exists m1 m1' m2,
         after unicode_escape_plain (constructed source_int_overflow) 1
               (main.start (constructed source_int_overflow) []) = Some m1
         /\ main.current_line m1 = 1
         /\ main.execute unicode_escape_plain (constructed source_int_overflow) m1
            = Raise OverflowError m1'
         /\ main.step unicode_escape_plain (constructed source_int_overflow) m1
            = main.Next m2
         /\ flag m2 = Some (ReservedRegister (VInt 1))
         /\ main.current_line m2 = 2)
  /\ (exists m,
         main.run unicode_escape_plain (constructed source_int_overflow) 10
                  (main.start (constructed source_int_overflow) []) = Some (None, m)
         /\ main.stdout m = ["1"])
  /\ (exists m,
         main.run unicode_escape_plain (constructed source_text_overflow) 10
                  (main.start (constructed source_text_overflow) [])
         = Some (Some MemoryOverflow, m)
         /\ main.current_line m = 1 /\ main.stdout m = []).
Proof.
  split; [reflexivity|]. split; [|split].
  - eexists. eexists. eexists. split; [vm_compute; reflexivity|].
    split; [reflexivity|]. split; [vm_compute; reflexivity|].
    split; [vm_compute; reflexivity|]. split; reflexivity.
  - eexists. split; [vm_compute; reflexivity | reflexivity].
  - eexists. split; [vm_compute; reflexivity |]. split; reflexivity.
Qed.

(** C8 fails for a jump that is taken: after [cmp 1 1] and an instruction
    that fails, the error flag is 1; the [jeq L] that follows completes
    and transfers control to L, and the flag is still 1, not 0. *)
Lemma taken_jump_leaves_error_flag :
  construct.lines (constructed source_flag_jump)
  = [["cmp"; "1"; "1"]; ["bad"]; ["jeq"; "L"]; ["lbl"; "L"]; ["out"; "&slx"]]
  /\ exists m2 m3,
       after unicode_escape_plain (constructed source_flag_jump) 2
             (main.start (constructed source_flag_jump) []) = Some m2
       /\ main.current_line m2 = 2
       /\ flag m2 = Some (ReservedRegister (VInt 1))
       /\ main.execute unicode_escape_plain (constructed source_flag_jump) m2
          = Ok main.Continue m3
       /\ main.step unicode_escape_plain (constructed source_flag_jump) m2
          = main.Next m3
       /\ main.current_line m3 = 3
       /\ flag m3 = Some (ReservedRegister (VInt 1))
       /\ flag m3 <> Some (ReservedRegister (VInt 0)).
Proof.
  split; [reflexivity|].
  eexists. eexists. split; [vm_compute; reflexivity|].
  split; [reflexivity|]. split; [reflexivity|].
  split; [vm_compute; reflexivity|]. split; [vm_compute; reflexivity|].
  split; [reflexivity|]. split; [reflexivity | discriminate].
Qed.

Lemma error_flag_protocol_witness :
  exists m1 m2 m3,
    after unicode_escape_plain (constructed source_flag_jump) 1
          (main.start (constructed source_flag_jump) []) = Some m1
    /\ main.step unicode_escape_plain (constructed source_flag_jump) m1 = main.Next m2
    /\ main.step unicode_escape_plain (constructed source_flag_jump) m2 = main.Next m3
    /\ reachable unicode_escape_plain (constructed source_flag_jump) m1
    /\ flag_protocol unicode_escape_plain (constructed source_flag_jump) m1 m2
    /\ flag_protocol unicode_escape_plain (constructed source_flag_jump) m2 m3.
Proof.
  eexists. eexists. eexists.
  split; [vm_compute; reflexivity|].
  split; [vm_compute; reflexivity|].
  split; [vm_compute; reflexivity|].
  match goal with
  | |- reachable ?ue ?p ?m /\ _ =>
      assert (H1 : reachable ue p m)
        by (apply (after_reachable ue p 1 (main.start p []));
            [apply reachable_start | vm_compute; reflexivity])
  end.
  split; [exact H1|]. split.
  - apply (error_flag_protocol _ _ _ _ H1). vm_compute. reflexivity.
  - apply error_flag_protocol.
    + apply (reachable_step _ _ _ _ H1). vm_compute. reflexivity.
    + vm_compute. reflexivity.
Defined.

(** C9 fails: on a new stack no value can be written to [sly] or to
    [slz] through the ordinary path. *)
Lemma sly_slz_reject_every_write :
  ~ (exists v self', stack.write_variable "sly" v false (stack.init 8192) = Ok tt self')
  /\ ~ (exists v self', stack.write_variable "slz" v false (stack.init 8192) = Ok tt self').
Proof.
  split; intros (v & self' & H); vm_compute in H; discriminate.
Qed.

Lemma reserved_registers_not_user_writable_witness :
  reachable unicode_escape_plain (constructed source_cmp_jgt)
            (main.start (constructed source_cmp_jgt) [])
  /\ In "sly" reserved_names
  /\ (forall v, stack.write_variable "sly" v false
                  (main.stack (main.start (constructed source_cmp_jgt) []))
                = Raise (ReservedName "sly")
                        (main.stack (main.start (constructed source_cmp_jgt) [])))
  /\ (forall size, stack.allocate_variable "sly" size
                     (main.stack (main.start (constructed source_cmp_jgt) []))
                   = Raise ValueError
                           (main.stack (main.start (constructed source_cmp_jgt) [])))
  /\ stack.drop_variable "sly"
       (main.stack (main.start (constructed source_cmp_jgt) []))
     = Raise (ReservedName "sly")
             (main.stack (main.start (constructed source_cmp_jgt) [])).
Proof.
  split; [apply reachable_start|].
  split; [simpl; auto|].
  apply (reserved_registers_not_user_writable unicode_escape_plain
           (constructed source_cmp_jgt)
           (main.start (constructed source_cmp_jgt) []) "sly").
  - apply reachable_start.
  - simpl. auto.
Defined.

Lemma jnq_never_jumps_witness :
  construct.lines (constructed source_cmp_jnq)
  = [["lbl"; "L"]; ["cmp"; "1"; "2"]; ["jnq"; "L"]; ["out"; "1"]]
  /\ construct.labels (constructed source_cmp_jnq) !! "L" = Some 0
  /\ exists m,
       after unicode_escape_plain (constructed source_cmp_jnq) 2
             (main.start (constructed source_cmp_jnq) []) = Some m
       /\ main.comparison_result m = Some "jne"
       /\ main.current_line m = 2
       /\ main.execute unicode_escape_plain (constructed source_cmp_jnq) m
          = Ok main.Fallthrough m
       /\ exists m',
            main.step unicode_escape_plain (constructed source_cmp_jnq) m = main.Next m'
            /\ main.current_line m' = main.current_line m + 1
            /\ flag m' = Some (ReservedRegister (VInt 0)).
Proof.
  split; [reflexivity|]. split; [reflexivity|].
  eexists. split; [vm_compute; reflexivity|].
  split; [reflexivity|]. split; [reflexivity|].
  apply (jnq_never_jumps unicode_escape_plain (constructed source_cmp_jnq) _ "L").
  - apply (after_reachable _ _ 2 (main.start (constructed source_cmp_jnq) []));
      [apply reachable_start | vm_compute; reflexivity].
  - reflexivity.
Defined.

(** * Further properties of the variable layer *)

Lemma slice_ext (l l' : list cell) a b :
  Py.len l' = Py.len l -> 0 <= a -> a <= b -> b <= Py.len l ->
  (forall j, a <= j < b -> cell_at l' j = cell_at l j) ->
  Py.slice l' a b = Py.slice l a b.
Proof.
  intros Hlen Ha Hab Hb H.
  rewrite !slice_in_range by lia. apply list_eq. intros i.
  rewrite !lookup_take. case_decide; [|reflexivity].
  rewrite !lookup_drop.
  specialize (H (Z.of_nat (Z.to_nat a + i)) ltac:(lia)).
  now rewrite !cell_at_nat in H.
Qed.

(** [Stack.write] changes no cell outside the allocation. *)
Lemma write_frame self a v :
  in_arena (Py.len (stack.store self)) a ->
  forall j, 0 <= j -> ~ Allocation.start a <= j <= Allocation.end_ a ->
    cell_at (stack.store (state_of (stack.write a v self))) j
    = cell_at (stack.store self) j.
Proof.
  intros (Hsz & Hs & He & Hb) j Hj Hout. unfold stack.write, bind, lift.
  destruct (stack.serialize v (Allocation.size a)) as [e|bs] eqn:Hser; simpl;
    [reflexivity|].
  destruct (Z.ltb_spec (Allocation.size a) (Py.len bs)); simpl; [reflexivity|].
  destruct (stack.size self <? Allocation.end_ a - 1); simpl; [reflexivity|].
  pose proof (serialize_length v (Allocation.size a) bs ltac:(lia) Hser) as Hge.
  assert (Hlen : Py.len (map Byte bs) = Allocation.size a)
    by (unfold Py.len in *; rewrite length_map; lia).
  replace (Allocation.end_ a + 1) with (Allocation.start a + Allocation.size a) by lia.
  rewrite mark_range_cell_at by lia.
  destruct (Z.leb_spec (Allocation.start a) j),
           (Z.leb_spec j (Allocation.start a + Allocation.size a - 1));
    simpl; try reflexivity; lia.
Qed.

(** What [Stack.get] returns depends on the cells of the allocation only. *)
Lemma get_result_cells self self' a cast :
  cells_of self' a = cells_of self a ->
  result_of (stack.get a cast self') = result_of (stack.get a cast self).
Proof.
  unfold cells_of, stack.get. intros ->.
  destruct (existsb _ _); [reflexivity|].
  destruct cast; try reflexivity.
  - destruct (stack.bytes_of_cells _); reflexivity.
  - destruct (stack.bytes_of_cells _); [reflexivity|].
    destruct (Py.decode_ascii _); reflexivity.
Qed.

Lemma get_variable_result_ext self self' name :
  stack.vars self' !! name = stack.vars self !! name ->
  (forall a d, stack.vars self !! name = Some (Register a d) ->
               cells_of self' a = cells_of self a) ->
  result_of (stack.get_variable name self')
  = result_of (stack.get_variable name self).
Proof.
  intros Hv Hc. unfold stack.get_variable. rewrite Hv.
  destruct (stack.vars self !! name) as [[a d|v]|] eqn:E; try reflexivity.
  specialize (Hc a d eq_refl).
  destruct d; try reflexivity; now apply get_result_cells.
Qed.

Lemma cells_frame self self' a :
  in_arena (Py.len (stack.store self)) a ->
  Py.len (stack.store self') = Py.len (stack.store self) ->
  (forall j, Allocation.start a <= j <= Allocation.end_ a ->
             cell_at (stack.store self') j = cell_at (stack.store self) j) ->
  cells_of self' a = cells_of self a.
Proof.
  intros (Hsz & Hs & He & Hb) Hlen H. unfold cells_of.
  apply slice_ext; try lia. intros j Hj. apply H. lia.
Qed.

(** X3: a call of the variable layer on one variable does not change what
    a read of any other name returns or raises. *)
Theorem other_variables_unchanged (o : stack_op) (self : stack.Stack) (name : string) :
  stack_inv self -> name <> op_name o ->
  result_of (stack.get_variable name (apply_op o self))
  = result_of (stack.get_variable name self).
Proof.
  intros [I1 I2] Hne.
  destruct o as [n size|n|n v reserved|n]; simpl in Hne; simpl.
  - (* allocate_variable *)
    unfold stack.allocate_variable.
    destruct (stack.vars self !! n) eqn:Hn; [reflexivity|].
    unfold bind, modify.
    destruct (stack.allocate size self) as [a s1|e s1] eqn:Ha; cbn [state_of].
    2:{ now rewrite (allocate_raise _ _ _ _ Ha). }
    apply allocate_ok in Ha
      as (Hsize & (Hs0 & Hs1 & Hfree) & _ & _ & Hend & Hsz & _ & Hvars & Hlen & Hcells).
    apply get_variable_result_ext.
    + cbn [stack.vars stack.set_vars]. rewrite lookup_insert_ne by congruence.
      now rewrite Hvars.
    + intros b d Hb. destruct (I1 name b ltac:(now exists d)) as [Harena Hnf].
      apply cells_frame; [exact Harena | exact Hlen |].
      intros j Hj. cbn [stack.store stack.set_vars].
      rewrite Hcells by (unfold in_arena in Harena; lia).
      destruct ((Allocation.start a <=? j) && (j <=? Allocation.end_ a)) eqn:E;
        [|reflexivity].
      apply andb_true_iff in E as [E1 E2]. apply Z.leb_le in E1, E2.
      exfalso. apply (Hnf j Hj). rewrite cell_at_nonneg by lia. apply Hfree. lia.
  - (* drop_variable *)
    unfold stack.drop_variable.
    destruct (stack.vars self !! n) as [[a d|old]|] eqn:Hn; try reflexivity.
    unfold bind, stack.drop, modify. cbn [state_of].
    assert (Hla : live self n a) by now exists d.
    destruct (I1 n a Hla) as [(Hsz & Hs & He & Hb) _].
    replace (Allocation.end_ a + 1) with (Allocation.start a + Allocation.size a) by lia.
    apply get_variable_result_ext.
    + cbn [stack.vars stack.set_vars stack.set_store].
      now rewrite lookup_delete_ne by congruence.
    + intros b d' Hb'. assert (Hlb : live self name b) by now exists d'.
      destruct (I1 name b Hlb) as [Harena _].
      pose proof (I2 name n b a Hne Hlb Hla) as Hd. unfold disjoint in Hd.
      apply cells_frame; [exact Harena | |];
        cbn [stack.store stack.set_vars stack.set_store].
      * apply slice_assign_length; rewrite ?repeat_list_len; lia.
      * intros j Hj.
        rewrite mark_range_cell_at
          by (rewrite ?repeat_list_len; unfold in_arena in Harena; lia).
        destruct (Z.leb_spec (Allocation.start a) j),
                 (Z.leb_spec j (Allocation.start a + Allocation.size a - 1));
          simpl; try reflexivity; lia.
  - (* write_variable *)
    unfold stack.write_variable.
    destruct (stack.vars self !! n) as [[a d|old]|] eqn:Hn; try reflexivity.
    + unfold bind, modify.
      set (s1 := stack.set_vars <[n := Register a (stack.datatype_of v)]> self).
      assert (Hla : live self n a) by now exists d.
      destruct (I1 n a Hla) as [Ha _].
      destruct (write_keeps s1 a v Ha) as (Hv & Hl & _).
      cbn zeta in Hv, Hl.
      apply get_variable_result_ext.
      * rewrite Hv. unfold s1. cbn [stack.vars stack.set_vars].
        now rewrite lookup_insert_ne by congruence.
      * intros b d' Hb'. assert (Hlb : live self name b) by now exists d'.
        destruct (I1 name b Hlb) as [Harena _].
        pose proof (I2 name n b a Hne Hlb Hla) as Hd. unfold disjoint in Hd.
        apply cells_frame; [exact Harena | exact Hl |].
        intros j Hj. apply (write_frame s1 a v Ha); unfold in_arena in *; lia.
    + destruct (negb reserved); cbn [state_of]; [reflexivity|].
      apply get_variable_result_ext; [|reflexivity].
      cbn [stack.vars stack.set_vars]. now rewrite lookup_insert_ne by congruence.
  - now rewrite get_variable_state.
Qed.

Lemma two_variables_inv : stack_inv two_variables.
Proof. apply apply_ops_inv, stack_inv_init. Qed.

Lemma other_variables_unchanged_witness :
  stack_inv two_variables
  /\ "y" <> op_name (WriteVariable "x" (VInt 5) false)
  /\ result_of (stack.get_variable "y"
                  (apply_op (WriteVariable "x" (VInt 5) false) two_variables))
     = result_of (stack.get_variable "y" two_variables)
  /\ result_of (stack.get_variable "y" two_variables) = inr (VStr "hi").
Proof.
  split; [exact two_variables_inv|]. split; [discriminate|].
  split; [|reflexivity].
  apply (other_variables_unchanged (WriteVariable "x" (VInt 5) false)
           two_variables "y" two_variables_inv).
  discriminate.
Defined.

(** X1: a variable that was allocated and not yet written cannot be read:
    after a successful [allocate_variable], [get_variable] of the name
    raises [NullDataInOperation] and leaves the stack as it is. *)
Theorem read_before_write (self self' : stack.Stack) (name : string) (size : Z) :
  stack.allocate_variable name size self = Ok tt self' ->
  stack.get_variable name self' = Raise NullDataInOperation self'.
Proof.
  unfold stack.allocate_variable.
  destruct (stack.vars self !! name); [discriminate|].
  unfold bind, modify.
  destruct (stack.allocate size self) as [a s1|]; [|discriminate].
  intros [= <-]. unfold stack.get_variable.
  cbn [stack.vars stack.set_vars]. now rewrite lookup_insert_eq.
Qed.

Lemma read_before_write_witness :
  exists self',
    stack.allocate_variable "x" 2 ten_cells = Ok tt self'
    /\ stack.get_variable "x" self' = Raise NullDataInOperation self'.
Proof.
  eexists. split; [reflexivity|].
  apply (read_before_write ten_cells _ "x" 2). reflexivity.
Defined.

Lemma write_variable_register self name a d v reserved :
  stack.vars self !! name = Some (Register a d) ->
  stack.write_variable name v reserved self
  = stack.write a v (stack.set_vars <[name := Register a (stack.datatype_of v)]> self).
Proof. intros H. unfold stack.write_variable. now rewrite H. Qed.

Lemma get_variable_after_write self s1 name a v :
  stack.vars self !! name = Some (Register a (stack.datatype_of v)) ->
  stack.write a v self = Ok tt s1 ->
  stack.get_variable name s1 = stack.get a (stack.datatype_of v) s1.
Proof.
  intros Hname Hw. unfold stack.get_variable.
  pose proof (write_vars a v self) as Hv. rewrite Hw in Hv. cbn [state_of] in Hv.
  rewrite Hv, Hname. now destruct v.
Qed.

(** X2: round trip through the variable layer.  On a well-formed stack
    that satisfies the invariant of the allocator, whatever the datatype of
    the variable was before: an integer that fits in the bytes of the
    variable, or an ASCII text without NUL that is not longer than the
    variable, is returned by [get_variable] after [write_variable]. *)
Theorem variable_roundtrip (self : stack.Stack) (name : string)
    (a : Allocation) (d : DataType) (v : pyvalue) (reserved : bool) :
  well_formed self -> stack_inv self ->
  stack.vars self !! name = Some (Register a d) ->
  match v with
  | VInt z => fits_signed z (Allocation.size a)
  | VStr s => ascii_text s /\ nul_free s
              /\ Py.len (Py.chars s) <= Allocation.size a
  end ->
  exists self',
    stack.write_variable name v reserved self = Ok tt self'
    /\ stack.get_variable name self' = Ok v self'.
Proof.
  intros Hwf [I1 _] Hname Hv.
  destruct (I1 name a ltac:(now exists d)) as [(Hsz & Hs & He & Hb) _].
  set (s1 := stack.set_vars <[name := Register a (stack.datatype_of v)]> self).
  assert (Hwf1 : well_formed s1) by exact Hwf.
  assert (Hvalid : valid_allocation s1 a)
    by (unfold valid_allocation; cbn [s1 stack.store stack.set_vars]; lia).
  assert (Hname1 : stack.vars s1 !! name
                   = Some (Register a (stack.datatype_of v)))
    by apply lookup_insert_eq.
  rewrite (write_variable_register _ _ _ _ _ _ Hname). fold s1.
  destruct v as [z|s].
  - destruct (write_get_integer s1 a z Hwf1 Hvalid Hv) as (self' & H).
    unfold write_then_get, bind in H.
    destruct (stack.write a (VInt z) s1) as [[] s2|] eqn:Hw; [|discriminate].
    exists s2. split; [reflexivity|].
    rewrite (get_variable_after_write s1 s2 name a (VInt z) Hname1 Hw).
    simpl. rewrite H. f_equal.
    pose proof (get_state s2 a INTEGER) as Hst. rewrite H in Hst. exact Hst.
  - destruct Hv as (Hascii & Hnul & Hlen).
    destruct (write_get_text s1 a s Hwf1 Hvalid Hascii Hnul Hlen) as (self' & H & _).
    unfold write_then_get, bind in H.
    destruct (stack.write a (VStr s) s1) as [[] s2|] eqn:Hw; [|discriminate].
    exists s2. split; [reflexivity|].
    rewrite (get_variable_after_write s1 s2 name a (VStr s) Hname1 Hw).
    simpl. rewrite H. f_equal.
    pose proof (get_state s2 a STRING) as Hst. rewrite H in Hst. exact Hst.
Qed.

Lemma variable_roundtrip_witness :
  well_formed two_variables /\ stack_inv two_variables
  /\ stack.vars two_variables !! "y" = Some (Register (Allocation.mk 2 5 4) STRING)
  /\ fits_signed (-5) 4
  /\ exists self',
       stack.write_variable "y" (VInt (-5)) false two_variables = Ok tt self'
       /\ stack.get_variable "y" self' = Ok (VInt (-5)) self'.
Proof.
  assert (Hfit : fits_signed (-5) 4) by (unfold fits_signed; simpl; lia).
  split; [reflexivity|]. split; [exact two_variables_inv|].
  split; [reflexivity|]. split; [exact Hfit|].
  exact (variable_roundtrip two_variables "y" (Allocation.mk 2 5 4) STRING
           (VInt (-5)) false eq_refl two_variables_inv eq_refl Hfit).
Defined.

(** The cells of an allocation after [Stack.drop]. *)
Lemma drop_cells self a :
  in_arena (Py.len (stack.store self)) a ->
  let self' := state_of (stack.drop a self) in
  Py.len (stack.store self') = Py.len (stack.store self)
  /\ cells_of self' a = Py.repeat_list Free (Allocation.size a)
  /\ free_run (stack.store self') (Allocation.start a) (Allocation.size a).
Proof.
  intros (Hsz & Hs & He & Hb). unfold stack.drop, modify, cells_of.
  cbn [state_of stack.store stack.set_store].
  replace (Allocation.end_ a + 1) with (Allocation.start a + Allocation.size a) by lia.
  assert (Hlen : Py.len (Py.slice_assign (stack.store self) (Allocation.start a)
                           (Allocation.start a + Allocation.size a)
                           (Py.repeat_list Free (Allocation.size a)))
                 = Py.len (stack.store self))
    by (apply slice_assign_length; rewrite ?repeat_list_len; lia).
  split; [exact Hlen|]. split.
  - apply slice_of_slice_assign; rewrite ?repeat_list_len; lia.
  - split; [lia|]. split; [lia|]. intros j Hj.
    rewrite <- cell_at_nonneg by lia.
    rewrite mark_range_cell_at by (rewrite ?repeat_list_len; lia).
    destruct (Z.leb_spec (Allocation.start a) j),
             (Z.leb_spec j (Allocation.start a + Allocation.size a - 1));
      simpl; try lia.
    apply lookup_replicate_2. lia.
Qed.

(** X4: [drop_variable] of a variable removes the binding and frees the
    cells: afterwards a read of the name raises [NotAllocated], the cells
    of the old allocation are a free run, and a request of the same size is
    served, at the old offset or further left. *)
Theorem drop_variable_frees (self : stack.Stack) (name : string)
    (a : Allocation) (d : DataType) :
  stack_inv self ->
  stack.vars self !! name = Some (Register a d) ->
  exists self',
    stack.drop_variable name self = Ok tt self'
    /\ stack.vars self' !! name = None
    /\ stack.get_variable name self' = Raise (NotAllocated name) self'
    /\ free_run (stack.store self') (Allocation.start a) (Allocation.size a)
    /\ exists b self'',
         stack.allocate (Allocation.size a) self' = Ok b self''
         /\ Allocation.size b = Allocation.size a
         /\ Allocation.start b <= Allocation.start a.
Proof.
  intros [I1 _] Hname.
  destruct (I1 name a ltac:(now exists d)) as [Harena _].
  destruct (drop_cells self a Harena) as (_ & _ & Hrun).
  unfold stack.drop_variable. rewrite Hname. unfold bind, modify.
  unfold stack.drop, modify in *. cbn [state_of] in Hrun.
  eexists. split; [reflexivity|].
  assert (Hgone : forall s, stack.vars (stack.set_vars (delete name) s) !! name = None)
    by (intros s; apply lookup_delete_eq).
  split; [apply Hgone|]. split.
  { unfold stack.get_variable. now rewrite Hgone. }
  split; [exact Hrun|].
  match goal with
  | |- exists b s, stack.allocate ?n ?st = _ /\ _ =>
      pose proof (allocate_spec st n ltac:(unfold in_arena in Harena; lia)) as H;
      destruct (stack.allocate n st) as [b s2|e s2]
  end.
  - destruct H as (_ & Hleast & _ & _ & Hsz & _).
    exists b, s2. split; [reflexivity|]. split; [exact Hsz|].
    destruct (Z.le_gt_cases (Allocation.start b) (Allocation.start a)) as [|Hgt];
      [assumption|].
    destruct (Hleast _ Hgt Hrun).
  - destruct H as (_ & _ & Hnone). destruct (Hnone _ Hrun).
Qed.

Lemma drop_variable_frees_witness :
  stack_inv two_variables
  /\ stack.vars two_variables !! "x" = Some (Register (Allocation.mk 0 1 2) NOTSET)
  /\ exists self',
       stack.drop_variable "x" two_variables = Ok tt self'
       /\ stack.vars self' !! "x" = None
       /\ stack.get_variable "x" self' = Raise (NotAllocated "x") self'
       /\ free_run (stack.store self') 0 2
       /\ exists b self'',
            stack.allocate 2 self' = Ok b self''
            /\ Allocation.size b = 2
            /\ Allocation.start b <= 0.
Proof.
  split; [exact two_variables_inv|]. split; [reflexivity|].
  exact (drop_variable_frees two_variables "x" (Allocation.mk 0 1 2) NOTSET
           two_variables_inv eq_refl).
Defined.

(** X7: use after drop.  Once [Stack.drop] has freed a non-empty
    allocation, [Stack.get] on it raises [NullDataInOperation], whatever
    the cast (the check for free cells comes before the check of the
    cast). *)
Theorem get_after_drop (self : stack.Stack) (a : Allocation) (cast : DataType) :
  in_arena (Py.len (stack.store self)) a ->
  (stack.drop a ;;; stack.get a cast) self
  = Raise NullDataInOperation (state_of (stack.drop a self)).
Proof.
  intros Ha. destruct (drop_cells self a Ha) as (_ & Hcells & _).
  unfold bind. unfold stack.drop at 1, modify. unfold stack.get.
  unfold cells_of in Hcells. cbn zeta in Hcells.
  unfold stack.drop, modify in Hcells. cbn [state_of] in *. rewrite Hcells.
  destruct Ha as (Hsz & _).
  assert (Hfree : existsb stack.is_None (Py.repeat_list Free (Allocation.size a))
                  = true).
  { unfold Py.repeat_list.
    destruct (Z.to_nat (Allocation.size a)) as [|n] eqn:E; [lia | reflexivity]. }
  rewrite Hfree. reflexivity.
Qed.

Lemma get_after_drop_witness :
  in_arena (Py.len (stack.store two_variables)) (Allocation.mk 2 5 4)
  /\ (stack.drop (Allocation.mk 2 5 4) ;;; stack.get (Allocation.mk 2 5 4) STRING)
       two_variables
     = Raise NullDataInOperation
             (state_of (stack.drop (Allocation.mk 2 5 4) two_variables)).
Proof.
  assert (H : in_arena (Py.len (stack.store two_variables)) (Allocation.mk 2 5 4)).
  { replace (Py.len (stack.store two_variables)) with 10 by reflexivity.
    unfold in_arena. simpl. lia. }
  split; [exact H|].
  exact (get_after_drop two_variables (Allocation.mk 2 5 4) STRING H).
Defined.

Lemma encode_ascii_Some s bs :
  Py.encode_ascii s = Some bs -> ascii_text s /\ bs = map Py.ord (Py.chars s).
Proof.
  unfold Py.encode_ascii, ascii_text.
  destruct (forallb _ _) eqn:E; [|discriminate]. intros [= <-].
  split; [|reflexivity]. apply Forall_forall. intros c Hc.
  rewrite forallb_forall in E. apply Z.ltb_lt, E. now apply list_elem_of_In.
Qed.

Lemma encode_ascii_None s : Py.encode_ascii s = None -> ~ ascii_text s.
Proof.
  intros H Hascii. rewrite encode_ascii_text in H by assumption. discriminate.
Qed.

Lemma to_bytes_signed_inl v n e :
  0 <= n -> Py.to_bytes_signed v n = inl e ->
  e = OverflowError /\ ~ fits_signed v n /\ ~ (n = 0 /\ v = -1).
Proof.
  unfold Py.to_bytes_signed, fits_signed. intros Hn.
  destruct (Z.ltb_spec n 0); [lia|].
  destruct (Z.leb_spec (- 2 ^ (8 * n)) (2 * v));
    destruct (Z.ltb_spec (2 * v) (2 ^ (8 * n)));
    destruct (Z.eqb_spec n 0); destruct (Z.eqb_spec v (-1)); simpl;
    try discriminate; intros [= <-]; repeat split; auto; lia.
Qed.

Lemma to_bytes_signed_inr v n bs :
  Py.to_bytes_signed v n = inr bs ->
  Py.len bs = n /\ (fits_signed v n \/ (n = 0 /\ v = -1)).
Proof.
  unfold Py.to_bytes_signed, fits_signed.
  destruct (Z.ltb_spec n 0); [discriminate|].
  destruct (Z.leb_spec (- 2 ^ (8 * n)) (2 * v));
    destruct (Z.ltb_spec (2 * v) (2 ^ (8 * n)));
    destruct (Z.eqb_spec n 0); destruct (Z.eqb_spec v (-1)); simpl;
    try discriminate; intros [= <-];
    (split; [unfold Py.len; rewrite be_bytes_length; lia | auto; lia]).
Qed.

(** X5: [Stack.write] is all or nothing, and the value decides which.
    On a well-formed stack and a valid allocation it either stores the
    serialized value, which has the size of the allocation, in the cells
    of the allocation and changes nothing else, or it raises and leaves
    the stack as it was.  It stores an integer that fits in the signed
    bytes of the allocation, and also [-1] when the allocation has no cell
    (the host language serializes it to no byte); every other integer
    raises [OverflowError].  It stores an ASCII text that is not longer
    than the allocation; a text that is not ASCII raises
    [UnicodeEncodeError], an ASCII text that is longer raises
    [MemoryOverflow]. *)
Theorem write_is_all_or_nothing (self : stack.Stack) (a : Allocation) (v : pyvalue) :
  well_formed self -> valid_allocation self a ->
  match stack.write a v self with
  | Ok _ self' =>
      match v with
      | VInt z => fits_signed z (Allocation.size a)
                  \/ (Allocation.size a = 0 /\ z = -1)
      | VStr s => ascii_text s /\ Py.len (Py.chars s) <= Allocation.size a
      end
      /\ (exists bs, stack.serialize v (Allocation.size a) = inr bs
                  /\ Py.len bs = Allocation.size a
                  /\ cells_of self' a = map Byte bs)
      /\ stack.vars self' = stack.vars self
      /\ stack.size self' = stack.size self
      /\ Py.len (stack.store self') = Py.len (stack.store self)
      /\ forall j, 0 <= j -> ~ Allocation.start a <= j <= Allocation.end_ a ->
                   cell_at (stack.store self') j = cell_at (stack.store self) j
  | Raise e self' =>
      self' = self
      /\ match v with
         | VInt z => e = OverflowError /\ ~ fits_signed z (Allocation.size a)
                     /\ ~ (Allocation.size a = 0 /\ z = -1)
         | VStr s =>
             (e = UnicodeEncodeError /\ ~ ascii_text s)
             \/ (e = MemoryOverflow /\ ascii_text s
                 /\ Allocation.size a < Py.len (Py.chars s))
         end
  end.
Proof.
  intros Hwf (Hs & Hn & He & Hb). unfold well_formed in Hwf.
  unfold stack.write, bind, lift.
  destruct (stack.serialize v (Allocation.size a)) as [e|bs] eqn:Hser.
  - split; [reflexivity|]. destruct v as [z|s]; simpl in Hser.
    + now apply to_bytes_signed_inl in Hser.
    + destruct (Py.encode_ascii s) eqn:E; [discriminate|].
      injection Hser as <-. left. split; [reflexivity|].
      now apply encode_ascii_None.
  - pose proof (serialize_length v (Allocation.size a) bs Hn Hser) as Hge.
    destruct (Z.ltb_spec (Allocation.size a) (Py.len bs)) as [Hlt|Hle].
    + split; [reflexivity|]. destruct v as [z|s]; simpl in Hser.
      * apply to_bytes_signed_inr in Hser. lia.
      * destruct (Py.encode_ascii s) as [enc|] eqn:E; [|discriminate].
        injection Hser as <-. apply encode_ascii_Some in E as [Hascii ->].
        right. split; [reflexivity|]. split; [exact Hascii|].
        unfold Py.len, Py.repeat_list in *.
        rewrite length_app, length_replicate, length_map in *. lia.
    + destruct (Z.ltb_spec (stack.size self) (Allocation.end_ a - 1)); [lia|].
      assert (Hlen : Py.len (map Byte bs) = Allocation.size a)
        by (unfold Py.len in *; rewrite length_map; lia).
      unfold cells_of. cbn [stack.store stack.vars stack.size stack.set_store].
      replace (Allocation.end_ a + 1)
        with (Allocation.start a + Allocation.size a) by lia.
      split; [|split; [|split; [reflexivity|split; [reflexivity|split]]]].
      * destruct v as [z|s]; simpl in Hser.
        -- now apply to_bytes_signed_inr in Hser.
        -- destruct (Py.encode_ascii s) as [enc|] eqn:E; [|discriminate].
           injection Hser as <-. apply encode_ascii_Some in E as [Hascii ->].
           split; [exact Hascii|].
           unfold Py.len, Py.repeat_list in *.
           rewrite length_app, length_replicate, length_map in *. lia.
      * exists bs. split; [reflexivity|]. split; [lia|].
        apply slice_of_slice_assign; lia.
      * apply slice_assign_length; lia.
      * intros j Hj Hout. rewrite mark_range_cell_at by lia.
        destruct (Z.leb_spec (Allocation.start a) j),
                 (Z.leb_spec j (Allocation.start a + Allocation.size a - 1));
          simpl; try reflexivity; lia.
Qed.

Lemma write_is_all_or_nothing_witness :
  well_formed four_cells /\ valid_allocation four_cells two_of_four
  /\ stack.write two_of_four (VInt 40000) four_cells = Raise OverflowError four_cells
  /\ ~ fits_signed 40000 (Allocation.size two_of_four).
Proof.
  assert (Hv : valid_allocation four_cells two_of_four)
    by (unfold valid_allocation, Py.len; simpl; lia).
  split; [reflexivity|]. split; [exact Hv|].
  pose proof (write_is_all_or_nothing four_cells two_of_four (VInt 40000)
                eq_refl Hv) as H.
  change (stack.write two_of_four (VInt 40000) four_cells)
    with (@Raise stack.Stack unit OverflowError four_cells) in H.
  destruct H as [_ [_ [Hfit _]]]. split; [reflexivity | exact Hfit].
Defined.

(** An allocation of no cell accepts [-1]: it is serialized to no byte,
    and the store is left as it is. *)
Example write_minus_one_no_cell :
  stack.write (Allocation.mk 0 (-1) 0) (VInt (-1)) four_cells = Ok tt four_cells.
Proof. reflexivity. Qed.

Lemma write_raise self a v e self' :
  stack.write a v self = Raise e self' -> self' = self.
Proof.
  unfold stack.write, bind, lift.
  destruct (stack.serialize _ _); [congruence|].
  destruct (_ <? _); [congruence|]. destruct (_ <? _); congruence.
Qed.

(** The cells of a new allocation hold the marker. *)
Lemma allocate_cells self size a self' :
  stack.allocate size self = Ok a self' ->
  1 <= size /\ Allocation.size a = size
  /\ cells_of self' a = Py.repeat_list ALLOCATED size.
Proof.
  intros H. pose proof (allocate_ok _ _ _ _ H)
    as (Hsize & (Hs0 & Hs1 & _) & _ & _ & Hend & Hsz & _).
  split; [exact Hsize|]. split; [exact Hsz|].
  unfold stack.allocate in H.
  destruct (stack.allocate_scan _ _ _ _ _) as [s|]; [|discriminate].
  injection H as <- <-. unfold cells_of. simpl in *.
  replace (s + size - 1 + 1) with (s + size) by lia.
  apply slice_of_slice_assign; rewrite ?repeat_list_len; lia.
Qed.

(** X6: a first write that fails leaves a variable that cannot be read.
    [write_variable] sets the datatype before it writes, so after a failed
    write to a new variable the datatype is set and the cells still hold
    the marker [ALLOCATED], which is not an integer: [get_variable] raises
    [TypeError], not [NullDataInOperation]. *)
Theorem failed_first_write (self s1 s2 : stack.Stack) (name : string) (size : Z)
    (v : pyvalue) (reserved : bool) (e : exn) :
  stack.allocate_variable name size self = Ok tt s1 ->
  stack.write_variable name v reserved s1 = Raise e s2 ->
  stack.get_variable name s2 = Raise TypeError s2.
Proof.
  unfold stack.allocate_variable.
  destruct (stack.vars self !! name); [discriminate|].
  unfold bind, modify.
  destruct (stack.allocate size self) as [a s0|] eqn:Ha; [|discriminate].
  intros [= <-]. apply allocate_cells in Ha as (Hsize & Hsz & Hcells).
  rewrite (write_variable_register _ name a NOTSET)
    by (cbn [stack.vars stack.set_vars]; apply lookup_insert_eq).
  intros Hw. apply write_raise in Hw. subst s2.
  unfold stack.get_variable. cbn [stack.vars stack.set_vars].
  rewrite lookup_insert_eq.
  assert (Hget : forall cast s, cells_of s a = Py.repeat_list ALLOCATED size ->
                   cast <> NOTSET -> stack.get a cast s = Raise TypeError s).
  { intros cast s Hc Hcast. unfold stack.get. unfold cells_of in Hc. rewrite Hc.
    unfold Py.repeat_list.
    destruct (Z.to_nat size) as [|n] eqn:E; [lia|].
    assert (Hex : existsb stack.is_None (replicate (S n) ALLOCATED) = false)
      by (clear; induction (S n); simpl; auto).
    rewrite Hex. destruct cast; [reflexivity | reflexivity | contradiction]. }
  destruct v; simpl; apply Hget; try discriminate; exact Hcells.
Qed.

Lemma failed_first_write_witness :
  exists s1 s2,
    stack.allocate_variable "x" 1 ten_cells = Ok tt s1
    /\ stack.write_variable "x" (VInt 200) false s1 = Raise OverflowError s2
    /\ stack.get_variable "x" s2 = Raise TypeError s2.
Proof.
  eexists. eexists. split; [reflexivity|]. split; [reflexivity|].
  eapply failed_first_write
    with (self := ten_cells) (size := 1) (v := VInt 200) (reserved := false)
         (e := OverflowError); reflexivity.
Defined.

Lemma apply_op_size o self : stack.size (apply_op o self) = stack.size self.
Proof.
  destruct o as [name size|name|name v reserved|name]; simpl.
  - unfold stack.allocate_variable.
    destruct (stack.vars self !! name); [reflexivity|]. unfold bind, modify.
    unfold stack.allocate. destruct (stack.allocate_scan _ _ _ _ _); reflexivity.
  - unfold stack.drop_variable.
    destruct (stack.vars self !! name) as [[a d|old]|]; reflexivity.
  - unfold stack.write_variable.
    destruct (stack.vars self !! name) as [[a d|old]|]; try reflexivity.
    + unfold bind, modify, stack.write, bind, lift.
      destruct (stack.serialize _ _); [reflexivity|].
      destruct (_ <? _); [reflexivity|]. destruct (_ <? _); reflexivity.
    + destruct (negb reserved); reflexivity.
  - now rewrite get_variable_state.
Qed.

(** X8: the arena has a fixed size.  After any sequence of calls of the
    variable layer on a new stack of [N] cells, returning or raising, the
    store still has [N] cells and the stack is well formed. *)
Theorem arena_size_is_fixed (N : Z) (ops : list stack_op) :
  0 <= N ->
  stack.size (apply_ops ops (stack.init N)) = N
  /\ Py.len (stack.store (apply_ops ops (stack.init N))) = N
  /\ well_formed (apply_ops ops (stack.init N)).
Proof.
  intros HN.
  assert (Hsize : forall self, stack.size (apply_ops ops self) = stack.size self).
  { induction ops as [|o ops IH]; intros self; simpl; [reflexivity|].
    now rewrite IH, apply_op_size. }
  pose proof (apply_ops_len ops _ (stack_inv_init N)) as Hlen.
  cbn [stack.init stack.store] in Hlen. rewrite repeat_list_len in Hlen by lia.
  unfold well_formed. rewrite Hsize, Hlen. auto.
Qed.

Lemma arena_size_is_fixed_witness :
  0 <= 10
  /\ stack.size (apply_ops ten_cells_ops (stack.init 10)) = 10
  /\ Py.len (stack.store (apply_ops ten_cells_ops (stack.init 10))) = 10
  /\ well_formed (apply_ops ten_cells_ops (stack.init 10)).
Proof. split; [lia | apply (arena_size_is_fixed 10 ten_cells_ops); lia]. Defined.

(** * Further properties of the program constructor *)

Lemma span_spec f s :
  s = fst (Py.span f s) ++ snd (Py.span f s)
  /\ Forall (fun c => f c = true) (fst (Py.span f s))
  /\ (length (snd (Py.span f s)) <= length s)%nat.
Proof.
  induction s as [|c s IH]; simpl.
  - repeat split; auto.
  - destruct (f c) eqn:E; simpl.
    + destruct (Py.span f s) as [tok r]. simpl in *.
      destruct IH as (IH1 & IH2 & IH3).
      split; [congruence|]. split; [constructor; assumption | lia].
    + repeat split; auto.
Qed.

Lemma find_quote_spec s body r :
  construct.find_quote s = Some (body, r) ->
  Forall (fun c => Py.is_quote c = false) body
  /\ (length r < length s)%nat.
Proof.
  revert body r. induction s as [|c s IH]; intros body r; simpl; [discriminate|].
  destruct (Py.is_quote c) eqn:E.
  - intros [= <- <-]. split; [constructor | lia].
  - destruct (construct.find_quote s) as [[body' r']|]; simpl; [|discriminate].
    intros [= <- <-]. destruct (IH body' r' eq_refl). split; [|lia].
    constructor; assumption.
Qed.

Lemma is_quote_char c : Py.is_quote c = true -> c = dquote_char.
Proof.
  unfold Py.is_quote, Py.ord, dquote_char. intros H. apply Z.eqb_eq in H.
  rewrite <- (ascii_N_embedding c). f_equal. lia.
Qed.

Lemma chars_str_of_chars l : Py.chars (Py.str_of_chars l) = l.
Proof. apply list_ascii_of_string_of_list_ascii. Qed.

Lemma token_ok_chars l :
  l <> [] ->
  (Forall (fun c => Py.isspace c = false) l
   \/ exists body, l = dquote_char :: body ++ [dquote_char]
                   /\ Forall (fun c => Py.is_quote c = false) body) ->
  token_ok (Py.str_of_chars l).
Proof. intros H1 H2. unfold token_ok. now rewrite chars_str_of_chars. Qed.

Lemma findall_tokens_ok fuel : forall s, Forall token_ok (construct.findall_tokens fuel s).
Proof.
  induction fuel as [|fuel IH]; intros s; simpl; [constructor|].
  destruct s as [|c rest]; [constructor|].
  destruct (Py.isspace c) eqn:Hsp; [apply IH|].
  assert (Hword :
    Forall token_ok
      (let (tok, r) := Py.span (fun c => negb (Py.isspace c)) (c :: rest) in
       Py.str_of_chars tok :: construct.findall_tokens fuel r)).
  { pose proof (span_spec (fun c => negb (Py.isspace c)) (c :: rest)) as (_ & Hall & _).
    simpl in *. rewrite Hsp in *. simpl in *.
    destruct (Py.span _ rest) as [tok r]. simpl in *.
    constructor; [|apply IH].
    apply (token_ok_chars (c :: tok)); [discriminate|]. left.
    eapply Forall_impl; [exact Hall|]. simpl. intros x Hx.
    now apply negb_true_iff in Hx. }
  destruct (Py.is_quote c) eqn:Hq; [|exact Hword].
  destruct (construct.find_quote rest) as [[body r]|] eqn:Hf; [|exact Hword].
  apply find_quote_spec in Hf as [Hbody _].
  constructor; [|apply IH].
  apply is_quote_char in Hq. subst c.
  apply (token_ok_chars (dquote_char :: body ++ [dquote_char])); [discriminate|].
  right. now exists body.
Qed.

Lemma strip_comment_spec (P : string -> Prop) line :
  Forall P line ->
  Forall (fun tok => P tok /\ tok <> "//") (construct.strip_comment line).
Proof.
  induction 1 as [|tok line Htok _ IH]; simpl; [constructor|].
  destruct (String.eqb_spec tok "//"); [constructor|].
  constructor; auto.
Qed.

Lemma tokenizes_space c text toks :
  Py.isspace c = true -> tokenizes text toks -> tokenizes (c :: text) toks.
Proof.
  intros Hc H. destruct H as [ws Hws|ws tok text toks Hws H].
  - constructor. now constructor.
  - apply (tokenizes_cons (c :: ws)); [now constructor | exact H].
Qed.

Lemma find_quote_app s body r :
  construct.find_quote s = Some (body, r) ->
  exists q, Py.is_quote q = true /\ s = body ++ q :: r.
Proof.
  revert body r. induction s as [|c s IH]; intros body r; simpl; [discriminate|].
  destruct (Py.is_quote c) eqn:E.
  - intros [= <- <-]. now exists c.
  - destruct (construct.find_quote s) as [[body' r']|]; simpl; [|discriminate].
    intros [= <- <-]. destruct (IH body' r' eq_refl) as (q & Hq & ->).
    now exists q.
Qed.

(** With enough fuel the tokens that [findall_tokens] returns make up
    the text. *)
Lemma findall_tokens_tokenizes fuel :
  forall s, (length s <= fuel)%nat -> tokenizes s (construct.findall_tokens fuel s).
Proof.
  induction fuel as [|fuel IH]; intros s Hlen.
  - destruct s; [|simpl in Hlen; lia]. simpl. now constructor.
  - destruct s as [|c rest]; [simpl; now constructor|].
    cbn [construct.findall_tokens]. simpl in Hlen.
    destruct (Py.isspace c) eqn:Hsp.
    { apply tokenizes_space; [exact Hsp | apply IH; lia]. }
    assert (Hword :
      tokenizes (c :: rest)
        (let (tok, r) := Py.span (fun c => negb (Py.isspace c)) (c :: rest) in
         Py.str_of_chars tok :: construct.findall_tokens fuel r)).
    { pose proof (span_spec (fun c => negb (Py.isspace c)) rest) as (Heq & _ & Hle).
      simpl. rewrite Hsp. simpl.
      destruct (Py.span _ rest) as [tok r]. simpl in *.
      apply (tokenizes_cons [] (Py.str_of_chars (c :: tok)) r) in IH as Ht;
        [|constructor|lia].
      rewrite chars_str_of_chars in Ht. simpl in Ht. now rewrite Heq. }
    destruct (Py.is_quote c) eqn:Hq; [|exact Hword].
    destruct (construct.find_quote rest) as [[body r]|] eqn:Hf; [|exact Hword].
    pose proof (find_quote_spec _ _ _ Hf) as [_ Hr].
    apply find_quote_app in Hf as (q & Hq' & ->).
    apply is_quote_char in Hq, Hq'. subst c q.
    pose proof (tokenizes_cons []
                  (Py.str_of_chars (dquote_char :: body ++ [dquote_char])) r _
                  (List.Forall_nil _) (IH r ltac:(lia))) as Ht.
    rewrite chars_str_of_chars in Ht. simpl in Ht.
    rewrite <- app_assoc in Ht. exact Ht.
Qed.

Lemma chars_length s : length (Py.chars s) = String.length s.
Proof. induction s as [|c s IH]; simpl; [reflexivity | now rewrite IH]. Qed.

(** [strip_comment] keeps the tokens before the first comment token. *)
Lemma strip_comment_prefix toks :
  exists rest,
    toks = construct.strip_comment toks ++ rest
    /\ Forall (fun tok => tok <> "//") (construct.strip_comment toks)
    /\ (rest = [] \/ head rest = Some "//").
Proof.
  induction toks as [|tok toks (rest & Heq & Hall & Hrest)]; simpl.
  - exists []. auto.
  - destruct (String.eqb_spec tok "//") as [->|Hne].
    + exists ("//" :: toks). auto.
    + exists rest. split; [simpl; congruence|]. split; [now constructor | exact Hrest].
Qed.

(** X10: what [process_lines] returns.  It returns one list of tokens
    per line of the source, in the order of the lines.  The tokens of a
    line, in their order and with white space before, between and after
    them, make up the line, so that only white space is left out; every
    token is non-empty and is either free of white space or a quoted text
    (a double quote, a text without a double quote, a double quote); and
    the list for the line is the tokens before the first comment token
    [//], all of them when there is none: the comment token and every
    token after it are removed, and nothing else is. *)
Theorem process_lines_tokens (lines : list string) :
  Forall2 processed_from lines (construct.process_lines lines).
Proof.
  unfold construct.process_lines. apply Forall2_fmap_r, Forall_Forall2_diag.
  apply Forall_forall. intros line _.
  destruct (strip_comment_prefix (construct.LINE_REGEX_findall line))
    as (rest & Heq & Hall & Hrest).
  exists (construct.LINE_REGEX_findall line), rest.
  split; [reflexivity|]. split.
  { unfold construct.LINE_REGEX_findall. apply findall_tokens_tokenizes.
    now rewrite chars_length. }
  split; [apply findall_tokens_ok|]. auto.
Qed.

Lemma size_match_choice size group1 :
  construct.size_match size = Some group1 ->
  exists n, Py.int_of_str group1 = Some n /\ In n [1; 2; 4; 8; 16; 32; 64; 128].
Proof.
  unfold construct.size_match. intros H. apply find_some in H as [H _].
  simpl in H.
  repeat (destruct H as [H|H]; [subst group1; eexists; split;
                                  [reflexivity | simpl; auto 10]|]).
  destruct H.
Qed.

Lemma mapping_get_choice system factor :
  construct.mapping_get system = Some factor -> In factor [1024; 1000].
Proof.
  unfold construct.mapping_get, construct.SIZE_SYSTEM_MAPPING. cbn [find fst snd].
  repeat (destruct (String.eqb _ system); [intros [= <-]; simpl; tauto|]).
  intros [=].
Qed.

(** The ways in which the body of the loop accepts a line. *)
Lemma construct_line_cases pl index line st st1 :
  construct.construct_line pl index line st = Ok tt st1 ->
  (construct.in_code_block st = false /\ is_directive line
   /\ construct.in_code_block st1 = false
   /\ construct.lines (construct.program st1) = construct.lines (construct.program st)
   /\ construct.labels (construct.program st1) = construct.labels (construct.program st)
   /\ (construct.byte_size (construct.program st1)
       = construct.byte_size (construct.program st)
       \/ In (construct.byte_size (construct.program st1)) size_choices))
  \/ (line = ["."] /\ construct.in_code_block st = true
      /\ index = Py.len pl - 1 /\ st1 = st)
  \/ (is_numbered line
      /\ (construct.in_code_block st = false ->
          Py.getitem pl (index - 1) = Some ["START"])
      /\ construct.in_code_block st1 = true
      /\ construct.lines (construct.program st1)
         = construct.lines (construct.program st) ++ [code_of line]
      /\ construct.labels (construct.program st1)
         = labels_after (construct.program st) (code_of line)
      /\ construct.byte_size (construct.program st1)
         = construct.byte_size (construct.program st)).
Proof.
  unfold construct.construct_line. cbn [construct.first_case].
  destruct (construct.in_code_block st) eqn:Eb.
  - (* inside the code block *)
    assert (E1 : construct.case_START line st = None).
    { unfold construct.case_START. rewrite Eb.
      destruct line as [|kw [|]]; try reflexivity. now rewrite andb_false_r. }
    assert (E2 : construct.case_PROGRAM line st = None).
    { unfold construct.case_PROGRAM. rewrite Eb.
      destruct line as [|kw [|? [|]]]; try reflexivity. now rewrite andb_false_r. }
    assert (E3 : construct.case_SIZE line st = None).
    { unfold construct.case_SIZE. rewrite Eb.
      destruct line as [|kw [|? [|? [|]]]]; try reflexivity.
      now rewrite andb_false_r. }
    rewrite E1, E2, E3.
    destruct (construct.case_dot pl index line st) eqn:E4.
    { intros ->. right. left. unfold construct.case_dot in E4. rewrite Eb in E4.
      destruct line as [|kw [|]]; try discriminate.
      destruct (String.eqb_spec kw "."); [|discriminate]. subst kw.
      simpl in E4.
      destruct (Z.eqb_spec index (Py.len pl - 1)); [|discriminate].
      injection E4 as <-. auto. }
    destruct (construct.case_numbered pl index line st) eqn:E5; [|discriminate].
    intros ->. right. right. unfold construct.case_numbered in E5.
    destruct line as [|tok code_line]; [discriminate|].
    unfold is_numbered, line_number, code_of. cbn [drop].
    destruct (Py.isnumeric tok); simpl in E5; [|discriminate].
    destruct (Py.getitem pl (index - 1)) as [previous|]; [|discriminate].
    rewrite Eb, andb_false_r in E5.
    destruct (Py.int_of_str tok) as [n|]; [|discriminate].
    destruct ((n <=? construct.last_line st) || negb (n mod 10 =? 0));
      [discriminate|].
    injection E5 as <-. cbn.
    split; [eauto|]. split; [discriminate|]. split; [reflexivity|].
    split; [reflexivity|]. split; [|reflexivity].
    destruct code_line as [|kw [|l [|]]]; reflexivity.
  - (* before the code block *)
    destruct (construct.case_START line st) eqn:E1.
    { intros ->. left. unfold construct.case_START in E1. rewrite Eb in E1.
      destruct line as [|kw [|]]; try discriminate.
      destruct (String.eqb_spec kw "START"); [|discriminate]. subst kw.
      injection E1 as <-.
      split; [reflexivity|]. split; [now left|]. auto 6. }
    destruct (construct.case_PROGRAM line st) eqn:E2.
    { intros ->. left. unfold construct.case_PROGRAM in E2. rewrite Eb in E2.
      destruct line as [|kw [|program_name [|]]]; try discriminate.
      destruct (String.eqb_spec kw "PROGRAM"); [|discriminate]. subst kw.
      injection E2 as <-. cbn.
      split; [reflexivity|]. split; [right; left; now exists program_name|].
      auto 6. }
    destruct (construct.case_SIZE line st) eqn:E3.
    { intros ->. left. unfold construct.case_SIZE in E3. rewrite Eb in E3.
      destruct line as [|kw [|size [|system [|]]]]; try discriminate.
      destruct (String.eqb_spec kw "SIZE"); [|discriminate]. subst kw.
      cbn [andb negb] in E3.
      destruct (construct.size_match size) as [g|] eqn:Eg; [|discriminate].
      destruct (construct.mapping_get system) as [f|] eqn:Ef; [|discriminate].
      destruct (size_match_choice _ _ Eg) as (n & Hn & Hin). rewrite Hn in E3.
      injection E3 as <-. cbn.
      split; [reflexivity|]. split; [right; right; now exists size, system|].
      split; [exact Eb|]. split; [reflexivity|]. split; [reflexivity|].
      right. apply mapping_get_choice in Ef. simpl in Hin, Ef.
      destruct Ef as [<-|[<-|[]]];
        repeat (destruct Hin as [<-|Hin];
                [repeat (first [left; reflexivity | right])|]);
        destruct Hin. }
    destruct (construct.case_dot pl index line st) eqn:E4.
    { intros ->. unfold construct.case_dot in E4. rewrite Eb in E4.
      destruct line as [|kw [|]]; try discriminate.
      destruct (String.eqb kw "."); discriminate. }
    destruct (construct.case_numbered pl index line st) eqn:E5; [|discriminate].
    intros ->. right. right. unfold construct.case_numbered in E5.
    destruct line as [|tok code_line]; [discriminate|].
    unfold is_numbered, line_number, code_of. cbn [drop].
    destruct (Py.isnumeric tok); simpl in E5; [|discriminate].
    destruct (Py.getitem pl (index - 1)) as [previous|]; [|discriminate].
    rewrite Eb, andb_true_r in E5. unfold construct.tokens_eqb in E5.
    destruct (bool_decide_reflect (previous = ["START"])) as [Hp|Hp];
      [|discriminate]. simpl in E5.
    destruct (Py.int_of_str tok) as [n|]; [|discriminate].
    destruct ((n <=? construct.last_line st) || negb (n mod 10 =? 0));
      [discriminate|].
    injection E5 as <-. subst previous. cbn.
    split; [eauto|]. split; [reflexivity|]. split; [reflexivity|].
    split; [reflexivity|]. split; [|reflexivity].
    destruct code_line as [|kw [|l [|]]]; reflexivity.
Qed.

(** An invariant of the body of the loop is an invariant of the loop. *)
Lemma construct_loop_inv (P : construct.locals -> Prop) pl :
  (forall index line st st1,
      P st -> construct.construct_line pl index line st = Ok tt st1 -> P st1) ->
  forall todo index st st',
    P st -> construct.construct_loop pl index todo st = Ok tt st' -> P st'.
Proof.
  intros Hstep. induction todo as [|line rest IH]; intros index st st' HP; simpl.
  - now intros [= <-].
  - unfold bind.
    destruct (construct.construct_line pl index line st) as [[] st1|] eqn:E;
      [|discriminate].
    apply IH. exact (Hstep _ _ _ _ HP E).
Qed.

Lemma construct_program_inv (P : construct.locals -> Prop) lines prog :
  P construct.initial ->
  (forall pl index line st st1,
      P st -> construct.construct_line pl index line st = Ok tt st1 -> P st1) ->
  construct.construct_program lines = inr prog ->
  exists st, P st /\ construct.program st = prog.
Proof.
  intros H0 Hstep. unfold construct.construct_program, construct.construct_processed.
  destruct (construct.construct_loop _ 0 _ construct.initial) as [[] st|] eqn:E;
    [|discriminate].
  intros [= <-]. exists st. split; [|reflexivity].
  exact (construct_loop_inv P _ (Hstep _) _ _ _ _ H0 E).
Qed.

Lemma getitem_nonneg {A} (l : list A) i :
  0 <= i -> Py.getitem l i = l !! Z.to_nat i.
Proof. intros H. unfold Py.getitem. destruct (Z.ltb_spec i 0); [lia|reflexivity]. Qed.

Lemma labels_after_cases p cl :
  (labels_after p cl = construct.labels p /\ forall label, cl <> ["lbl"; label])
  \/ exists label, cl = ["lbl"; label]
                   /\ labels_after p cl
                      = <[label := Py.len (construct.lines p)]> (construct.labels p).
Proof.
  unfold labels_after. destruct cl as [|kw [|l0 [|]]];
    try (left; split; [reflexivity | discriminate]).
  destruct (String.eqb_spec kw "lbl") as [->|Hkw].
  - right. now exists l0.
  - left. split; [reflexivity|]. congruence.
Qed.

Lemma labels_ok_append p p' cl :
  construct.lines p' = construct.lines p ++ [cl] ->
  construct.labels p' = labels_after p cl ->
  labels_ok p -> labels_ok p'.
Proof.
  intros Hlines Hlabels Hok label. rewrite Hlines, Hlabels.
  set (L := construct.lines p) in *.
  assert (Hlen : Py.len (L ++ [cl]) = Py.len L + 1)
    by (unfold Py.len; rewrite length_app; simpl; lia).
  assert (Hold : forall (x : list string),
             x <> cl ->
             match construct.labels p !! label with
             | Some i =>
                 0 <= i < Py.len L /\ Py.getitem L i = Some x
                 /\ (forall j, i < j -> Py.getitem L j <> Some x)
             | None => forall j : nat, L !! j <> Some x
             end ->
             match construct.labels p !! label with
             | Some i =>
                 0 <= i < Py.len (L ++ [cl]) /\ Py.getitem (L ++ [cl]) i = Some x
                 /\ (forall j, i < j -> Py.getitem (L ++ [cl]) j <> Some x)
             | None => forall j : nat, (L ++ [cl]) !! j <> Some x
             end).
  { intros x Hx H. destruct (construct.labels p !! label) as [i|].
    - destruct H as (Hi & Hget & Hlater). split; [lia|]. split.
      + rewrite getitem_nonneg in * by lia.
        apply lookup_app_l_Some. exact Hget.
      + intros j Hj Hsome. rewrite getitem_nonneg in Hsome by lia.
        apply lookup_snoc_Some in Hsome as [[_ Hsome]|[_ Hsome]]; [|congruence].
        apply (Hlater j Hj). now rewrite getitem_nonneg by lia.
    - intros j Hsome.
      apply lookup_snoc_Some in Hsome as [[_ Hsome]|[_ Hsome]]; [|congruence].
      exact (H j Hsome). }
  specialize (Hok label). fold L in Hok.
  destruct (labels_after_cases p cl) as [[-> Hcl]|(l0 & -> & ->)].
  - apply Hold; [apply not_eq_sym, Hcl | exact Hok].
  - destruct (decide (l0 = label)) as [->|Hne].
    + rewrite lookup_insert_eq. fold L. split; [unfold Py.len in *; lia|]. split.
      * rewrite getitem_nonneg by (unfold Py.len; lia).
        rewrite lookup_app_r by (unfold Py.len; lia).
        unfold Py.len. rewrite Nat2Z.id, Nat.sub_diag. reflexivity.
      * intros j Hj Hsome. rewrite getitem_nonneg in Hsome by (unfold Py.len in *; lia).
        apply lookup_lt_Some in Hsome. unfold Py.len in *.
        rewrite length_app in Hsome. simpl in Hsome. lia.
    + rewrite lookup_insert_ne by assumption.
      apply Hold; [congruence | exact Hok].
Qed.

Lemma labels_ok_initial : labels_ok (construct.program construct.initial).
Proof. intros label. simpl. rewrite lookup_empty. intros j. now rewrite lookup_nil. Qed.

Lemma labels_ok_ext p p' :
  construct.lines p' = construct.lines p ->
  construct.labels p' = construct.labels p -> labels_ok p -> labels_ok p'.
Proof. intros Hl Hlab H label. rewrite Hl, Hlab. apply H. Qed.

Lemma labels_ok_constructed (lines : list string) (prog : construct.Program) :
  construct.construct_program lines = inr prog -> labels_ok prog.
Proof.
  intros H.
  destruct (construct_program_inv (fun st => labels_ok (construct.program st))
              lines prog labels_ok_initial) as (st & Hok & <-); [|exact H|exact Hok].
  intros pl index line st st1 Hst Hline.
  apply construct_line_cases in Hline
    as [(_ & _ & _ & Hl & Hlab & _)|[(_ & _ & _ & ->)|(_ & _ & _ & Hl & Hlab & _)]].
  - exact (labels_ok_ext _ _ Hl Hlab Hst).
  - exact Hst.
  - exact (labels_ok_append _ _ _ Hl Hlab Hst).
Qed.

(** X11: the label table of a constructed program.  Every label is bound
    to the index of the last [lbl] line that names it, which is an index
    of the program, and a name for which there is no [lbl] line is
    unbound. *)
Theorem constructed_labels (lines : list string) (prog : construct.Program) :
  construct.construct_program lines = inr prog -> labels_ok prog.
Proof. exact (labels_ok_constructed lines prog). Qed.

Lemma constructed_labels_witness :
  construct.lines (constructed source_full)
  = [["lbl"; "L"]; ["out"; quoted "a b"]; ["lbl"; "L"]; ["jeq"; "L"]]
  /\ construct.labels (constructed source_full) !! "L" = Some 2
  /\ labels_ok (constructed source_full).
Proof.
  split; [reflexivity|]. split; [reflexivity|].
  apply (constructed_labels source_full). reflexivity.
Defined.

Lemma byte_size_constructed (lines : list string) (prog : construct.Program) :
  construct.construct_program lines = inr prog ->
  (construct.byte_size prog = 8192 \/ In (construct.byte_size prog) size_choices)
  /\ 1000 <= construct.byte_size prog <= 131072.
Proof.
  intros H.
  destruct (construct_program_inv
              (fun st => construct.byte_size (construct.program st) = 8192
                         \/ In (construct.byte_size (construct.program st)) size_choices)
              lines prog) as (st & Hok & <-); [now left| |exact H|].
  - intros pl index line st st1 Hst Hline.
    apply construct_line_cases in Hline
      as [(_ & _ & _ & _ & _ & [->|Hb])|[(_ & _ & _ & ->)|(_ & _ & _ & _ & _ & ->)]];
      auto.
  - split; [exact Hok|]. destruct Hok as [->|Hin]; [lia|].
    unfold size_choices in Hin. simpl in Hin.
    repeat (destruct Hin as [<-|Hin]; [lia|]). destruct Hin.
Qed.

(** X12: the memory budget of a constructed program is the default of
    8192 bytes or one of the sixteen products of 1, 2, 4, ..., 128 with
    1024 or 1000; it is at least 1000 and at most 131072. *)
Theorem constructed_byte_size (lines : list string) (prog : construct.Program) :
  construct.construct_program lines = inr prog ->
  (construct.byte_size prog = 8192 \/ In (construct.byte_size prog) size_choices)
  /\ 1000 <= construct.byte_size prog <= 131072.
Proof. exact (byte_size_constructed lines prog). Qed.

Lemma constructed_byte_size_witness :
  construct.byte_size (constructed source_full) = 2048
  /\ (construct.byte_size (constructed source_full) = 8192
      \/ In (construct.byte_size (constructed source_full)) size_choices)
  /\ 1000 <= construct.byte_size (constructed source_full) <= 131072.
Proof.
  split; [reflexivity|].
  apply (constructed_byte_size source_full). reflexivity.
Defined.

(** The loop inside the code block: numbered lines, then at most the
    terminator, which is the last line of the source. *)
Lemma loop_in_code_block pl todo :
  forall index st st',
    construct.in_code_block st = true ->
    index + Py.len todo = Py.len pl ->
    construct.construct_loop pl index todo st = Ok tt st' ->
    exists code post,
      todo = code ++ post /\ Forall is_numbered code
      /\ (post = [] \/ post = [["."]])
      /\ construct.lines (construct.program st')
         = construct.lines (construct.program st) ++ map code_of code.
Proof.
  induction todo as [|line rest IH]; intros index st st' Hb Hidx; simpl.
  - intros [= <-]. exists [], []. simpl. rewrite app_nil_r. auto.
  - unfold bind.
    destruct (construct.construct_line pl index line st) as [[] st1|] eqn:E;
      [|discriminate].
    assert (Hlen : Py.len (line :: rest) = Py.len rest + 1)
      by (unfold Py.len; simpl; lia).
    apply construct_line_cases in E
      as [(Hb' & _)|[(-> & _ & Hlast & ->)|(Hnum & _ & Hb1 & Hl & _)]].
    + congruence.
    + destruct rest as [|x rest]; [|unfold Py.len in *; simpl in *; lia].
      simpl. intros [= <-]. exists [], [["."]]. simpl. rewrite app_nil_r. auto.
    + intros Hloop.
      destruct (IH (index + 1) st1 st' Hb1 ltac:(lia) Hloop)
        as (code & post & -> & Hcode & Hpost & Hlines).
      exists (line :: code), post. split; [reflexivity|].
      split; [now constructor|]. split; [exact Hpost|].
      rewrite Hlines, Hl. simpl. now rewrite <- app_assoc.
Qed.

Lemma not_numbered_START : ~ is_numbered ["START"].
Proof. intros [n Hn]. discriminate. Qed.

Lemma getitem_previous {A} (done todo : list A) :
  done <> [] ->
  Py.getitem (done ++ todo) (Py.len done - 1) = last done.
Proof.
  intros Hd. assert (0 < Py.len done).
  { destruct done; [contradiction|]. unfold Py.len. simpl. lia. }
  rewrite getitem_nonneg by lia. rewrite last_lookup.
  unfold Py.len in *.
  replace (Z.to_nat (Z.of_nat (length done) - 1)) with (Nat.pred (length done)) by lia.
  apply lookup_app_l. lia.
Qed.

Lemma getitem_wrap {A} (l : list A) : l <> [] -> Py.getitem l (-1) = last l.
Proof.
  intros Hl. assert (0 < Py.len l).
  { destruct l; [contradiction|]. unfold Py.len. simpl. lia. }
  unfold Py.getitem. simpl. destruct (Z.ltb_spec (-1 + Py.len l) 0); [lia|].
  rewrite last_lookup. f_equal. unfold Py.len. lia.
Qed.

(** The loop before the code block. *)
Lemma loop_before_code_block pl todo :
  forall done index st st',
    pl = done ++ todo -> index = Py.len done ->
    construct.in_code_block st = false ->
    construct.lines (construct.program st) = [] ->
    construct.construct_loop pl index todo st = Ok tt st' ->
    exists pre code post,
      todo = pre ++ code ++ post
      /\ Forall is_directive pre /\ Forall is_numbered code
      /\ (post = [] \/ (post = [["."]] /\ code <> []))
      /\ (code <> [] -> last (done ++ pre) = Some ["START"])
      /\ construct.lines (construct.program st') = map code_of code.
Proof.
  induction todo as [|line rest IH]; intros done index st st' Hpl Hidx Hb Hnil; simpl.
  - intros [= <-]. exists [], [], []. simpl. repeat split; auto. congruence.
  - unfold bind.
    destruct (construct.construct_line pl index line st) as [[] st1|] eqn:E;
      [|discriminate].
    apply construct_line_cases in E
      as [(_ & Hdir & Hb1 & Hl & _)|[(_ & Hb' & _)|(Hnum & Hstart & Hb1 & Hl & _)]].
    + intros Hloop.
      destruct (IH (done ++ [line]) (index + 1) st1 st')
        as (pre & code & post & -> & Hpre & Hcode & Hpost & Hlast & Hlines);
        try assumption.
      * now rewrite <- app_assoc.
      * subst index. unfold Py.len. rewrite length_app. simpl. lia.
      * congruence.
      * exists (line :: pre), code, post. split; [reflexivity|].
        split; [now constructor|]. split; [exact Hcode|]. split; [exact Hpost|].
        split; [|exact Hlines].
        intros Hc. specialize (Hlast Hc). now rewrite <- app_assoc in Hlast.
    + congruence.
    + intros Hloop. specialize (Hstart Hb).
      assert (Hlenpl : Py.len pl = Py.len done + Py.len rest + 1)
        by (subst pl; unfold Py.len; rewrite length_app; simpl; lia).
      destruct (loop_in_code_block pl rest (index + 1) st1 st' Hb1 ltac:(lia) Hloop)
        as (code & post & -> & Hcode & Hpost & Hlines).
      exists [], (line :: code), post. split; [reflexivity|].
      split; [constructor|]. split; [now constructor|].
      split; [destruct Hpost as [->| ->]; [now left | right; split; [reflexivity|discriminate]]|].
      split.
      * intros _. rewrite app_nil_r.
        destruct done as [|d done'].
        -- exfalso. subst index. simpl in Hstart, Hpl. subst pl.
           rewrite getitem_wrap in Hstart by discriminate.
           assert (Hall : Forall (fun l => l <> ["START"]) (line :: code ++ post)).
           { constructor; [intros ->; now apply not_numbered_START in Hnum|].
             apply Forall_app. split.
             - eapply Forall_impl; [exact Hcode|]. simpl.
               intros l Hn ->. now apply not_numbered_START in Hn.
             - destruct Hpost as [->| ->]; [constructor|].
               constructor; [discriminate | constructor]. }
           rewrite last_lookup in Hstart.
           rewrite Forall_lookup in Hall. exact (Hall _ _ Hstart eq_refl).
        -- subst index pl. rewrite getitem_previous in Hstart by discriminate.
           exact Hstart.
      * rewrite Hlines, Hl, Hnil. reflexivity.
Qed.

(** The shape of the sources that [construct_program] accepts. *)
Lemma accepted_shape (lines : list string) (prog : construct.Program) :
  construct.construct_program lines = inr prog ->
  exists pre code post,
    construct.process_lines lines = pre ++ code ++ post
    /\ Forall is_directive pre /\ Forall is_numbered code
    /\ (post = [] \/ (post = [["."]] /\ code <> []))
    /\ (code <> [] -> last pre = Some ["START"])
    /\ construct.lines prog = map code_of code.
Proof.
  unfold construct.construct_program, construct.construct_processed.
  destruct (construct.construct_loop _ 0 _ construct.initial) as [[] st|] eqn:E;
    [|discriminate].
  intros [= <-].
  exact (loop_before_code_block _ _ [] 0 construct.initial st
           eq_refl eq_refl eq_refl eq_refl E).
Qed.

(** X13: the sources that [construct_program] accepts.  The processed
    lines are directives ([START], [PROGRAM name], [SIZE size system]),
    then numbered lines, then at most one terminator line, which only
    follows code; when there is code, the line before the first numbered
    line is [START]; and the instructions of the program are the numbered
    lines without their numbers, in their order. *)
Theorem accepted_source_shape (lines : list string) (prog : construct.Program) :
  construct.construct_program lines = inr prog ->
  exists pre code post,
    construct.process_lines lines = pre ++ code ++ post
    /\ Forall is_directive pre /\ Forall is_numbered code
    /\ (post = [] \/ (post = [["."]] /\ code <> []))
    /\ (code <> [] -> last pre = Some ["START"])
    /\ construct.lines prog = map code_of code.
Proof. exact (accepted_shape lines prog). Qed.

Lemma accepted_source_shape_witness :
  construct.process_lines source_full
  = [["PROGRAM"; quoted "two words"]; ["SIZE"; "2K"; "BIN"]; ["START"];
     ["10"; "lbl"; "L"]; ["20"; "out"; quoted "a b"]; ["30"; "lbl"; "L"];
     ["40"; "jeq"; "L"]; ["."]]
  /\ exists pre code post,
       construct.process_lines source_full = pre ++ code ++ post
       /\ Forall is_directive pre /\ Forall is_numbered code
       /\ (post = [] \/ (post = [["."]] /\ code <> []))
       /\ (code <> [] -> last pre = Some ["START"])
       /\ construct.lines (constructed source_full) = map code_of code.
Proof.
  split; [reflexivity|].
  apply (accepted_source_shape source_full). reflexivity.
Defined.

(** X14: a line that is only a comment is not accepted.  When the first
    token of a line of the source is the comment token, nothing is left of
    the line, no case of [construct_program] matches, and the program is
    not constructed. *)
Theorem comment_line_is_rejected (lines : list string) (line : string) :
  In line lines ->
  head (construct.LINE_REGEX_findall line) = Some "//" ->
  exists e, construct.construct_program lines = inl e.
Proof.
  intros Hin Hhead.
  destruct (construct.construct_program lines) as [e|prog] eqn:E; [now exists e|].
  exfalso. apply accepted_shape in E
    as (pre & code & post & Hpl & Hpre & Hcode & Hpost & _).
  assert (Hmem : In [] (construct.process_lines lines)).
  { unfold construct.process_lines. apply in_map_iff. exists line. split; [|exact Hin].
    destruct (construct.LINE_REGEX_findall line) as [|tok toks]; [discriminate|].
    injection Hhead as ->. reflexivity. }
  rewrite Hpl in Hmem. apply in_app_or in Hmem as [Hm|Hm];
    [|apply in_app_or in Hm as [Hm|Hm]].
  - rewrite Forall_forall in Hpre.
    destruct (Hpre [] ltac:(now apply list_elem_of_In))
      as [H|[(n & H)|(a & b & H)]]; discriminate.
  - rewrite Forall_forall in Hcode.
    destruct (Hcode [] ltac:(now apply list_elem_of_In)) as [n Hn]. discriminate.
  - destruct Hpost as [->|[-> _]]; simpl in Hm; [destruct Hm|].
    destruct Hm as [Hm|[]]. discriminate.
Qed.

Lemma comment_line_is_rejected_witness :
  In "// only a comment" source_comment_line
  /\ head (construct.LINE_REGEX_findall "// only a comment") = Some "//"
  /\ construct.construct_program source_comment_line = inl Exception
  /\ exists e, construct.construct_program source_comment_line = inl e.
Proof.
  assert (Hin : In "// only a comment" source_comment_line) by (simpl; auto).
  split; [exact Hin|]. split; [reflexivity|]. split; [reflexivity|].
  exact (comment_line_is_rejected source_comment_line "// only a comment"
           Hin eq_refl).
Defined.

(** * Further properties of the engine *)

(** ** Predicates that every instruction keeps *)

Section Stable.
Variable unicode_escape : string -> option string.
Variable program : construct.Program.
Variable P : main.machine -> Prop.

Hypothesis P_get : forall name,
  preserves P (main.on_stack (stack.get_variable name)).
Hypothesis P_allocate : forall name size,
  preserves P (main.on_stack (stack.allocate_variable name size)).
Hypothesis P_write : forall name v,
  preserves P (main.on_stack (stack.write_variable name v false)).
Hypothesis P_float : forall name,
  preserves P (main.on_stack (main.write_variable_float name)).
Hypothesis P_drop : forall name,
  preserves P (main.on_stack (stack.drop_variable name)).
Hypothesis P_print : forall text, preserves P (main.print text).
Hypothesis P_input : forall prompt, preserves P (main.input prompt).
Hypothesis P_result : forall r,
  preserves P (modify (main.set_comparison_result r)).

Local Abbreviation process_value := (main.process_value unicode_escape).
Local Abbreviation execute := (main.execute unicode_escape program).

Ltac step_stable :=
  first
    [ apply preserves_ret | apply preserves_raise | apply preserves_lift
    | apply preserves_gets | apply P_get | apply P_allocate | apply P_write
    | apply P_float | apply P_drop | apply P_print | apply P_input
    | apply P_result
    | apply preserves_foldM; intros
    | apply preserves_bind; [|intros]
    | match goal with
      | |- preserves _ (match ?x with _ => _ end) => destruct x
      end ].

Lemma process_value_stable value : preserves P (process_value value).
Proof. unfold main.process_value. repeat step_stable. Qed.

Lemma handle_variable_stable regex variable :
  preserves P (main.handle_variable regex variable).
Proof. unfold main.handle_variable. apply preserves_lift. Qed.

Ltac case_stable :=
  repeat first [ apply process_value_stable | apply handle_variable_stable
               | step_stable ].

Lemma case_out_stable line c :
  main.case_out unicode_escape line = Some c -> preserves P c.
Proof. unfold main.case_out. open_case. case_stable. Qed.

Lemma case_lbl_stable line c : main.case_lbl line = Some c -> preserves P c.
Proof. unfold main.case_lbl. open_case. case_stable. Qed.

Lemma case_cls_stable line c : main.case_cls line = Some c -> preserves P c.
Proof. unfold main.case_cls. open_case. case_stable. Qed.

Lemma case_alc_stable line c : main.case_alc line = Some c -> preserves P c.
Proof. unfold main.case_alc. open_case. case_stable. Qed.

Lemma case_inp_stable line c :
  main.case_inp unicode_escape line = Some c -> preserves P c.
Proof. unfold main.case_inp. open_case. case_stable. Qed.

Lemma case_arith_stable line c :
  main.case_arith unicode_escape line = Some c -> preserves P c.
Proof. unfold main.case_arith. open_case. case_stable. Qed.

Lemma case_cst_stable line c : main.case_cst line = Some c -> preserves P c.
Proof. unfold main.case_cst. open_case. case_stable. Qed.

Lemma case_cmp_stable line c :
  main.case_cmp unicode_escape line = Some c -> preserves P c.
Proof. unfold main.case_cmp. open_case. case_stable. Qed.

Lemma case_drp_stable line c : main.case_drp line = Some c -> preserves P c.
Proof. unfold main.case_drp. open_case. case_stable. Qed.

Lemma case_set_stable line c :
  main.case_set unicode_escape line = Some c -> preserves P c.
Proof. unfold main.case_set. open_case. case_stable. Qed.

(** A jump that is not taken leaves the state as it is. *)
Lemma case_jump_stable line c m :
  main.case_jump program line = Some c -> P m ->
  (forall m1, c m <> Ok main.Continue m1) -> P (state_of (c m)).
Proof.
  unfold main.case_jump. open_case. unfold bind, gets.
  destruct (bool_decide _); [|intros H _; exact H].
  unfold lift, main.opt_or. destruct (_ !! _); cbn.
  - intros _ H. exfalso. eapply H. reflexivity.
  - intros H _. exact H.
Qed.

(** Every instruction but a jump that is taken keeps [P]. *)
Lemma execute_stable m :
  P m -> (forall m1, execute m <> Ok main.Continue m1) -> P (state_of (execute m)).
Proof.
  intros H. unfold main.execute.
  destruct (Py.getitem _ _) as [line|]; [|intros _; exact H].
  cbn [construct.first_case].
  destruct (main.case_out _ line) eqn:E1;
    [intros _; exact (case_out_stable _ _ E1 m H)|].
  destruct (main.case_lbl line) eqn:E2;
    [intros _; exact (case_lbl_stable _ _ E2 m H)|].
  destruct (main.case_cls line) eqn:E3;
    [intros _; exact (case_cls_stable _ _ E3 m H)|].
  destruct (main.case_alc line) eqn:E4;
    [intros _; exact (case_alc_stable _ _ E4 m H)|].
  destruct (main.case_inp _ line) eqn:E5;
    [intros _; exact (case_inp_stable _ _ E5 m H)|].
  destruct (main.case_arith _ line) eqn:E6;
    [intros _; exact (case_arith_stable _ _ E6 m H)|].
  destruct (main.case_cst line) eqn:E7;
    [intros _; exact (case_cst_stable _ _ E7 m H)|].
  destruct (main.case_cmp _ line) eqn:E8;
    [intros _; exact (case_cmp_stable _ _ E8 m H)|].
  destruct (main.case_jump _ line) eqn:E9;
    [intros Hc; exact (case_jump_stable _ _ _ E9 H Hc)|].
  destruct (main.case_drp line) eqn:E10;
    [intros _; exact (case_drp_stable _ _ E10 m H)|].
  destruct (main.case_set _ line) eqn:E11;
    [intros _; exact (case_set_stable _ _ E11 m H)|].
  intros _. exact H.
Qed.

(** When a change of the current line keeps [P] as well, every
    instruction keeps it. *)
Lemma execute_stable_line m :
  (forall n m', P m' -> P (main.set_current_line n m')) ->
  P m -> P (state_of (execute m)).
Proof.
  intros Hline H. pose proof (execute_stable m H) as Hs.
  destruct (execute m) as [[] m1|e m1] eqn:E; cbn [state_of] in *.
  - apply Hs. intros m2 [=].
  - destruct (execute_continue _ _ _ _ E) as (j & l & t & _ & _ & _ & _ & ->).
    apply Hline, H.
  - apply Hs. intros m2 [=].
Qed.

End Stable.

(** ** The flow of control *)

Lemma on_stack_line {A} (c : M stack.Stack A) n :
  preserves (fun m => main.current_line m = n) (main.on_stack c).
Proof. intros m H. unfold main.on_stack. destruct (c _); exact H. Qed.

Lemma input_line prompt n :
  preserves (fun m => main.current_line m = n) (main.input prompt).
Proof. intros m H. unfold main.input. destruct (main.stdin m); exact H. Qed.

(** An instruction that does not jump leaves the current line alone,
    whether it returns or raises. *)
Lemma execute_line ue program m :
  (forall m1, main.execute ue program m <> Ok main.Continue m1) ->
  main.current_line (state_of (main.execute ue program m)) = main.current_line m.
Proof.
  intros Hc.
  apply (execute_stable ue program
           (fun m' => main.current_line m' = main.current_line m));
    try (intros; apply on_stack_line); try (intros; apply input_line); auto.
  all: intros ? m' H; exact H.
Qed.

Lemma step_next_cases ue program m m' :
  reachable ue program m -> main.step ue program m = main.Next m' ->
  main.current_line m <= Py.len (construct.lines program) - 1
  /\ (main.current_line m' = main.current_line m + 1
      \/ exists label,
           Py.getitem (construct.lines program) (main.current_line m)
           = Some ["jeq"; label]
           /\ main.comparison_result m = Some "jeq"
           /\ construct.labels program !! label = Some (main.current_line m')
           /\ m' = main.set_current_line (main.current_line m') m).
Proof.
  intros Hr Hs. pose proof (reachable_inv _ _ _ Hr) as Hi.
  pose proof (execute_inv ue program m Hi) as He.
  pose proof (execute_line ue program m) as Hl.
  unfold main.step in Hs.
  destruct (Z.leb_spec (main.current_line m)
              (Py.len (construct.lines program) - 1)) as [Hle|]; [|discriminate].
  split; [exact Hle|].
  destruct (main.execute ue program m) as [[] m1|e m1] eqn:E; cbn [state_of] in *.
  - left. destruct (finish_next 0 m1 He) as (m2 & Hf & _ & _ & Hline & _).
    rewrite Hf in Hs. injection Hs as <-. rewrite Hline, Hl; [reflexivity|].
    intros m3 [=].
  - right. injection Hs as <-.
    destruct (only_jeq_jumps ue program m m1 Hr E) as [label Hlab].
    destruct (execute_continue _ _ _ _ E)
      as (j & l & t & Hline & _ & Hres & Hlbl & ->).
    rewrite Hline in Hlab. injection Hlab as -> ->. exists label. cbn. auto.
  - destruct (isinstance_StackError e); [discriminate|].
    left. destruct (finish_next 1 m1 He) as (m2 & Hf & _ & _ & Hline & _).
    rewrite Hf in Hs. injection Hs as <-. rewrite Hline, Hl; [reflexivity|].
    intros m3 [=].
Qed.

(** X15: the flow of control.  An iteration of the loop that does not
    end the run goes to the next line, also when the instruction raised an
    exception; the one exception is a [jeq] that is taken after a
    comparison of equal operands, which goes to the line of its label and
    changes nothing else. *)
Theorem next_line_or_jeq_target ue program (m m' : main.machine) :
  reachable ue program m -> main.step ue program m = main.Next m' ->
  main.current_line m <= Py.len (construct.lines program) - 1
  /\ (main.current_line m' = main.current_line m + 1
      \/ exists label,
           Py.getitem (construct.lines program) (main.current_line m)
           = Some ["jeq"; label]
           /\ main.comparison_result m = Some "jeq"
           /\ construct.labels program !! label = Some (main.current_line m')
           /\ m' = main.set_current_line (main.current_line m') m).
Proof. exact (step_next_cases ue program m m'). Qed.

Lemma next_line_or_jeq_target_witness :
  exists m2 m3,
    after unicode_escape_plain (constructed source_flag_jump) 2
          (main.start (constructed source_flag_jump) []) = Some m2
    /\ main.step unicode_escape_plain (constructed source_flag_jump) m2 = main.Next m3
    /\ main.current_line m2 = 2 /\ main.current_line m3 = 3
    /\ main.current_line m2 <= Py.len (construct.lines (constructed source_flag_jump)) - 1
    /\ (main.current_line m3 = main.current_line m2 + 1
        \/ exists label,
             Py.getitem (construct.lines (constructed source_flag_jump))
                        (main.current_line m2) = Some ["jeq"; label]
             /\ main.comparison_result m2 = Some "jeq"
             /\ construct.labels (constructed source_flag_jump) !! label
                = Some (main.current_line m3)
             /\ m3 = main.set_current_line (main.current_line m3) m2).
Proof.
  eexists. eexists.
  split; [vm_compute; reflexivity|].
  split; [vm_compute; reflexivity|].
  split; [reflexivity|]. split; [reflexivity|].
  apply (next_line_or_jeq_target unicode_escape_plain (constructed source_flag_jump)).
  - apply (after_reachable _ _ 2 (main.start (constructed source_flag_jump) []));
      [apply reachable_start | vm_compute; reflexivity].
  - vm_compute. reflexivity.
Defined.

Lemma reachable_line_ok ue program m :
  labels_ok program -> reachable ue program m -> line_ok program m.
Proof.
  intros Hlab. induction 1 as [console|m m' Hr IH Hstep].
  - unfold line_ok, Py.len. simpl. lia.
  - destruct (step_next_cases ue program m m' Hr Hstep)
      as (Hle & [Hn|(label & _ & _ & Hl & _)]).
    + unfold line_ok in *. lia.
    + specialize (Hlab label). rewrite Hl in Hlab. unfold line_ok. lia.
Qed.

(** X16: the current line stays within the program.  In every state of
    a run of a constructed program the current line is an index of the
    program or its length, so that [program.lines[current_line]] in the
    loop is always the line at that index: it is never out of range and a
    negative index never wraps around. *)
Theorem current_line_in_range ue (source : list string) program (m : main.machine) :
  construct.construct_program source = inr program ->
  reachable ue program m ->
  line_ok program m
  /\ (main.current_line m <= Py.len (construct.lines program) - 1 ->
      exists line,
        construct.lines program !! Z.to_nat (main.current_line m) = Some line
        /\ Py.getitem (construct.lines program) (main.current_line m) = Some line).
Proof.
  intros Hc Hr. apply labels_ok_constructed in Hc.
  pose proof (reachable_line_ok ue program m Hc Hr) as Hl.
  split; [exact Hl|]. intros Hle. unfold line_ok in Hl.
  rewrite getitem_nonneg by lia.
  destruct (construct.lines program !! Z.to_nat (main.current_line m)) as [line|] eqn:E.
  - now exists line.
  - apply lookup_ge_None in E. unfold Py.len in *. lia.
Qed.

Lemma current_line_in_range_witness :
  exists m,
    after unicode_escape_plain (constructed source_flag_jump) 3
          (main.start (constructed source_flag_jump) []) = Some m
    /\ main.current_line m = 3
    /\ line_ok (constructed source_flag_jump) m
    /\ (main.current_line m
        <= Py.len (construct.lines (constructed source_flag_jump)) - 1 ->
        exists line,
          construct.lines (constructed source_flag_jump)
            !! Z.to_nat (main.current_line m) = Some line
          /\ Py.getitem (construct.lines (constructed source_flag_jump))
                        (main.current_line m) = Some line).
Proof.
  eexists. split; [vm_compute; reflexivity|]. split; [reflexivity|].
  apply (current_line_in_range unicode_escape_plain source_flag_jump).
  - reflexivity.
  - apply (after_reachable _ _ 3 (main.start (constructed source_flag_jump) []));
      [apply reachable_start | vm_compute; reflexivity].
Defined.

(** ** How a run ends *)

Lemma step_fatal ue program m e m' :
  reachable ue program m -> main.step ue program m = main.Fatal e m' ->
  isinstance_StackError e = true
  /\ main.execute ue program m = Raise e m'.
Proof.
  intros Hr Hs. apply reachable_inv in Hr.
  pose proof (execute_inv ue program m Hr) as He.
  unfold main.step in Hs. destruct (_ <=? _); [|discriminate].
  destruct (main.execute ue program m) as [[] m1|e1 m1]; cbn [state_of] in *.
  - destruct (finish_next 0 m1 He) as (m2 & Hf & _). rewrite Hf in Hs. discriminate.
  - discriminate.
  - destruct (isinstance_StackError e1) eqn:Ei.
    + injection Hs as <- <-. auto.
    + destruct (finish_next 1 m1 He) as (m2 & Hf & _). rewrite Hf in Hs. discriminate.
Qed.

Lemma run_fatal ue program fuel :
  forall m e m', reachable ue program m ->
    main.run ue program fuel m = Some (Some e, m') ->
    isinstance_StackError e = true.
Proof.
  induction fuel as [|fuel IH]; intros m e m' Hr; simpl; [discriminate|].
  destruct (main.step ue program m) as [|m1|e1 m1] eqn:Es.
  - discriminate.
  - apply IH. exact (reachable_step _ _ _ _ Hr Es).
  - intros [= <- <-]. exact (proj1 (step_fatal _ _ _ _ _ Hr Es)).
Qed.

(** X17: the exceptions that end a run.  When the loop of [process_file]
    is left by an exception, the exception is a [StackError]: every other
    exception of an instruction is caught, and the write of the error flag
    after the instruction never raises. *)
Theorem only_stack_errors_end_a_run ue program (console : list string)
    (fuel : nat) (e : exn) (m : main.machine) :
  main.run ue program fuel (main.start program console) = Some (Some e, m) ->
  isinstance_StackError e = true.
Proof. apply run_fatal. apply reachable_start. Qed.

Lemma only_stack_errors_end_a_run_witness :
  exists m,
    main.run unicode_escape_plain (constructed source_text_overflow) 10
             (main.start (constructed source_text_overflow) [])
    = Some (Some MemoryOverflow, m)
    /\ isinstance_StackError MemoryOverflow = true.
Proof.
  eexists. split; [vm_compute; reflexivity|].
  eapply only_stack_errors_end_a_run
    with (ue := unicode_escape_plain) (program := constructed source_text_overflow)
         (console := []) (fuel := 10%nat).
  vm_compute. reflexivity.
Defined.

Lemma getitem_In {A} (l : list A) i x : Py.getitem l i = Some x -> In x l.
Proof.
  unfold Py.getitem. destruct (_ <? _); [destruct (_ <? _); [discriminate|]|];
    intros H; apply list_elem_of_In; eapply list_elem_of_lookup_2; exact H.
Qed.

Lemma step_finished ue program m :
  main.step ue program m = main.Finished ->
  ~ main.current_line m <= Py.len (construct.lines program) - 1.
Proof.
  unfold main.step, main.finish.
  destruct (Z.leb_spec (main.current_line m)
              (Py.len (construct.lines program) - 1)); [|lia].
  destruct (main.execute ue program m) as [[] m1|e m1]; try discriminate.
  - destruct (main.on_stack _ m1); discriminate.
  - destruct (isinstance_StackError e); [discriminate|].
    destruct (main.on_stack _ m1); discriminate.
Qed.

(** A run of a program without [jeq] ends within as many iterations as
    there are lines left. *)
Lemma run_jump_free ue program :
  Forall (fun line => is_jeq line = false) (construct.lines program) ->
  forall (k : nat) m,
    reachable ue program m -> line_ok program m ->
    Py.len (construct.lines program) - main.current_line m <= Z.of_nat k ->
    exists r m',
      main.run ue program (S k) m = Some (r, m')
      /\ match r with
         | None => main.current_line m' = Py.len (construct.lines program)
         | Some e => isinstance_StackError e = true
         end.
Proof.
  intros Hfree. induction k as [|k IH]; intros m Hr Hok Hk;
    cbn [main.run]; destruct (main.step ue program m) as [|m1|e m1] eqn:Es.
  - apply step_finished in Es. exists None, m. unfold line_ok in Hok.
    split; [reflexivity | lia].
  - apply step_next_cases in Es as [Hle _]; [lia | exact Hr].
  - exists (Some e), m1. split; [reflexivity|].
    exact (proj1 (step_fatal _ _ _ _ _ Hr Es)).
  - apply step_finished in Es. exists None, m. unfold line_ok in Hok.
    split; [reflexivity | lia].
  - pose proof (reachable_step _ _ _ _ Hr Es) as Hr1.
    destruct (step_next_cases _ _ _ _ Hr Es) as [Hle [Hn|(label & Hline & _)]].
    + apply IH; [exact Hr1 | unfold line_ok in *; lia | lia].
    + apply getitem_In in Hline. rewrite Forall_forall in Hfree.
      apply list_elem_of_In in Hline.
      specialize (Hfree _ Hline). discriminate.
  - exists (Some e), m1. split; [reflexivity|].
    exact (proj1 (step_fatal _ _ _ _ _ Hr Es)).
Qed.

(** X18: a program without [jeq] terminates.  When no line of the
    program is a [jeq] instruction, the loop ends within one iteration per
    line, whatever the input: either the current line has reached the end
    of the program, or a [StackError] has left the loop.  (The other jumps
    are never taken.) *)
Theorem jump_free_program_terminates ue program (console : list string) :
  Forall (fun line => is_jeq line = false) (construct.lines program) ->
  exists r m,
    main.run ue program (S (length (construct.lines program)))
             (main.start program console) = Some (r, m)
    /\ match r with
       | None => main.current_line m = Py.len (construct.lines program)
       | Some e => isinstance_StackError e = true
       end.
Proof.
  intros Hfree. apply (run_jump_free ue program Hfree).
  - apply reachable_start.
  - unfold line_ok, Py.len. simpl. lia.
  - unfold Py.len. simpl. lia.
Qed.

Lemma jump_free_program_terminates_witness :
  construct.lines (constructed source_cmp_jnq)
  = [["lbl"; "L"]; ["cmp"; "1"; "2"]; ["jnq"; "L"]; ["out"; "1"]]
  /\ exists r m,
       main.run unicode_escape_plain (constructed source_cmp_jnq)
                (S (length (construct.lines (constructed source_cmp_jnq))))
                (main.start (constructed source_cmp_jnq) []) = Some (r, m)
       /\ match r with
          | None => main.current_line m
                    = Py.len (construct.lines (constructed source_cmp_jnq))
          | Some e => isinstance_StackError e = true
          end.
Proof.
  split; [reflexivity|].
  apply (jump_free_program_terminates unicode_escape_plain
           (constructed source_cmp_jnq) []).
  repeat constructor.
Defined.

(** ** Jumps and labels *)

Lemma execute_lbl ue program m label :
  Py.getitem (construct.lines program) (main.current_line m) = Some ["lbl"; label] ->
  main.execute ue program m = Ok main.Fallthrough m.
Proof. intros H. unfold main.execute. rewrite H. reflexivity. Qed.

(** X19: a jump that is taken arrives at its label.  In a run of a
    constructed program, a jump that is taken is a [jeq]; it changes the
    current line and nothing else; the line it goes to is the last [lbl]
    line of its label; and the iteration after the jump runs this [lbl]
    line, which does nothing, so that the error flag is 0 when the first
    instruction after the label is reached. *)
Theorem taken_jump_arrives_at_label ue (source : list string) program
    (m m1 : main.machine) :
  construct.construct_program source = inr program ->
  reachable ue program m ->
  main.execute ue program m = Ok main.Continue m1 ->
  exists label,
    Py.getitem (construct.lines program) (main.current_line m) = Some ["jeq"; label]
    /\ main.step ue program m = main.Next m1
    /\ m1 = main.set_current_line (main.current_line m1) m
    /\ Py.getitem (construct.lines program) (main.current_line m1)
       = Some ["lbl"; label]
    /\ (forall j, main.current_line m1 < j ->
                  Py.getitem (construct.lines program) j <> Some ["lbl"; label])
    /\ exists m2,
         main.step ue program m1 = main.Next m2
         /\ main.current_line m2 = main.current_line m1 + 1
         /\ flag m2 = Some (ReservedRegister (VInt 0)).
Proof.
  intros Hc Hr E. apply labels_ok_constructed in Hc.
  destruct (only_jeq_jumps ue program m m1 Hr E) as [label Hline].
  destruct (execute_continue _ _ _ _ E)
    as (j & l & t & Hline' & _ & _ & Hlbl & ->).
  rewrite Hline in Hline'. injection Hline' as <- <-.
  specialize (Hc label). rewrite Hlbl in Hc. destruct Hc as (Hrange & Hl & Hlast).
  assert (Hs : main.step ue program m = main.Next (main.set_current_line t m)).
  { unfold main.step. apply getitem_bound in Hline.
    destruct (Z.leb_spec (main.current_line m)
                (Py.len (construct.lines program) - 1)); [|lia].
    now rewrite E. }
  pose proof (reachable_step _ _ _ _ Hr Hs) as Hr1.
  exists label. split; [exact Hline|]. split; [exact Hs|].
  split; [reflexivity|]. split; [exact Hl|]. split; [exact Hlast|].
  cbn [main.current_line main.set_current_line] in *.
  apply reachable_inv in Hr1.
  destruct (finish_next 0 _ Hr1) as (m2 & Hf & _ & Hflag & Hcur & _).
  exists m2. split; [|split; [exact Hcur | exact Hflag]].
  unfold main.step. cbn [main.current_line main.set_current_line].
  destruct (Z.leb_spec t (Py.len (construct.lines program) - 1)); [|lia].
  rewrite (execute_lbl ue program _ label) by exact Hl. exact Hf.
Qed.

Lemma taken_jump_arrives_at_label_witness :
  exists m m1,
    after unicode_escape_plain (constructed source_flag_jump) 2
          (main.start (constructed source_flag_jump) []) = Some m
    /\ main.execute unicode_escape_plain (constructed source_flag_jump) m
       = Ok main.Continue m1
    /\ main.current_line m = 2 /\ main.current_line m1 = 3
    /\ exists label,
         Py.getitem (construct.lines (constructed source_flag_jump))
                    (main.current_line m) = Some ["jeq"; label]
         /\ main.step unicode_escape_plain (constructed source_flag_jump) m
            = main.Next m1
         /\ m1 = main.set_current_line (main.current_line m1) m
         /\ Py.getitem (construct.lines (constructed source_flag_jump))
                       (main.current_line m1) = Some ["lbl"; label]
         /\ (forall j, main.current_line m1 < j ->
               Py.getitem (construct.lines (constructed source_flag_jump)) j
               <> Some ["lbl"; label])
         /\ exists m2,
              main.step unicode_escape_plain (constructed source_flag_jump) m1
              = main.Next m2
              /\ main.current_line m2 = main.current_line m1 + 1
              /\ flag m2 = Some (ReservedRegister (VInt 0)).
Proof.
  eexists. eexists.
  split; [vm_compute; reflexivity|].
  split; [vm_compute; reflexivity|].
  split; [reflexivity|]. split; [reflexivity|].
  apply (taken_jump_arrives_at_label unicode_escape_plain source_flag_jump).
  - reflexivity.
  - apply (after_reachable _ _ 2 (main.start (constructed source_flag_jump) []));
      [apply reachable_start | vm_compute; reflexivity].
  - vm_compute. reflexivity.
Defined.

(** X20: a jump to a label that no line defines.  In a run of a
    constructed program, a [jeq] whose label names no [lbl] line and that
    comes after a comparison of equal operands raises [KeyError]: the
    engine catches it, writes 1 into the error flag and goes to the next
    line. *)
Theorem jump_to_missing_label ue (source : list string) program
    (m : main.machine) (label : string) :
  construct.construct_program source = inr program ->
  reachable ue program m ->
  Py.getitem (construct.lines program) (main.current_line m) = Some ["jeq"; label] ->
  main.comparison_result m = Some "jeq" ->
  ~ In ["lbl"; label] (construct.lines program) ->
  main.execute ue program m = Raise KeyError m
  /\ exists m',
       main.step ue program m = main.Next m'
       /\ main.current_line m' = main.current_line m + 1
       /\ flag m' = Some (ReservedRegister (VInt 1)).
Proof.
  intros Hc Hr Hline Hres Hno. apply labels_ok_constructed in Hc.
  assert (Hl : construct.labels program !! label = None).
  { specialize (Hc label).
    destruct (construct.labels program !! label) as [i|]; [|reflexivity].
    destruct Hc as (_ & Hi & _). now apply getitem_In in Hi. }
  assert (E : main.execute ue program m = Raise KeyError m).
  { unfold main.execute. rewrite Hline. cbn. unfold bind, gets. rewrite Hres.
    rewrite bool_decide_eq_true_2 by reflexivity.
    unfold lift, main.opt_or. now rewrite Hl. }
  split; [exact E|]. apply reachable_inv in Hr.
  destruct (finish_next 1 m Hr) as (m' & Hf & _ & Hflag & Hcur & _).
  exists m'. split; [|split; [exact Hcur | exact Hflag]].
  unfold main.step. apply getitem_bound in Hline.
  destruct (Z.leb_spec (main.current_line m)
              (Py.len (construct.lines program) - 1)); [|lia].
  rewrite E. exact Hf.
Qed.

Lemma jump_to_missing_label_witness :
  construct.lines (constructed source_missing_label)
  = [["cmp"; "1"; "1"]; ["jeq"; "M"]; ["out"; "&slx"]]
  /\ (exists m,
        main.run unicode_escape_plain (constructed source_missing_label) 10
                 (main.start (constructed source_missing_label) []) = Some (None, m)
        /\ main.stdout m = ["1"])
  /\ exists m,
       after unicode_escape_plain (constructed source_missing_label) 1
             (main.start (constructed source_missing_label) []) = Some m
       /\ main.execute unicode_escape_plain (constructed source_missing_label) m
          = Raise KeyError m
       /\ exists m',
            main.step unicode_escape_plain (constructed source_missing_label) m
            = main.Next m'
            /\ main.current_line m' = main.current_line m + 1
            /\ flag m' = Some (ReservedRegister (VInt 1)).
Proof.
  split; [reflexivity|].
  split; [eexists; split; [vm_compute; reflexivity | reflexivity]|].
  eexists. split; [vm_compute; reflexivity|].
  apply (jump_to_missing_label unicode_escape_plain source_missing_label
           (constructed source_missing_label) _ "M").
  - reflexivity.
  - apply (after_reachable _ _ 1 (main.start (constructed source_missing_label) []));
      [apply reachable_start | vm_compute; reflexivity].
  - reflexivity.
  - reflexivity.
  - intros H. simpl in H. repeat (destruct H as [H|H]; [discriminate|]). exact H.
Defined.

(** ** The values of the reserved registers *)

Lemma on_stack_stack {A} (Q : stack.Stack -> Prop) (c : M stack.Stack A) :
  preserves Q c -> preserves (fun m => Q (main.stack m)) (main.on_stack c).
Proof.
  intros Hc m H. unfold main.on_stack. specialize (Hc _ H).
  destruct (c (main.stack m)); exact Hc.
Qed.

Section Binding.
Variable n : string.
Variable v : pyvalue.

Local Abbreviation bound_to :=
  (fun self => stack.vars self !! n = Some (ReservedRegister v)).

Lemma allocate_variable_binding name size :
  preserves bound_to (stack.allocate_variable name size).
Proof.
  intros self H. unfold stack.allocate_variable.
  destruct (stack.vars self !! name) eqn:Hname; [exact H|].
  unfold bind, modify. pose proof (allocate_vars size self) as Hv.
  destruct (stack.allocate size self) as [a s1|e s1]; cbn [state_of] in *.
  - cbn [stack.vars stack.set_vars].
    rewrite lookup_insert_ne by congruence. now rewrite Hv.
  - now rewrite Hv.
Qed.

Lemma write_variable_binding name value :
  preserves bound_to (stack.write_variable name value false).
Proof.
  intros self H. unfold stack.write_variable.
  destruct (stack.vars self !! name) as [[a d|old]|] eqn:Hname;
    [|exact H|exact H].
  unfold bind, modify. rewrite write_vars. cbn [stack.vars stack.set_vars].
  rewrite lookup_insert_ne by congruence. exact H.
Qed.

Lemma write_variable_float_binding name :
  preserves bound_to (main.write_variable_float name).
Proof.
  intros self H. unfold main.write_variable_float.
  destruct (stack.vars self !! name) as [[a d|old]|] eqn:Hname;
    [|exact H|exact H].
  cbn [state_of stack.vars stack.set_vars].
  rewrite lookup_insert_ne by congruence. exact H.
Qed.

Lemma drop_variable_binding name :
  preserves bound_to (stack.drop_variable name).
Proof.
  intros self H. unfold stack.drop_variable.
  destruct (stack.vars self !! name) as [[a d|old]|] eqn:Hname;
    [|exact H|exact H].
  unfold bind, stack.drop, modify.
  cbn [state_of stack.vars stack.set_vars stack.set_store].
  rewrite lookup_delete_ne by congruence. exact H.
Qed.

Lemma get_variable_binding name :
  preserves bound_to (stack.get_variable name).
Proof. intros self H. now rewrite get_variable_state. Qed.

(** No instruction changes a reserved register. *)
Lemma execute_binding ue program :
  preserves (fun m => bound_to (main.stack m)) (main.execute ue program).
Proof.
  intros m H.
  apply (execute_stable_line ue program (fun m => bound_to (main.stack m))).
  - intros name. apply (on_stack_stack bound_to), get_variable_binding.
  - intros name size. apply (on_stack_stack bound_to), allocate_variable_binding.
  - intros name value. apply (on_stack_stack bound_to), write_variable_binding.
  - intros name. apply (on_stack_stack bound_to), write_variable_float_binding.
  - intros name. apply (on_stack_stack bound_to), drop_variable_binding.
  - intros text m' H'. exact H'.
  - intros prompt m' H'. unfold main.input. destruct (main.stdin m'); exact H'.
  - intros r m' H'. exact H'.
  - intros k m' H'. exact H'.
  - exact H.
Qed.

End Binding.

Lemma finish_vars code m m' old :
  stack.vars (main.stack m) !! "slx" = Some (ReservedRegister old) ->
  main.finish code m = main.Next m' ->
  stack.vars (main.stack m')
  = <["slx" := ReservedRegister (VInt code)]> (stack.vars (main.stack m)).
Proof.
  intros H. unfold main.finish, main.on_stack, stack.write_variable. rewrite H.
  cbn. intros [= <-]. reflexivity.
Qed.

Lemma registers_ok_finish code m m' :
  code = 0 \/ code = 1 ->
  registers_ok (main.stack m) -> main.finish code m = main.Next m' ->
  registers_ok (main.stack m').
Proof.
  intros Hcode (Hy & Hz & Hx) Hf.
  assert (exists old, stack.vars (main.stack m) !! "slx" = Some (ReservedRegister old))
    as [old Hold] by (destruct Hx; eauto).
  unfold registers_ok. rewrite (finish_vars _ _ _ _ Hold Hf).
  rewrite !lookup_insert_ne by discriminate. rewrite lookup_insert_eq.
  split; [exact Hy|]. split; [exact Hz|]. destruct Hcode as [-> | ->]; auto.
Qed.

Lemma registers_ok_execute ue program m :
  registers_ok (main.stack m) ->
  registers_ok (main.stack (state_of (main.execute ue program m))).
Proof.
  intros (Hy & Hz & Hx). split; [|split].
  - exact (execute_binding "sly" (VInt 0) ue program m Hy).
  - exact (execute_binding "slz" (VInt 0) ue program m Hz).
  - destruct Hx as [Hx|Hx];
      [left; exact (execute_binding "slx" (VInt 0) ue program m Hx)
      |right; exact (execute_binding "slx" (VInt 1) ue program m Hx)].
Qed.

Lemma reachable_registers ue program m :
  reachable ue program m -> registers_ok (main.stack m).
Proof.
  induction 1 as [console|m m' Hr IH Hstep].
  - repeat split. now left.
  - pose proof (registers_ok_execute ue program m IH) as He.
    unfold main.step in Hstep. destruct (_ <=? _); [|discriminate].
    destruct (main.execute ue program m) as [[] m1|e m1]; cbn [state_of] in He.
    + exact (registers_ok_finish 0 m1 m' ltac:(now left) He Hstep).
    + now injection Hstep as <-.
    + destruct (isinstance_StackError e); [discriminate|].
      exact (registers_ok_finish 1 m1 m' ltac:(now right) He Hstep).
Qed.

(** X21: the values of the reserved registers.  In every state of a run,
    reading [sly] or [slz] gives 0 and reading the error flag [slx] gives
    0 or 1: no instruction writes a reserved register, and the engine
    writes only 0 or 1, and only into [slx]. *)
Theorem reserved_register_values ue program (m : main.machine) :
  reachable ue program m ->
  stack.get_variable "sly" (main.stack m) = Ok (VInt 0) (main.stack m)
  /\ stack.get_variable "slz" (main.stack m) = Ok (VInt 0) (main.stack m)
  /\ (stack.get_variable "slx" (main.stack m) = Ok (VInt 0) (main.stack m)
      \/ stack.get_variable "slx" (main.stack m) = Ok (VInt 1) (main.stack m)).
Proof.
  intros Hr. apply reachable_registers in Hr as (Hy & Hz & Hx).
  unfold stack.get_variable. rewrite Hy, Hz.
  split; [reflexivity|]. split; [reflexivity|].
  destruct Hx as [-> | ->]; auto.
Qed.

Lemma reserved_register_values_witness :
  exists m,
    after unicode_escape_plain (constructed source_flag_jump) 2
          (main.start (constructed source_flag_jump) []) = Some m
    /\ stack.get_variable "slx" (main.stack m) = Ok (VInt 1) (main.stack m)
    /\ stack.get_variable "sly" (main.stack m) = Ok (VInt 0) (main.stack m)
    /\ stack.get_variable "slz" (main.stack m) = Ok (VInt 0) (main.stack m)
    /\ (stack.get_variable "slx" (main.stack m) = Ok (VInt 0) (main.stack m)
        \/ stack.get_variable "slx" (main.stack m) = Ok (VInt 1) (main.stack m)).
Proof.
  eexists. split; [vm_compute; reflexivity|]. split; [reflexivity|].
  apply (reserved_register_values unicode_escape_plain (constructed source_flag_jump)).
  apply (after_reachable _ _ 2 (main.start (constructed source_flag_jump) []));
    [apply reachable_start | vm_compute; reflexivity].
Defined.

(** ** Instructions that cannot succeed *)

Lemma process_value_state ue value m :
  state_of (main.process_value ue value m) = m.
Proof.
  symmetry.
  apply (process_value_stable ue (fun m' => m = m')); [|reflexivity].
  intros name m' <-. unfold main.on_stack.
  pose proof (get_variable_state (main.stack m) name) as H.
  destruct (stack.get_variable name (main.stack m)); cbn in *; subst;
    now destruct m.
Qed.

Lemma apply_operator_div a b v : main.apply_operator "div" a b <> main.AValue v.
Proof.
  unfold main.apply_operator. cbn.
  destruct a as [x|x], b as [y|y]; try discriminate.
  destruct (y =? 0); [discriminate|].
  destruct (main.float_overflow x y); discriminate.
Qed.

Lemma finish_stack code m m' old :
  stack.vars (main.stack m) !! "slx" = Some (ReservedRegister old) ->
  main.finish code m = main.Next m' ->
  stack.store (main.stack m') = stack.store (main.stack m)
  /\ main.current_line m' = main.current_line m + 1
  /\ flag m' = Some (ReservedRegister (VInt code)).
Proof.
  intros H. unfold main.finish, main.on_stack, stack.write_variable. rewrite H.
  cbn. intros [= <-]. repeat split. unfold flag. cbn. apply lookup_insert_eq.
Qed.

Lemma execute_div ue program m num1 num2 variable :
  Py.getitem (construct.lines program) (main.current_line m)
  = Some ["div"; num1; num2; ">"; variable] ->
  exists e m1,
    main.execute ue program m = Raise e m1
    /\ stack.store (main.stack m1) = stack.store (main.stack m)
    /\ main.current_line m1 = main.current_line m.
Proof.
  intros Hline.
  assert (E : main.execute ue program m
              = (name <- main.handle_variable main.variable_regex variable ;;
                 a <- main.process_value ue num1 ;;
                 b <- main.process_value ue num2 ;;
                 match main.apply_operator "div" a b with
                 | main.AValue v => main.on_stack (stack.write_variable name v false)
                 | main.AFloat => main.on_stack (main.write_variable_float name)
                 | main.ARaise e => raise e
                 end ;;;
                 ret main.Fallthrough) m)
    by (unfold main.execute; rewrite Hline; reflexivity).
  rewrite E. unfold bind, main.handle_variable, lift, main.opt_or.
  destruct (main.variable_regex variable) as [name|]; [|now eexists; eexists].
  pose proof (process_value_state ue num1 m) as H1.
  destruct (main.process_value ue num1 m) as [a m1|e m1]; cbn [state_of] in H1;
    subst m1; [|now eexists; eexists].
  pose proof (process_value_state ue num2 m) as H2.
  destruct (main.process_value ue num2 m) as [b m2|e m2]; cbn [state_of] in H2;
    subst m2; [|now eexists; eexists].
  destruct (main.apply_operator "div" a b) as [v| |e] eqn:Eop.
  - now apply apply_operator_div in Eop.
  - unfold main.on_stack, main.write_variable_float.
    destruct (stack.vars (main.stack m) !! name) as [[al d|old]|];
      eexists; eexists; split; try reflexivity; split; reflexivity.
  - now eexists; eexists.
Qed.

(** X23: a division never stores a result.  The quotient of [div] is a
    float, which the stack cannot serialize: whatever the operands and
    the variable, the instruction raises and leaves every cell of the
    store as it was; when the run goes on, the error flag is 1. *)
Theorem div_never_stores ue program (m : main.machine)
    (num1 num2 variable : string) :
  reachable ue program m ->
  Py.getitem (construct.lines program) (main.current_line m)
  = Some ["div"; num1; num2; ">"; variable] ->
  (exists e m1,
      main.execute ue program m = Raise e m1
      /\ stack.store (main.stack m1) = stack.store (main.stack m))
  /\ forall m',
       main.step ue program m = main.Next m' ->
       flag m' = Some (ReservedRegister (VInt 1))
       /\ main.current_line m' = main.current_line m + 1
       /\ stack.store (main.stack m') = stack.store (main.stack m).
Proof.
  intros Hr Hline. apply reachable_inv in Hr.
  pose proof (execute_inv ue program m Hr) as Hinv.
  destruct (execute_div ue program m _ _ _ Hline) as (e & m1 & E & Hstore & Hcur).
  split; [now exists e, m1|].
  intros m'. unfold main.step. destruct (_ <=? _); [|discriminate].
  rewrite E in *. cbn [state_of] in Hinv.
  destruct (isinstance_StackError e); [discriminate|]. intros Hf.
  destruct (proj1 (proj1 Hinv) "slx" ltac:(simpl; auto)) as [old Hold].
  destruct (finish_stack 1 m1 m' old Hold Hf) as (Hs & Hc & Hflag).
  split; [exact Hflag|]. split; congruence.
Qed.

Lemma div_never_stores_witness :
  construct.lines (constructed source_div)
  = [["alc"; "&x"; ":[2]"]; ["set"; "&x"; "7"]; ["div"; "6"; "3"; ">"; "&x"];
     ["out"; "&slx"]]
  /\ (exists m,
        main.run unicode_escape_plain (constructed source_div) 10
                 (main.start (constructed source_div) []) = Some (None, m)
        /\ main.stdout m = ["1"])
  /\ exists m,
       after unicode_escape_plain (constructed source_div) 2
             (main.start (constructed source_div) []) = Some m
       /\ (exists e m1,
             main.execute unicode_escape_plain (constructed source_div) m
             = Raise e m1
             /\ stack.store (main.stack m1) = stack.store (main.stack m))
       /\ forall m',
            main.step unicode_escape_plain (constructed source_div) m
            = main.Next m' ->
            flag m' = Some (ReservedRegister (VInt 1))
            /\ main.current_line m' = main.current_line m + 1
            /\ stack.store (main.stack m') = stack.store (main.stack m).
Proof.
  split; [reflexivity|].
  split; [eexists; split; [vm_compute; reflexivity | reflexivity]|].
  eexists. split; [vm_compute; reflexivity|].
  apply (div_never_stores unicode_escape_plain (constructed source_div)
           _ "6" "3" "&x").
  - apply (after_reachable _ _ 2 (main.start (constructed source_div) []));
      [apply reachable_start | vm_compute; reflexivity].
  - reflexivity.
Defined.

(** X24: a variable that is not allocated.  An [out] of a variable that
    is not allocated (it never was, or it was dropped) raises
    [NotAllocated]; this is a [StackError], so the run ends there, with
    the state as it was before the instruction. *)
Theorem out_of_unallocated_variable_is_fatal ue program (m : main.machine)
    (name : string) :
  Py.getitem (construct.lines program) (main.current_line m)
  = Some ["out"; String "&" name] ->
  name <> EmptyString ->
  stack.vars (main.stack m) !! name = None ->
  main.step ue program m = main.Fatal (NotAllocated name) m.
Proof.
  intros Hline Hname Hvar.
  assert (E : main.execute ue program m = Raise (NotAllocated name) m).
  { unfold main.execute. rewrite Hline.
    change (construct.first_case _ _ m)
      with ((v <- main.process_value ue (String "&" name) ;;
             main.print (main.str v) ;;; ret main.Fallthrough) m).
    unfold bind, main.process_value.
    destruct name as [|c name]; [contradiction|].
    cbn. unfold main.on_stack, stack.get_variable. rewrite Hvar.
    now destruct m. }
  unfold main.step. apply getitem_bound in Hline.
  destruct (Z.leb_spec (main.current_line m)
              (Py.len (construct.lines program) - 1)); [|lia].
  now rewrite E.
Qed.

Lemma out_of_unallocated_variable_is_fatal_witness :
  construct.lines (constructed source_unallocated)
  = [["out"; "1"]; ["out"; "&x"]; ["out"; "2"]]
  /\ (exists m,
        main.run unicode_escape_plain (constructed source_unallocated) 10
                 (main.start (constructed source_unallocated) [])
        = Some (Some (NotAllocated "x"), m)
        /\ main.stdout m = ["1"])
  /\ exists m,
       after unicode_escape_plain (constructed source_unallocated) 1
             (main.start (constructed source_unallocated) []) = Some m
       /\ main.step unicode_escape_plain (constructed source_unallocated) m
          = main.Fatal (NotAllocated "x") m.
Proof.
  split; [reflexivity|].
  split; [eexists; split; [vm_compute; reflexivity | reflexivity]|].
  eexists. split; [vm_compute; reflexivity|].
  apply (out_of_unallocated_variable_is_fatal unicode_escape_plain
           (constructed source_unallocated) _ "x").
  - reflexivity.
  - discriminate.
  - reflexivity.
Defined.

(** ** The store in a run *)

Lemma apply_op_sized N o self : sized N self -> sized N (apply_op o self).
Proof.
  intros (Hok & Hs & Hl). split; [|split].
  - destruct o as [name size|name|name v reserved|name]; cbn [apply_op].
    + now apply allocate_variable_ok.
    + now apply drop_variable_ok.
    + now apply write_variable_ok.
    + now apply get_variable_ok.
  - now rewrite apply_op_size.
  - rewrite apply_op_len; [exact Hl | exact (proj2 Hok)].
Qed.

Lemma write_variable_float_sized N name :
  preserves (sized N) (main.write_variable_float name).
Proof.
  intros self (Hok & Hs & Hl). split; [now apply write_variable_float_ok|].
  unfold main.write_variable_float.
  destruct (stack.vars self !! name) as [[a d|old]|]; auto.
Qed.

Lemma execute_sized N ue program :
  preserves (fun m => sized N (main.stack m)) (main.execute ue program).
Proof.
  intros m H.
  apply (execute_stable_line ue program (fun m => sized N (main.stack m))).
  - intros name. apply (on_stack_stack (sized N)).
    intros self. exact (apply_op_sized N (GetVariable name) self).
  - intros name size. apply (on_stack_stack (sized N)).
    intros self. exact (apply_op_sized N (AllocateVariable name size) self).
  - intros name v. apply (on_stack_stack (sized N)).
    intros self. exact (apply_op_sized N (WriteVariable name v false) self).
  - intros name. apply (on_stack_stack (sized N)), write_variable_float_sized.
  - intros name. apply (on_stack_stack (sized N)).
    intros self. exact (apply_op_sized N (DropVariable name) self).
  - intros text m' H'. exact H'.
  - intros prompt m' H'. unfold main.input. destruct (main.stdin m'); exact H'.
  - intros r m' H'. exact H'.
  - intros k m' H'. exact H'.
  - exact H.
Qed.

Lemma finish_sized N code m m' :
  sized N (main.stack m) -> main.finish code m = main.Next m' ->
  sized N (main.stack m').
Proof.
  intros H. unfold main.finish, main.on_stack.
  pose proof (apply_op_sized N (WriteVariable "slx" (VInt code) true) _ H) as Hw.
  cbn [apply_op] in Hw.
  destruct (stack.write_variable _ _ _ _); [|discriminate].
  intros [= <-]. exact Hw.
Qed.

Lemma reachable_sized ue program m :
  0 <= construct.byte_size program ->
  reachable ue program m -> sized (construct.byte_size program) (main.stack m).
Proof.
  intros HN. induction 1 as [console|m m' Hr IH Hstep].
  - split; [apply stack_ok_init|]. split; [reflexivity|].
    cbn. now apply repeat_list_len.
  - pose proof (execute_sized _ ue program m IH) as He.
    unfold main.step in Hstep. destruct (_ <=? _); [|discriminate].
    destruct (main.execute ue program m) as [[] m1|e m1]; cbn [state_of] in He.
    + exact (finish_sized _ 0 m1 m' He Hstep).
    + now injection Hstep as <-.
    + destruct (isinstance_StackError e); [discriminate|].
      exact (finish_sized _ 1 m1 m' He Hstep).
Qed.

(** X25: the store in a run.  In every state of a run of a constructed
    program the store has as many cells as the memory budget of the
    program, which is also the [size] of the stack: no allocation, write
    or drop makes the store longer or shorter. *)
Theorem store_has_byte_size_cells ue (source : list string) program
    (m : main.machine) :
  construct.construct_program source = inr program ->
  reachable ue program m ->
  stack.size (main.stack m) = construct.byte_size program
  /\ Py.len (stack.store (main.stack m)) = construct.byte_size program.
Proof.
  intros Hc Hr. apply byte_size_constructed in Hc as [_ Hb].
  now destruct (reachable_sized ue program m ltac:(lia) Hr) as (_ & Hs & Hl).
Qed.

Lemma store_has_byte_size_cells_witness :
  exists m,
    after unicode_escape_plain (constructed source_echo) 2
          (main.start (constructed source_echo) ["Ann"]) = Some m
    /\ construct.byte_size (constructed source_echo) = 8192
    /\ stack.size (main.stack m) = construct.byte_size (constructed source_echo)
    /\ Py.len (stack.store (main.stack m))
       = construct.byte_size (constructed source_echo).
Proof.
  eexists. split; [vm_compute; reflexivity|]. split; [reflexivity|].
  apply (store_has_byte_size_cells unicode_escape_plain source_echo).
  - vm_compute. reflexivity.
  - apply (after_reachable _ _ 2 (main.start (constructed source_echo) ["Ann"]));
      [apply reachable_start | vm_compute; reflexivity].
Defined.

(** ** Allocation of a variable that fails *)

(** X9: when an allocation of a variable fails.  For a request of one
    cell or more: when the name is bound already, to a variable or to a
    reserved register, [allocate_variable] raises [ValueError]; when the
    name is free and the store has no run of [size] free cells, it raises
    [MemoryOverflow]; when the name is free and there is such a run, it
    returns and binds the name to an allocation of [size] cells that is
    not yet written.  Whenever it raises, the stack is as it was. *)
Theorem allocate_variable_failure (name : string) (size : Z) (self : stack.Stack) :
  1 <= size ->
  match stack.vars self !! name with
  | Some _ => stack.allocate_variable name size self = Raise ValueError self
  | None =>
      ((forall k, ~ free_run (stack.store self) k size) ->
       stack.allocate_variable name size self = Raise MemoryOverflow self)
      /\ ((exists k, free_run (stack.store self) k size) ->
          exists a self',
            stack.allocate_variable name size self = Ok tt self'
            /\ stack.vars self' !! name = Some (Register a NOTSET)
            /\ Allocation.size a = size)
  end
  /\ forall e self',
       stack.allocate_variable name size self = Raise e self' -> self' = self.
Proof.
  intros Hsize. pose proof (allocate_spec self size Hsize) as Hspec.
  unfold stack.allocate_variable, bind, modify.
  destruct (stack.vars self !! name) as [b|] eqn:Hname.
  - split; [reflexivity|]. now intros e self' [= _ <-].
  - destruct (stack.allocate size self) as [a s1|e1 s1].
    + split; [|discriminate]. split.
      * intros Hno. destruct Hspec as (Hrun & _). now apply Hno in Hrun.
      * intros _. exists a, (stack.set_vars <[name := Register a NOTSET]> s1).
        split; [reflexivity|]. split; [apply lookup_insert_eq|].
        now destruct Hspec as (_ & _ & _ & _ & Hs & _).
    + destruct Hspec as (-> & -> & Hno). split; [split|].
      * reflexivity.
      * intros [k Hk]. now apply Hno in Hk.
      * now intros e self' [= _ <-].
Qed.

Lemma allocate_variable_failure_witness :
  1 <= 5
  /\ stack.vars two_variables !! "slx" = Some (ReservedRegister (VInt 0))
  /\ stack.vars two_variables !! "z" = None
  /\ stack.allocate_variable "slx" 5 two_variables = Raise ValueError two_variables
  /\ (((forall k, ~ free_run (stack.store two_variables) k 5) ->
       stack.allocate_variable "z" 5 two_variables
       = Raise MemoryOverflow two_variables)
      /\ ((exists k, free_run (stack.store two_variables) k 5) ->
          exists a self',
            stack.allocate_variable "z" 5 two_variables = Ok tt self'
            /\ stack.vars self' !! "z" = Some (Register a NOTSET)
            /\ Allocation.size a = 5)).
Proof.
  split; [lia|]. split; [reflexivity|]. split; [reflexivity|].
  split.
  - exact (proj1 (allocate_variable_failure "slx" 5 two_variables ltac:(lia))).
  - exact (proj1 (allocate_variable_failure "z" 5 two_variables ltac:(lia))).
Defined.

(** ** The ordering branches of [cmp] *)

(** The [cmp] case is the two operands, the equality check, the
    inequality check, and then the ordering branches. *)
Lemma case_cmp_branches ue variable1 variable2 :
  main.case_cmp ue ["cmp"; variable1; variable2]
  = Some (a <- main.process_value ue variable1 ;;
          b <- main.process_value ue variable2 ;;
          (if main.eq_values a b
           then modify (main.set_comparison_result "jeq")
           else if main.ne_values a b
           then modify (main.set_comparison_result "jne")
           else main.cmp_ordering a b) ;;;
          ret main.Fallthrough).
Proof. reflexivity. Qed.

(** An iteration of the loop is the body of the [try] followed by
    [try_outcome]. *)
Lemma step_try_outcome ue program m :
  main.step ue program m
  = if main.current_line m <=? Py.len (construct.lines program) - 1
    then try_outcome (main.execute ue program m)
    else main.Finished.
Proof. reflexivity. Qed.


